(** * image-screenshot: the parallel capture script (src/main.js)

    A shallow embedding of the capture script: the width-based user-agent
    resolver, the file-name derivation (the three regular expressions the
    script applies), the single-capture task [takeSingleScreenshot] with its
    try / catch / finally structure, and the orchestrator [main] with its
    validation, its fan-out and its tally over [Promise.allSettled].

    Playwright, sharp and the file system are outside the repository: what
    each of their calls answers (returns or throws) is read from an oracle,
    and every call is recorded in a trace.  The module [Awaiting] takes the
    task and the orchestrator again with the one await that has no bound,
    the scroll script of the page, which may never resolve. *)

From Stdlib Require Import ZArith Lia Ascii String DecimalString.
From stdpp Require Import base strings list gmap.

Local Open Scope string_scope.
Local Open Scope Z_scope.

(** ** JavaScript values and strings *)

(** A JS string is modelled by [string]; one [ascii] stands for one code unit
    (the code units below 256, which is what URLs and device names use). *)

(** The values a JSON config can put in the [userAgent] field.  [JsObject]
    stands for arrays and objects, which are all truthy. *)
Inductive JsValue :=
| JsUndefined
| JsNull
| JsBool (b : bool)
| JsNumber (n : Z)
| JsString (s : string)
| JsObject.

Definition string_nonempty (s : string) : bool :=
  match s with EmptyString => false | String _ _ => true end.

(** ToBoolean. *)
Definition truthy (v : JsValue) : bool :=
  match v with
  | JsUndefined | JsNull => false
  | JsBool b => b
  | JsNumber n => negb (n =? 0)
  | JsString s => string_nonempty s
  | JsObject => true
  end.

(** [String(n)] for an integer [n]. *)
Definition String_of_Z (n : Z) : string := NilZero.string_of_int (Z.to_int n).

(** Interpolation [`${x}`] of an optional string / number field: a missing
    field prints as [undefined]. *)
Definition interp_string (x : option string) : string :=
  match x with Some s => s | None => "undefined" end.

Definition interp_number (x : option Z) : string :=
  match x with Some n => String_of_Z n | None => "undefined" end.

(** [s.padStart(targetLength, padString)]. *)
Fixpoint pad_fill (k : nat) (pad cur : string) : string :=
  match k with
  | O => ""
  | S k' =>
      match cur with
      | String c cur' => String c (pad_fill k' pad cur')
      | EmptyString =>
          match pad with
          | String c pad' => String c (pad_fill k' pad pad')
          | EmptyString => ""
          end
      end
  end.

Definition padStart (s : string) (targetLength : nat) (padString : string) : string :=
  pad_fill (targetLength - String.length s) padString padString +:+ s.

(** ** The regular expressions of the script

    Three patterns occur: [/^https?:\/\//], [/[^a-zA-Z0-9]/g] and [/\.png$/].
    The engine below covers what they use: literal characters, negated
    character classes given by ranges, the [?] quantifier, and the two
    anchors. *)

Inductive Atom :=
| Lit (c : ascii)
| NotIn (ranges : list (ascii * ascii)).

Inductive Item :=
| One (a : Atom)
| Opt (a : Atom).

Definition in_range (c : ascii) (r : ascii * ascii) : bool :=
  ((nat_of_ascii (fst r) <=? nat_of_ascii c)%nat
   && (nat_of_ascii c <=? nat_of_ascii (snd r))%nat)%bool.

Definition atom_matches (a : Atom) (c : ascii) : bool :=
  match a with
  | Lit c' => Ascii.eqb c c'
  | NotIn ranges => negb (existsb (in_range c) ranges)
  end.

(** [match_here pat at_end s]: the pattern matched at the start of [s],
    greedily with backtracking; [at_end] is the [$] anchor.  The answer is
    what follows the match. *)
Fixpoint match_here (pat : list Item) (at_end : bool) (s : string) : option string :=
  match pat with
  | [] => if at_end then (if string_nonempty s then None else Some s) else Some s
  | One a :: pat' =>
      match s with
      | String c s' => if atom_matches a c then match_here pat' at_end s' else None
      | EmptyString => None
      end
  | Opt a :: pat' =>
      let skip := match_here pat' at_end s in
      match s with
      | String c s' =>
          if atom_matches a c then
            match match_here pat' at_end s' with
            | Some r => Some r
            | None => skip
            end
          else skip
      | EmptyString => skip
      end
  end.

(** [s.replace(/^pat/, repl)]: only position 0 is tried. *)
Definition replace_at_start (pat : list Item) (repl s : string) : string :=
  match match_here pat false s with
  | Some rest => repl +:+ rest
  | None => s
  end.

(** [s.replace(/pat/, repl)] and [s.replace(/pat$/, repl)]: the leftmost
    match is replaced, once. *)
Fixpoint replace_first (pat : list Item) (at_end : bool) (repl s : string) : string :=
  match match_here pat at_end s with
  | Some rest => repl +:+ rest
  | None =>
      match s with
      | String c s' => String c (replace_first pat at_end repl s')
      | EmptyString => ""
      end
  end.

(** [s.replace(/a/g, repl)] for a pattern of one atom: every matching
    character is replaced. *)
Fixpoint replace_all (a : Atom) (repl s : string) : string :=
  match s with
  | EmptyString => ""
  | String c s' =>
      (if atom_matches a c then repl else String c "") +:+ replace_all a repl s'
  end.

Definition lits (s : string) : list Item :=
  map (fun c => One (Lit c)) (list_ascii_of_string s).

(** [/^https?:\/\//] *)
Definition re_scheme : list Item :=
  lits "http" ++ [Opt (Lit "s")] ++ lits "://".

(** [/[^a-zA-Z0-9]/g] *)
Definition re_not_alnum : Atom :=
  NotIn [("a", "z"); ("A", "Z"); ("0", "9")]%char.

(** [/\.png$/] *)
Definition re_png : list Item := lits ".png".

(** ** Default user agents (main.js, lines 14-37) *)

Module USER_AGENTS.
Definition mobile : string :=
  "Mozilla/5.0 (Linux; Android 13; Pixel 7) AppleWebKit/537.36 (KHTML, like Gecko) Chrome/112.0.0.0 Mobile Safari/537.36".
Definition tablet : string :=
  "Mozilla/5.0 (iPad; CPU OS 16_5 like Mac OS X) AppleWebKit/605.1.15 (KHTML, like Gecko) Version/16.5 Mobile/15E148 Safari/604.1".
Definition desktop : string :=
  "Mozilla/5.0 (Windows NT 10.0; Win64; x64) AppleWebKit/537.36 (KHTML, like Gecko) Chrome/112.0.5615.138 Safari/537.36".
End USER_AGENTS.

(** [width <= k] on a possibly missing number: [undefined <= k] is false. *)
Definition js_le (width : option Z) (k : Z) : bool :=
  match width with Some w => w <=? k | None => false end.

Definition getDefaultUserAgent (width : option Z) : string :=
  if js_le width 600 then USER_AGENTS.mobile
  else if js_le width 1024 then USER_AGENTS.tablet
  else USER_AGENTS.desktop.

(** ** Device descriptors *)

Record Device := mkDevice {
  name : option string;
  width : option Z;
  height : option Z;
  userAgent : JsValue
}.

(** [a || b] *)
Definition js_or (a b : JsValue) : JsValue := if truthy a then a else b.

(** main.js, line 47 *)
Definition userAgentToUse (device : Device) : JsValue :=
  js_or (userAgent device) (JsString (getDefaultUserAgent (width device))).

(** main.js, lines 48-50 *)
Definition urlFilename (url : string) : string :=
  replace_all re_not_alnum "_" (replace_at_start re_scheme "" url).


(** ** Errors, completions and the monad of effectful code *)

(** What the script throws and catches: [Error] objects, of which it reads
    [message] only. *)
Record Error := mkError {
  message : string;
  stack : string
}.

(** How a piece of code (or an awaited promise) completes. *)
Inductive Completion (A : Type) :=
| Normal (a : A)
| Throw (e : Error)
| ProcessExit (code : Z).
Arguments Normal {A} a.
Arguments Throw {A} e.
Arguments ProcessExit {A} code.

(** State passing with exceptions, over a state [S]. *)
Definition M (S A : Type) : Type := S -> S * Completion A.

Definition ret {S A} (a : A) : M S A := fun s => (s, Normal a).

Definition bind {S A B} (m : M S A) (k : A -> M S B) : M S B :=
  fun s =>
    match m s with
    | (s', Normal a) => k a s'
    | (s', Throw e) => (s', Throw e)
    | (s', ProcessExit c) => (s', ProcessExit c)
    end.

Definition throw {S A} (e : Error) : M S A := fun s => (s, Throw e).

(** [process.exit(code)]: nothing after it runs, no handler sees it. *)
Definition process_exit {S A} (code : Z) : M S A := fun s => (s, ProcessExit code).

Definition get {S} : M S S := fun s => (s, Normal s).

Definition modify {S} (f : S -> S) : M S unit := fun s => (f s, Normal tt).

(** [try { body } catch (error) { handler }] *)
Definition try_catch {S A} (body : M S A) (handler : Error -> M S A) : M S A :=
  fun s =>
    match body s with
    | (s', Throw e) => handler e s'
    | r => r
    end.

(** [try { body } finally { cleanup }]: the cleanup runs after a normal
    completion and after a throw; when it throws itself, that exception
    replaces the completion of the body. *)
Definition try_finally {S A} (body : M S A) (cleanup : M S unit) : M S A :=
  fun s =>
    match body s with
    | (s', ProcessExit c) => (s', ProcessExit c)
    | (s', r) =>
        match cleanup s' with
        | (s'', Normal _) => (s'', r)
        | (s'', Throw e) => (s'', Throw e)
        | (s'', ProcessExit c) => (s'', ProcessExit c)
        end
    end.

Declare Scope js_scope.
Delimit Scope js_scope with js.
Notation "x <- m ;; k" := (bind m (fun x => k))
  (at level 100, m at next level, right associativity) : js_scope.
Notation "m ;; k" := (bind m (fun _ => k))
  (at level 100, right associativity) : js_scope.

(** ** The calls a task makes *)

Inductive Script :=
| AutoScroll (distance interval : Z)   (* main.js, lines 93-107 *)
| ScrollToTop.                         (* main.js, lines 108-110 *)

Record ContextOptions := mkContextOptions {
  viewport_width : option Z;
  viewport_height : option Z;
  opt_userAgent : JsValue
}.

Inductive Call :=
| browser_newContext (options : ContextOptions)
| context_newPage
| page_goto (url waitUntil : string) (timeout : Z)
| page_waitForSelector (selector : string) (timeout : Z)
| page_click (selector : string)
| page_evaluate (script : Script)
| page_waitForLoadState (state : string) (timeout : Z)
| page_screenshot (path : string) (fullPage : bool) (type : string) (timeout : Z)
| sharp_webp_toFile (input : string) (quality : Z) (output : string)
| fs_unlink (path : string)
| context_close
| fs_readFile (path : string)
| fs_existsSync (path : string)
| fs_mkdirSync (path : string)
| chromium_launch
| browser_close
| console_log (line : string)
| console_error (line detail : string).

(** How an awaited call of an outside library answers, once it settles.  A
    call that never settles has no answer: the one call the script awaits
    without a bound of any kind, the scroll script, is followed on the page
    in [Awaiting] below. *)
Inductive Answer :=
| Resolves
| Rejects (e : Error).

(** The oracle of one task: the answer to each awaited call of the task. *)
Record TaskEnv := mkTaskEnv {
  newContext_r : Answer;
  newPage_r : Answer;
  goto_r : Answer;
  waitForSelector_r : Answer;
  click_r : Answer;
  autoScroll_r : Answer;
  scrollToTop_r : Answer;
  waitForLoadState_r : Answer;
  screenshot_r : Answer;
  sharp_r : Answer;
  unlink_r : Answer;
  close_r : Answer
}.

(** The state a task works on: the files that exist, the calls made so far
    (oldest first), and the task's local variable [context]. *)
Record TaskState := mkTaskState {
  fs : gset string;
  trace : list Call;
  context : option ContextOptions
}.

Definition record (c : Call) : M TaskState unit :=
  modify (fun s => mkTaskState (fs s) (trace s ++ [c]) (context s)).

Definition set_context (ctx : option ContextOptions) : M TaskState unit :=
  modify (fun s => mkTaskState (fs s) (trace s) ctx).

Definition update_fs (f : gset string -> gset string) : M TaskState unit :=
  modify (fun s => mkTaskState (f (fs s)) (trace s) (context s)).

Definition answer {S} (a : Answer) : M S unit :=
  match a with
  | Resolves => ret tt
  | Rejects e => throw e
  end.

(** An awaited call: recorded, then completed as the oracle says. *)
Definition await (c : Call) (a : Answer) : M TaskState unit :=
  (record c ;; answer a)%js.

(** A call that writes or removes a file does so when it succeeds. *)
Definition await_fs (c : Call) (a : Answer)
    (effect : gset string -> gset string) : M TaskState unit :=
  (await c a ;; update_fs effect)%js.

(** [path.join(dir, file)] of Node, for a normalised directory and a file
    name that is one path segment: the two, separated by a slash. *)
Definition path_join (dir file : string) : string := dir +:+ "/" +:+ file.

(** The double quote, for the selector. *)
Definition dq : string := String "034"%char "".

Definition acceptButtonSelector : string :=
  "button:has-text(" +:+ dq +:+ "Accept All" +:+ dq +:+ ")".

Definition newline : ascii := "010"%char.

(** [s.split("\n")[0]] *)
Fixpoint first_line (s : string) : string :=
  match s with
  | EmptyString => ""
  | String c s' => if Ascii.eqb c newline then "" else String c (first_line s')
  end.

Module Outcome.
(** What [takeSingleScreenshot] returns. *)
Record t := mk {
  status : string;
  url : string;
  device : option string;
  error : option string
}.
End Outcome.

Definition logPrefix (url : string) (device : Device) : string :=
  "[" +:+ url +:+ " | " +:+ interp_string (name device) +:+ "]".

(** The name of the intermediate raster, main.js line 120. *)
Definition png_name (url : string) (device : Device) : string :=
  urlFilename url +:+ "_" +:+ interp_string (name device) +:+ "_"
    +:+ interp_number (width device) +:+ ".png".

(** main.js, lines 45-152 *)
Definition takeSingleScreenshot (env : TaskEnv) (url : string) (device : Device)
    (dateTimeDir : string) : M TaskState Outcome.t :=
  (record (console_log
     (logPrefix url device +:+ " Starting capture ("
        +:+ interp_number (width device) +:+ "x" +:+ interp_number (height device)
        +:+ ") - UA: "
        +:+ (if truthy (userAgent device) then "Custom" else "Default"))) ;;
   let contextOptions :=
     mkContextOptions (width device) (height device) (userAgentToUse device) in
   set_context None ;;
   try_finally
     (try_catch
        (await (browser_newContext contextOptions) (newContext_r env) ;;
         set_context (Some contextOptions) ;;
         await context_newPage (newPage_r env) ;;
         await (page_goto url "networkidle" 60000) (goto_r env) ;;
         hasCookieConsent <-
           try_catch
             (await (page_waitForSelector acceptButtonSelector 5000)
                    (waitForSelector_r env) ;;
              await (page_click acceptButtonSelector) (click_r env) ;;
              ret true)
             (fun _ => ret false) ;;
         (if hasCookieConsent : bool then
            await (page_evaluate (AutoScroll 300 100)) (autoScroll_r env) ;;
            await (page_evaluate ScrollToTop) (scrollToTop_r env)
          else ret tt) ;;
         await (page_waitForLoadState "networkidle" 30000) (waitForLoadState_r env) ;;
         let screenshotPath := path_join dateTimeDir (png_name url device) in
         await_fs (page_screenshot screenshotPath true "png" 60000) (screenshot_r env)
                  (fun files => files ∪ {[ screenshotPath ]}) ;;
         let webpPath := replace_first re_png true ".webp" screenshotPath in
         await_fs (sharp_webp_toFile screenshotPath 70 webpPath) (sharp_r env)
                  (fun files => files ∪ {[ webpPath ]}) ;;
         await_fs (fs_unlink screenshotPath) (unlink_r env)
                  (fun files => files ∖ {[ screenshotPath ]}) ;;
         record (console_log
           (logPrefix url device +:+ " Screenshot saved successfully to " +:+ webpPath)) ;;
         ret (Outcome.mk "fulfilled" url (name device) None))
        (fun error =>
           record (console_error
             (logPrefix url device +:+ " Error capturing screenshot:")
             (first_line (message error))) ;;
           ret (Outcome.mk "rejected" url (name device) (Some (message error)))))
     (ctx <- get ;;
      match context ctx with
      | Some _ => await context_close (close_r env)
      | None => ret tt
      end))%js.

(** A task started on the files [files]. *)
Definition run_task (env : TaskEnv) (url : string) (device : Device)
    (dateTimeDir : string) (files : gset string) : TaskState * Completion Outcome.t :=
  takeSingleScreenshot env url device dateTimeDir (mkTaskState files [] None).

(** ** The orchestrator *)

(** A field of the parsed config that should hold an array: a falsy value
    (missing, [null], [0], the empty string), a truthy value that is not an
    array, or an array. *)
Inductive ArrayField (A : Type) :=
| Falsy
| NotArray
| Array (items : list A).
Arguments Falsy {A}.
Arguments NotArray {A}.
Arguments Array {A} items.

Definition field_truthy {A} (f : ArrayField A) : bool :=
  match f with Falsy => false | _ => true end.

Definition isArray {A} (f : ArrayField A) : bool :=
  match f with Array _ => true | _ => false end.

Definition items_of {A} (f : ArrayField A) : list A :=
  match f with Array l => l | _ => [] end.

Record Config := mkConfig {
  urlList : ArrayField string;
  deviceSizes : ArrayField Device
}.

(** What reading and parsing [config.json] gives. *)
Inductive ConfigFile :=
| Unreadable (readError : Error)
| Malformed (jsonError : Error)
| Parsed (config : Config).

(** Truthiness of an optional string, of an optional number. *)
Definition truthy_string (x : option string) : bool :=
  match x with Some s => string_nonempty s | None => false end.

Definition truthy_number (x : option Z) : bool :=
  match x with Some n => negb (n =? 0) | None => false end.

(** [!urlList || !Array.isArray(urlList) || urlList.length === 0] *)
Definition urlList_rejected (urlList : ArrayField string) : bool :=
  negb (field_truthy urlList) || negb (isArray urlList)
  || (length (items_of urlList) =? 0)%nat.

(** [(d) => d.name && d.width && d.height] *)
Definition device_complete (d : Device) : bool :=
  truthy_string (name d) && truthy_number (width d) && truthy_number (height d).

(** The condition of main.js, lines 186-191. *)
Definition deviceSizes_rejected (deviceSizes : ArrayField Device) : bool :=
  negb (field_truthy deviceSizes) || negb (isArray deviceSizes)
  || (length (items_of deviceSizes) =? 0)%nat
  || negb (forallb device_complete (items_of deviceSizes)).

(** The fields the script reads from [new Date()]. *)
Record Date := mkDate {
  getFullYear : Z;
  getMonth : Z;
  getDate : Z;
  getHours : Z;
  getMinutes : Z
}.

(** main.js, lines 204-210 *)
Definition currentDateTime (now : Date) : string :=
  let year := String_of_Z (getFullYear now) in
  let month := padStart (String_of_Z (getMonth now + 1)) 2 "0" in
  let day := padStart (String_of_Z (getDate now)) 2 "0" in
  let hours := padStart (String_of_Z (getHours now)) 2 "0" in
  let minutes := padStart (String_of_Z (getMinutes now)) 2 "0" in
  year +:+ "-" +:+ month +:+ "-" +:+ day +:+ "_" +:+ hours +:+ minutes.

(** main.js, line 12 *)
Definition outputDir (dirname : string) : string := path_join dirname "_emp-screenshots".

(** The state of the process: the files and directories that exist, the calls
    of the orchestrator itself (oldest first), and the trace of every task
    that has settled, in the order of dispatch. *)
Record World := mkWorld {
  files : gset string;
  calls : list Call;
  task_traces : list (list Call)
}.

Definition call (c : Call) : M World unit :=
  modify (fun w => mkWorld (files w) (calls w ++ [c]) (task_traces w)).

(** [if (!existsSync(dir)) mkdirSync(dir, { recursive: true })] *)
Definition ensure_dir (dir : string) : M World unit :=
  (call (fs_existsSync dir) ;;
   w <- get ;;
   if decide (dir ∈ files w) then ret tt
   else
     call (fs_mkdirSync dir) ;;
     modify (fun w => mkWorld (files w ∪ {[ dir ]}) (calls w) (task_traces w)))%js.

(** The oracle of a run: the answers to the two calls on the browser, and
    the oracle of each task, by its position in the order of dispatch. *)
Record Env := mkEnv {
  launch_r : Answer;
  task_env : nat -> TaskEnv;
  browser_close_r : Answer
}.

(** An element of the array [Promise.allSettled] resolves to. *)
Inductive PromiseSettledResult :=
| fulfilled (value : Outcome.t)
| rejected (reason : Error).

Definition settled_status (result : PromiseSettledResult) : string :=
  match result with
  | fulfilled _ => "fulfilled"
  | rejected _ => "rejected"
  end.

(** The pairs of the two nested loops of main.js, lines 222-229, in the
    order the promises are pushed. *)
Definition cross_product (urlList : list string) (deviceSizes : list Device)
    : list (string * Device) :=
  flat_map (fun url => map (fun device => (url, device)) deviceSizes) urlList.

Definition screenshotTasks (env : Env) (urlList : list string)
    (deviceSizes : list Device) (dateTimeDir : string)
    : list (M TaskState Outcome.t) :=
  imap (fun i '(url, device) =>
          takeSingleScreenshot (task_env env i) url device dateTimeDir)
       (cross_product urlList deviceSizes).

(** One promise settling: the task works on the files of the process and
    leaves its trace; a returned value fulfils the promise, an exception
    rejects it.  The tasks are taken one after the other: their answers come
    from the oracle, so what each returns does not depend on how the real
    event loop interleaves them. *)
Definition settle (task : M TaskState Outcome.t) : M World PromiseSettledResult :=
  fun w =>
    match task (mkTaskState (files w) [] None) with
    | (s, r) =>
        let w' := mkWorld (fs s) (calls w) (task_traces w ++ [trace s]) in
        match r with
        | Normal value => (w', Normal (fulfilled value))
        | Throw reason => (w', Normal (rejected reason))
        | ProcessExit c => (w', ProcessExit c)
        end
    end.

(** [await Promise.allSettled(tasks)] *)
Fixpoint allSettled (tasks : list (M TaskState Outcome.t))
    : M World (list PromiseSettledResult) :=
  match tasks with
  | [] => ret []
  | task :: tasks' =>
      (result <- settle task ;;
       results <- allSettled tasks' ;;
       ret (result :: results))%js
  end.

(** The loop of main.js, lines 237-249: the pair is
    [(successCount, failureCount)]. *)
Definition tally (results : list PromiseSettledResult) : nat * nat :=
  fold_left
    (fun '(successCount, failureCount) result =>
       if String.eqb (settled_status result) "fulfilled"
       then (S successCount, failureCount)
       else (successCount, S failureCount))
    results (O, O).

Definition String_of_nat (n : nat) : string := String_of_Z (Z.of_nat n).

(** main.js, lines 156-267 *)
Definition main (dirname : string) (file : ConfigFile) (now : Date) (env : Env)
    : M World unit :=
  (let configPath := path_join dirname "config.json" in
   call (fs_readFile configPath) ;;
   match file with
   | Unreadable readError =>
       call (console_error ("Error reading config.json: " +:+ message readError) "") ;;
       process_exit 1
   | Malformed jsonError =>
       call (console_error "Error parsing config.json:" (message jsonError)) ;;
       call (console_error "Please check the JSON syntax in your config file." "") ;;
       process_exit 1
   | Parsed config =>
       if urlList_rejected (urlList config) then
         call (console_error
           ("Error: config.json should contain a non-empty " +:+ dq +:+ "urlList"
              +:+ dq +:+ " array") "") ;;
         process_exit 1
       else if deviceSizes_rejected (deviceSizes config) then
         call (console_error
           ("Error: config.json should contain a valid " +:+ dq +:+ "deviceSizes"
              +:+ dq +:+ " array with name, width, and height properties") "") ;;
         process_exit 1
       else
         let urls := items_of (urlList config) in
         let devices := items_of (deviceSizes config) in
         let totalTasks := (length urls * length devices)%nat in
         call (console_log
           ("Found " +:+ String_of_nat (length urls) +:+ " URLs and "
              +:+ String_of_nat (length devices) +:+ " device sizes. Starting "
              +:+ String_of_nat totalTasks +:+ " screenshot tasks...")) ;;
         let dateTimeDir := path_join (outputDir dirname) (currentDateTime now) in
         ensure_dir dateTimeDir ;;
         call chromium_launch ;;
         answer (launch_r env) ;;
         try_finally
           (try_catch
              (let tasks := screenshotTasks env urls devices dateTimeDir in
               call (console_log
                 ("Executing " +:+ String_of_nat (length tasks)
                    +:+ " tasks in parallel...")) ;;
               results <- allSettled tasks ;;
               let '(successCount, failureCount) := tally results in
               call (console_log "--------------------") ;;
               call (console_log "Screenshot process completed.") ;;
               call (console_log ("Total tasks: " +:+ String_of_nat totalTasks)) ;;
               call (console_log ("Successful:  " +:+ String_of_nat successCount)) ;;
               call (console_log ("Failed:      " +:+ String_of_nat failureCount)) ;;
               call (console_log "--------------------"))
              (fun error =>
                 call (console_error
                   "An unexpected error occurred during the process:" (message error))))
           (call browser_close ;;
            answer (browser_close_r env) ;;
            call (console_log "Browser closed."))
   end)%js.

(** The whole script: the module-level statements (lines 12 and 39-42), then
    [main().catch(...)] (lines 270-274). *)
Definition script (dirname : string) (file : ConfigFile) (now : Date) (env : Env)
    : M World unit :=
  (ensure_dir (outputDir dirname) ;;
   try_catch
     (main dirname file now env)
     (fun error =>
        call (console_error "Unhandled error executing main function:" (message error)) ;;
        process_exit 1))%js.

(** The exit code of the process: 0 when the script runs to its end, the
    argument of [process.exit], 1 for an uncaught exception. *)
Definition exit_code {A} (r : Completion A) : Z :=
  match r with
  | Normal _ => 0
  | ProcessExit code => code
  | Throw _ => 1
  end.

(** A run of the script on the files [files0]. *)
Definition run (dirname : string) (file : ConfigFile) (now : Date) (env : Env)
    (files0 : gset string) : World * Completion unit :=
  script dirname file now env (mkWorld files0 [] []).

(** ** The file name in the words of the specification

    The slug of a URL: a leading [http://] or [https://] removed, then every
    character that is not a letter or a digit turned into an underscore. *)

Fixpoint strip_prefix (p s : string) : option string :=
  match p with
  | EmptyString => Some s
  | String a p' =>
      match s with
      | String c s' => if Ascii.eqb c a then strip_prefix p' s' else None
      | EmptyString => None
      end
  end.

Definition strip_scheme (url : string) : string :=
  match strip_prefix "https://" url with
  | Some rest => rest
  | None =>
      match strip_prefix "http://" url with
      | Some rest => rest
      | None => url
      end
  end.

Definition is_alphanumeric (c : ascii) : bool :=
  let n := nat_of_ascii c in
  ((97 <=? n) && (n <=? 122) || (65 <=? n) && (n <=? 90)
   || (48 <=? n) && (n <=? 57))%nat.

Fixpoint map_chars (f : ascii -> ascii) (s : string) : string :=
  match s with
  | EmptyString => ""
  | String c s' => String (f c) (map_chars f s')
  end.

Definition spec_slug (url : string) : string :=
  map_chars (fun c => if is_alphanumeric c then c else "_"%char) (strip_scheme url).

(** The exception the guarded block of a task ends with, if any: the first
    rejected call, where a rejection of the wait for the consent button or
    of the click on it is swallowed and skips the two scroll scripts. *)
Fixpoint first_rejection (answers : list Answer) : option Error :=
  match answers with
  | [] => None
  | Resolves :: answers' => first_rejection answers'
  | Rejects e :: _ => Some e
  end.

Definition consent_clicked (env : TaskEnv) : bool :=
  match waitForSelector_r env, click_r env with
  | Resolves, Resolves => true
  | _, _ => false
  end.

Definition thrown_in_try (env : TaskEnv) : option Error :=
  first_rejection
    ([newContext_r env; newPage_r env; goto_r env]
     ++ (if consent_clicked env then [autoScroll_r env; scrollToTop_r env] else [])
     ++ [waitForLoadState_r env; screenshot_r env; sharp_r env; unlink_r env]).

(** What the [finally] block of a task answers: closing the context, when
    there is one. *)
Definition cleanup_answer (env : TaskEnv) : Answer :=
  match newContext_r env with
  | Resolves => close_r env
  | Rejects _ => Resolves
  end.

(** The outcome the [try] / [catch] of a task comes to. *)
Definition expected_outcome (env : TaskEnv) (url : string) (device : Device)
    : Outcome.t :=
  match thrown_in_try env with
  | None => Outcome.mk "fulfilled" url (name device) None
  | Some e => Outcome.mk "rejected" url (name device) (Some (message e))
  end.

(** How the promise of a task settles. *)
Definition expected_result (env : TaskEnv) (url : string) (device : Device)
    : PromiseSettledResult :=
  match cleanup_answer env with
  | Resolves => fulfilled (expected_outcome env url device)
  | Rejects e => rejected e
  end.

Definition expected_results (tenv : nat -> TaskEnv) (pairs : list (string * Device))
    : list PromiseSettledResult :=
  imap (fun i '(url, device) => expected_result (tenv i) url device) pairs.

(** The settled form of a completion of a task. *)
Definition settled_of (c : Completion Outcome.t) : option PromiseSettledResult :=
  match c with
  | Normal value => Some (fulfilled value)
  | Throw reason => Some (rejected reason)
  | ProcessExit _ => None
  end.

Definition is_fulfilled (result : PromiseSettledResult) : bool :=
  match result with fulfilled _ => true | rejected _ => false end.

(** The lines of the aggregate summary, main.js lines 251-256. *)
Definition summary_lines (totalTasks successCount failureCount : nat) : list string :=
  ["--------------------";
   "Screenshot process completed.";
   "Total tasks: " +:+ String_of_nat totalTasks;
   "Successful:  " +:+ String_of_nat successCount;
   "Failed:      " +:+ String_of_nat failureCount;
   "--------------------"].

(** What validation rejects, in the words of the specification: a [urlList]
    or a [deviceSizes] that is missing, not an array or empty, and a device
    without a truthy name, width or height. *)
Definition missing_or_empty {A} (f : ArrayField A) : Prop :=
  f = Falsy \/ f = NotArray \/ f = Array [].

Definition lacks_field (d : Device) : Prop :=
  truthy_string (name d) = false \/ truthy_number (width d) = false
  \/ truthy_number (height d) = false.

Definition validation_fails (config : Config) : Prop :=
  missing_or_empty (urlList config) \/ missing_or_empty (deviceSizes config)
  \/ exists d, In d (items_of (deviceSizes config)) /\ lacks_field d.

(** ** Observations on a trace *)

Fixpoint count_calls (p : Call -> bool) (t : list Call) : nat :=
  match t with
  | [] => O
  | c :: t' => ((if p c then 1 else 0) + count_calls p t')%nat
  end.

Definition is_autoScroll (c : Call) : bool :=
  match c with page_evaluate (AutoScroll _ _) => true | _ => false end.

Definition is_scrollToTop (c : Call) : bool :=
  match c with page_evaluate ScrollToTop => true | _ => false end.

(** Any of the two scroll scripts. *)
Definition is_scroll (c : Call) : bool :=
  match c with page_evaluate _ => true | _ => false end.

Definition is_waitForLoadState (c : Call) : bool :=
  match c with page_waitForLoadState _ _ => true | _ => false end.

(** The trace holds the scroll to the bottom directly followed by the jump
    to the top. *)
Fixpoint down_then_up (t : list Call) : bool :=
  match t with
  | c :: ((c' :: _) as t') => (is_autoScroll c && is_scrollToTop c') || down_then_up t'
  | _ => false
  end.

(** The bound of every wait for a selector of a trace. *)
Fixpoint selector_timeouts (t : list Call) : list Z :=
  match t with
  | [] => []
  | page_waitForSelector _ timeout :: rest => timeout :: selector_timeouts rest
  | _ :: rest => selector_timeouts rest
  end.

(** The lines printed with [console.log]. *)
Fixpoint console_lines (t : list Call) : list string :=
  match t with
  | [] => []
  | console_log line :: rest => line :: console_lines rest
  | _ :: rest => console_lines rest
  end.

(** The calls on the browser itself and the directories made. *)
Fixpoint browser_calls (t : list Call) : list Call :=
  match t with
  | [] => []
  | c :: rest =>
      match c with
      | chromium_launch | browser_close => c :: browser_calls rest
      | _ => browser_calls rest
      end
  end.

Fixpoint directories_made (t : list Call) : list string :=
  match t with
  | [] => []
  | fs_mkdirSync dir :: rest => dir :: directories_made rest
  | _ :: rest => directories_made rest
  end.

(** The second argument of every [console.error] of a trace. *)
Fixpoint error_details (t : list Call) : list string :=
  match t with
  | [] => []
  | console_error _ detail :: t' => detail :: error_details t'
  | _ :: t' => error_details t'
  end.

(** The calls of a trace that write or remove a file. *)
Fixpoint file_calls (t : list Call) : list Call :=
  match t with
  | [] => []
  | c :: t' =>
      match c with
      | page_screenshot _ _ _ _ | sharp_webp_toFile _ _ _ | fs_unlink _ =>
          c :: file_calls t'
      | _ => file_calls t'
      end
  end.

(** ** The layout of the output in the words of the specification *)

Definition is_digit (c : ascii) : bool :=
  ((48 <=? nat_of_ascii c) && (nat_of_ascii c <=? 57))%nat.

Definition is_letter (c : ascii) : bool :=
  ((65 <=? nat_of_ascii c) && (nat_of_ascii c <=? 90))%nat.

(** [s] follows the pattern [pat], in which a capital letter stands for one
    digit and any other character for itself. *)
Fixpoint follows_pattern (pat s : string) : bool :=
  match pat, s with
  | EmptyString, EmptyString => true
  | String p pat', String c s' =>
      (if is_letter p then is_digit c else Ascii.eqb c p) && follows_pattern pat' s'
  | _, _ => false
  end.

(** A date of the years 1000 to 9999, as [new Date()] gives it. *)
Definition valid_date (now : Date) : Prop :=
  1000 <= getFullYear now <= 9999 /\ 0 <= getMonth now <= 11 /\
  1 <= getDate now <= 31 /\ 0 <= getHours now <= 23 /\ 0 <= getMinutes now <= 59.

(** A name that is one path segment: it holds no slash. *)
Fixpoint no_separator (s : string) : bool :=
  match s with
  | EmptyString => true
  | String c s' => negb (Ascii.eqb c "/") && no_separator s'
  end.

(** [<root>/<timestamp>/<urlSlug>_<deviceName>_<width>], the path of the
    artifact without its extension. *)
Definition artifact_base (root timestamp url deviceName : string) (deviceWidth : Z) : string :=
  root +:+ "/" +:+ timestamp +:+ "/" +:+ spec_slug url +:+ "_" +:+ deviceName
    +:+ "_" +:+ String_of_Z deviceWidth.

(** ** The scroll script run in the page (main.js, lines 93-107)

    A timer ticks every 100 ms.  Each tick reads [document.body.scrollHeight],
    scrolls down by [distance] and adds [distance] to [totalHeight]; at the
    first tick where [totalHeight] has reached the height just read the
    timer is cleared and the promise resolved.  [scrollHeight k] is the
    height read at tick [k]; the answer is the number of ticks made, when
    the loop stops within [fuel] ticks. *)
Fixpoint autoScroll_from (fuel : nat) (distance : Z) (scrollHeight : nat -> Z)
    (tick : nat) (totalHeight : Z) : option nat :=
  match fuel with
  | O => None
  | S fuel' =>
      let totalHeight := totalHeight + distance in
      if totalHeight >=? scrollHeight tick then Some (S tick)
      else autoScroll_from fuel' distance scrollHeight (S tick) totalHeight
  end.

(** [let totalHeight = 0; const distance = 300;] *)
Definition autoScroll (fuel : nat) (scrollHeight : nat -> Z) : option nat :=
  autoScroll_from fuel 300 scrollHeight O 0.

(** ** More observations *)

Fixpoint string_forall (p : ascii -> bool) (s : string) : bool :=
  match s with
  | EmptyString => true
  | String c s' => p c && string_forall p s'
  end.

Definition is_context_close (c : Call) : bool :=
  match c with context_close => true | _ => false end.

Definition is_newContext (c : Call) : bool :=
  match c with browser_newContext _ => true | _ => false end.

(** The options of every [browser.newContext] of a trace. *)
Fixpoint context_options (t : list Call) : list ContextOptions :=
  match t with
  | [] => []
  | browser_newContext options :: rest => options :: context_options rest
  | _ :: rest => context_options rest
  end.

(** The first argument of every [console.error] of a trace. *)
Fixpoint error_lines (t : list Call) : list string :=
  match t with
  | [] => []
  | console_error line _ :: rest => line :: error_lines rest
  | _ :: rest => error_lines rest
  end.

(** The guarded block of a task got as far as a screenshot on the disk: no
    call up to and including [page.screenshot] threw (the wait for the
    consent button and the click on it apart, which are swallowed). *)
Definition screenshot_taken (env : TaskEnv) : bool :=
  match first_rejection
          ([newContext_r env; newPage_r env; goto_r env]
           ++ (if consent_clicked env then [autoScroll_r env; scrollToTop_r env] else [])
           ++ [waitForLoadState_r env; screenshot_r env]) with
  | None => true
  | Some _ => false
  end.

(** ** The sequential script (main.js, lines 275-466)

    The earlier script of the same file: the same config, validation, run
    directory and capture steps, but one capture after the other in two
    nested loops, without user agent, and with the context and the page
    obtained outside the [try]. *)

(** [for (const x of items) body], with the position of [x]. *)
Fixpoint for_of {S A} (items : list A) (i : nat) (body : nat -> A -> M S unit)
    : M S unit :=
  match items with
  | [] => ret tt
  | x :: items' => (body i x ;; for_of items' (Datatypes.S i) body)%js
  end.

Module Sequential.

(** The calls of this script: those it makes like the parallel script, and
    the two it makes without a [timeout]. *)
Inductive SeqCall :=
| shared (c : Call)
| page_waitForLoadState_untimed (state : string)
| page_screenshot_untimed (path : string) (fullPage : bool) (type : string).

Record SeqWorld := mkSeqWorld {
  files : gset string;
  calls : list SeqCall
}.

(** The oracle of a run: the browser, and each capture by the positions of
    its url and of its device. *)
Record SeqEnv := mkSeqEnv {
  launch_r : Answer;
  capture_env : nat -> nat -> TaskEnv;
  browser_close_r : Answer
}.

Definition call (c : SeqCall) : M SeqWorld unit :=
  modify (fun w => mkSeqWorld (files w) (calls w ++ [c])).

Definition await (c : SeqCall) (a : Answer) : M SeqWorld unit :=
  (call c ;; answer a)%js.

Definition await_fs (c : SeqCall) (a : Answer)
    (effect : gset string -> gset string) : M SeqWorld unit :=
  (await c a ;; modify (fun w => mkSeqWorld (effect (files w)) (calls w)))%js.

Definition ensure_dir (dir : string) : M SeqWorld unit :=
  (call (shared (fs_existsSync dir)) ;;
   w <- get ;;
   if decide (dir ∈ files w) then ret tt
   else
     call (shared (fs_mkdirSync dir)) ;;
     modify (fun w => mkSeqWorld (files w ∪ {[ dir ]}) (calls w)))%js.

(** The body of the inner loop, main.js lines 362-453. *)
Definition capture (env : TaskEnv) (url urlFilename : string) (device : Device)
    (dateTimeDir : string) : M SeqWorld unit :=
  (call (shared (console_log
     ("Capturing " +:+ url +:+ " - " +:+ interp_string (name device) +:+ "..."))) ;;
   await (shared (browser_newContext
            (mkContextOptions (width device) (height device) JsUndefined)))
         (newContext_r env) ;;
   await (shared context_newPage) (newPage_r env) ;;
   try_finally
     (try_catch
        (await (shared (page_goto url "networkidle" 30000)) (goto_r env) ;;
         hasCookieConsent <-
           try_catch
             (await (shared (page_waitForSelector acceptButtonSelector 5000))
                    (waitForSelector_r env) ;;
              await (shared (page_click acceptButtonSelector)) (click_r env) ;;
              ret true)
             (fun _ => ret false) ;;
         (if hasCookieConsent : bool then
            await (shared (page_evaluate (AutoScroll 300 100))) (autoScroll_r env) ;;
            await (shared (page_evaluate ScrollToTop)) (scrollToTop_r env)
          else ret tt) ;;
         await (page_waitForLoadState_untimed "networkidle") (waitForLoadState_r env) ;;
         let screenshotPath :=
           path_join dateTimeDir
             (urlFilename +:+ "_" +:+ interp_string (name device) +:+ "_"
                +:+ interp_number (width device) +:+ ".png") in
         await_fs (page_screenshot_untimed screenshotPath true "png") (screenshot_r env)
                  (fun files => files ∪ {[ screenshotPath ]}) ;;
         let webpPath := replace_first re_png true ".webp" screenshotPath in
         await_fs (shared (sharp_webp_toFile screenshotPath 70 webpPath)) (sharp_r env)
                  (fun files => files ∪ {[ webpPath ]}) ;;
         await_fs (shared (fs_unlink screenshotPath)) (unlink_r env)
                  (fun files => files ∖ {[ screenshotPath ]}))
        (fun error =>
           call (shared (console_error
             ("Error capturing " +:+ url +:+ " at " +:+ interp_string (name device)
                +:+ " size:")
             (message error)))))
     (await (shared context_close) (close_r env)))%js.

(** main.js, lines 294-460 *)
Definition takeScreenshots (dirname : string) (file : ConfigFile) (now : Date)
    (env : SeqEnv) : M SeqWorld unit :=
  (let configPath := path_join dirname "config.json" in
   call (shared (fs_readFile configPath)) ;;
   match file with
   | Unreadable readError => throw readError
   | Malformed jsonError =>
       call (shared (console_error "Error parsing config.json:" (message jsonError))) ;;
       call (shared (console_error
               "Please check the JSON syntax in your config file." "")) ;;
       process_exit 1
   | Parsed config =>
       if urlList_rejected (urlList config) then
         call (shared (console_error
           ("Error: config.json should contain a non-empty " +:+ dq +:+ "urlList"
              +:+ dq +:+ " array") "")) ;;
         process_exit 1
       else if deviceSizes_rejected (deviceSizes config) then
         call (shared (console_error
           ("Error: config.json should contain a valid " +:+ dq +:+ "deviceSizes"
              +:+ dq +:+ " array with name, width, and height properties") "")) ;;
         process_exit 1
       else
         let urls := items_of (urlList config) in
         let devices := items_of (deviceSizes config) in
         call (shared (console_log
           ("Found " +:+ String_of_nat (length urls) +:+ " URLs and "
              +:+ String_of_nat (length devices) +:+ " device sizes in config.json"))) ;;
         let dateTimeDir := path_join (outputDir dirname) (currentDateTime now) in
         ensure_dir dateTimeDir ;;
         call (shared chromium_launch) ;;
         answer (launch_r env) ;;
         for_of urls O (fun u url =>
           let urlFilename := urlFilename url in
           for_of devices O (fun d device =>
             capture (capture_env env u d) url urlFilename device dateTimeDir)) ;;
         call (shared browser_close) ;;
         answer (browser_close_r env) ;;
         call (shared (console_log "All screenshots completed!"))
   end)%js.

(** The whole script: lines 286-291, then [takeScreenshots().catch(...)]. *)
Definition script (dirname : string) (file : ConfigFile) (now : Date) (env : SeqEnv)
    : M SeqWorld unit :=
  (ensure_dir (outputDir dirname) ;;
   try_catch
     (takeScreenshots dirname file now env)
     (fun error =>
        call (shared (console_error "Error taking screenshots:" (message error))) ;;
        process_exit 1))%js.

Definition run (dirname : string) (file : ConfigFile) (now : Date) (env : SeqEnv)
    (files0 : gset string) : SeqWorld * Completion unit :=
  script dirname file now env (mkSeqWorld files0 []).

(** Observations on the calls. *)
Fixpoint count (p : SeqCall -> bool) (t : list SeqCall) : nat :=
  match t with
  | [] => O
  | c :: t' => ((if p c then 1 else 0) + count p t')%nat
  end.

Definition is_newContext (c : SeqCall) : bool :=
  match c with shared (browser_newContext _) => true | _ => false end.

Definition is_context_close (c : SeqCall) : bool :=
  match c with shared context_close => true | _ => false end.

Definition is_browser_close (c : SeqCall) : bool :=
  match c with shared browser_close => true | _ => false end.

Fixpoint error_details (t : list SeqCall) : list string :=
  match t with
  | [] => []
  | shared (console_error _ detail) :: rest => detail :: error_details rest
  | _ :: rest => error_details rest
  end.

(** The context and the page of a capture are obtained and the context is
    closed without an exception. *)
Definition setup_ok (env : TaskEnv) : bool :=
  match newContext_r env, newPage_r env, close_r env with
  | Resolves, Resolves, Resolves => true
  | _, _, _ => false
  end.

End Sequential.

(** ** The first script (src/unnamed/part_000)

    One [.png] per capture, kept as it is, in a directory per URL under
    [screenshots]; no run directory, no consent handling, no re-encoding.
    Reading and parsing the config are both unguarded. *)

Module Basic.

Inductive BasicCall :=
| shared (c : Call)
| page_screenshot_path (path : string) (fullPage : bool).

Record BasicWorld := mkBasicWorld {
  files : gset string;
  calls : list BasicCall
}.

(** The answers of one capture are read from the fields of a [TaskEnv] of
    the same names; the other fields are not used. *)
Record BasicEnv := mkBasicEnv {
  launch_r : Answer;
  capture_env : nat -> nat -> TaskEnv;
  browser_close_r : Answer
}.

Definition call (c : BasicCall) : M BasicWorld unit :=
  modify (fun w => mkBasicWorld (files w) (calls w ++ [c])).

Definition await (c : BasicCall) (a : Answer) : M BasicWorld unit :=
  (call c ;; answer a)%js.

Definition ensure_dir (dir : string) : M BasicWorld unit :=
  (call (shared (fs_existsSync dir)) ;;
   w <- get ;;
   if decide (dir ∈ files w) then ret tt
   else
     call (shared (fs_mkdirSync dir)) ;;
     modify (fun w => mkBasicWorld (files w ∪ {[ dir ]}) (calls w)))%js.

(** part_000, line 11 *)
Definition outputDir (dirname : string) : string := path_join dirname "screenshots".

(** part_000, lines 89-92 *)
Definition screenshotPath (urlDir : string) (device : Device) : string :=
  path_join urlDir
    (interp_string (name device) +:+ "_" +:+ interp_number (width device) +:+ "x"
       +:+ interp_number (height device) +:+ ".png").

(** The body of the inner loop, part_000 lines 71-104. *)
Definition capture (env : TaskEnv) (url urlDir : string) (device : Device)
    : M BasicWorld unit :=
  (call (shared (console_log
     ("Taking screenshot of " +:+ url +:+ " at " +:+ interp_string (name device)
        +:+ " size (" +:+ interp_number (width device) +:+ "x"
        +:+ interp_number (height device) +:+ ")..."))) ;;
   await (shared (browser_newContext
            (mkContextOptions (width device) (height device) JsUndefined)))
         (newContext_r env) ;;
   await (shared context_newPage) (newPage_r env) ;;
   try_finally
     (try_catch
        (await (shared (page_goto url "networkidle" 30000)) (goto_r env) ;;
         let screenshotPath := screenshotPath urlDir device in
         await (page_screenshot_path screenshotPath true) (screenshot_r env) ;;
         modify (fun w => mkBasicWorld (files w ∪ {[ screenshotPath ]}) (calls w)) ;;
         call (shared (console_log ("Saved to " +:+ screenshotPath))))
        (fun error =>
           call (shared (console_error
             ("Error capturing " +:+ url +:+ " at " +:+ interp_string (name device)
                +:+ " size:")
             (message error)))))
     (await (shared context_close) (close_r env)))%js.

(** part_000, lines 19-111 *)
Definition takeScreenshots (dirname : string) (file : ConfigFile) (env : BasicEnv)
    : M BasicWorld unit :=
  (let configPath := path_join dirname "config.json" in
   call (shared (fs_readFile configPath)) ;;
   match file with
   | Unreadable readError => throw readError
   | Malformed jsonError => throw jsonError
   | Parsed config =>
       if urlList_rejected (urlList config) then
         call (shared (console_error
           ("Error: config.json should contain a non-empty " +:+ dq +:+ "urlList"
              +:+ dq +:+ " array") "")) ;;
         process_exit 1
       else if deviceSizes_rejected (deviceSizes config) then
         call (shared (console_error
           ("Error: config.json should contain a valid " +:+ dq +:+ "deviceSizes"
              +:+ dq +:+ " array with name, width, and height properties") "")) ;;
         process_exit 1
       else
         let urls := items_of (urlList config) in
         let devices := items_of (deviceSizes config) in
         call (shared (console_log
           ("Found " +:+ String_of_nat (length urls) +:+ " URLs and "
              +:+ String_of_nat (length devices) +:+ " device sizes in config.json"))) ;;
         call (shared chromium_launch) ;;
         answer (launch_r env) ;;
         for_of urls O (fun u url =>
           let urlFilename := urlFilename url in
           let urlDir := path_join (outputDir dirname) urlFilename in
           ensure_dir urlDir ;;
           for_of devices O (fun d device =>
             capture (capture_env env u d) url urlDir device)) ;;
         call (shared browser_close) ;;
         answer (browser_close_r env) ;;
         call (shared (console_log "All screenshots completed!"))
   end)%js.

(** The whole script: lines 11-16, then [takeScreenshots().catch(...)]. *)
Definition script (dirname : string) (file : ConfigFile) (env : BasicEnv)
    : M BasicWorld unit :=
  (ensure_dir (outputDir dirname) ;;
   try_catch
     (takeScreenshots dirname file env)
     (fun error =>
        call (shared (console_error "Error taking screenshots:" (message error))) ;;
        process_exit 1))%js.

Definition run (dirname : string) (file : ConfigFile) (env : BasicEnv)
    (files0 : gset string) : BasicWorld * Completion unit :=
  script dirname file env (mkBasicWorld files0 []).

Fixpoint error_lines (t : list BasicCall) : list string :=
  match t with
  | [] => []
  | shared (console_error line _) :: rest => line :: error_lines rest
  | _ :: rest => error_lines rest
  end.

Fixpoint launches (t : list BasicCall) : nat :=
  match t with
  | [] => O
  | shared chromium_launch :: rest => S (launches rest)
  | _ :: rest => launches rest
  end.

End Basic.

(** ** Awaited calls that never settle

    The oracle above answers every awaited call, by [Resolves] or by
    [Rejects]: a task is followed on the assumption that each call it awaits
    settles.  The code gives a bound to the navigation, to the wait for the
    consent button, to the wait for the network and to the screenshot, but
    none to the scroll script (main.js, lines 93-107): [page.evaluate]
    resolves when the promise of the script does, which is when the loop
    [autoScroll] stops.  Here the task and the orchestrator are taken again
    with that call played on the page: the oracle holds, besides the
    answers, the height of the document of every task at every tick of the
    timer, and a run is followed for [ticks] ticks.  A promise that has not
    settled by then is [Pending]: nothing that follows the [await] has run,
    no [catch] and no [finally] either. *)
Module Awaiting.

Inductive Settlement (A : Type) :=
| Settled (c : Completion A)
| Pending.
Arguments Settled {A} c.
Arguments Pending {A}.

Definition P (S A : Type) : Type := S -> S * Settlement A.

(** A computation all of whose awaited calls settle. *)
Definition lift {S A} (m : M S A) : P S A :=
  fun s => match m s with (s', c) => (s', Settled c) end.

Definition pending {S A} : P S A := fun s => (s, Pending).

Definition bind {S A B} (m : P S A) (k : A -> P S B) : P S B :=
  fun s =>
    match m s with
    | (s', Settled (Normal a)) => k a s'
    | (s', Settled (Throw e)) => (s', Settled (Throw e))
    | (s', Settled (ProcessExit c)) => (s', Settled (ProcessExit c))
    | (s', Pending) => (s', Pending)
    end.

Definition try_catch {S A} (body : P S A) (handler : Error -> P S A) : P S A :=
  fun s =>
    match body s with
    | (s', Settled (Throw e)) => handler e s'
    | r => r
    end.

Definition try_finally {S A} (body : P S A) (cleanup : P S unit) : P S A :=
  fun s =>
    match body s with
    | (s', Pending) => (s', Pending)
    | (s', Settled (ProcessExit c)) => (s', Settled (ProcessExit c))
    | (s', Settled r) =>
        match cleanup s' with
        | (s'', Settled (Normal _)) => (s'', Settled r)
        | (s'', Settled (Throw e)) => (s'', Settled (Throw e))
        | (s'', Settled (ProcessExit c)) => (s'', Settled (ProcessExit c))
        | (s'', Pending) => (s'', Pending)
        end
    end.

Declare Scope await_scope.
Delimit Scope await_scope with aw.
Notation "x <- m ;; k" := (bind m (fun x => k))
  (at level 100, m at next level, right associativity) : await_scope.
Notation "m ;; k" := (bind m (fun _ => k))
  (at level 100, right associativity) : await_scope.

Definition ret {S A} (a : A) : P S A := lift (ret a).
Definition record (c : Call) : P TaskState unit := lift (record c).
Definition set_context (ctx : option ContextOptions) : P TaskState unit :=
  lift (set_context ctx).
Definition await (c : Call) (a : Answer) : P TaskState unit := lift (await c a).
Definition await_fs (c : Call) (a : Answer) (effect : gset string -> gset string)
    : P TaskState unit :=
  lift (await_fs c a effect).
Definition call (c : Call) : P World unit := lift (call c).
Definition ensure_dir (dir : string) : P World unit := lift (ensure_dir dir).
Definition answer {S} (a : Answer) : P S unit := lift (answer a).
Definition process_exit {S A} (code : Z) : P S A := lift (process_exit code).

(** [await page.evaluate(async () => { await new Promise((resolve) => ...) })],
    main.js lines 93-107: the call is made; it rejects when the oracle says
    so (the page is gone), else it resolves once the loop of the script has
    stopped, on a page whose height at tick [j] is [scrollHeight j]. *)
Definition evaluate_autoScroll (ticks : nat) (scrollHeight : nat -> Z) (a : Answer)
    : P TaskState unit :=
  (record (page_evaluate (AutoScroll 300 100)) ;;
   match a with
   | Rejects e => lift (throw e)
   | Resolves =>
       match autoScroll ticks scrollHeight with
       | Some _ => ret tt
       | None => pending
       end
   end)%aw.

(** main.js, lines 45-152 *)
Definition takeSingleScreenshot (ticks : nat) (env : TaskEnv) (scrollHeight : nat -> Z)
    (url : string) (device : Device) (dateTimeDir : string) : P TaskState Outcome.t :=
  (record (console_log
     (logPrefix url device +:+ " Starting capture ("
        +:+ interp_number (width device) +:+ "x" +:+ interp_number (height device)
        +:+ ") - UA: "
        +:+ (if truthy (userAgent device) then "Custom" else "Default"))) ;;
   let contextOptions :=
     mkContextOptions (width device) (height device) (userAgentToUse device) in
   set_context None ;;
   try_finally
     (try_catch
        (await (browser_newContext contextOptions) (newContext_r env) ;;
         set_context (Some contextOptions) ;;
         await context_newPage (newPage_r env) ;;
         await (page_goto url "networkidle" 60000) (goto_r env) ;;
         hasCookieConsent <-
           try_catch
             (await (page_waitForSelector acceptButtonSelector 5000)
                    (waitForSelector_r env) ;;
              await (page_click acceptButtonSelector) (click_r env) ;;
              ret true)
             (fun _ => ret false) ;;
         (if hasCookieConsent : bool then
            evaluate_autoScroll ticks scrollHeight (autoScroll_r env) ;;
            await (page_evaluate ScrollToTop) (scrollToTop_r env)
          else ret tt) ;;
         await (page_waitForLoadState "networkidle" 30000) (waitForLoadState_r env) ;;
         let screenshotPath := path_join dateTimeDir (png_name url device) in
         await_fs (page_screenshot screenshotPath true "png" 60000) (screenshot_r env)
                  (fun files => files ∪ {[ screenshotPath ]}) ;;
         let webpPath := replace_first re_png true ".webp" screenshotPath in
         await_fs (sharp_webp_toFile screenshotPath 70 webpPath) (sharp_r env)
                  (fun files => files ∪ {[ webpPath ]}) ;;
         await_fs (fs_unlink screenshotPath) (unlink_r env)
                  (fun files => files ∖ {[ screenshotPath ]}) ;;
         record (console_log
           (logPrefix url device +:+ " Screenshot saved successfully to " +:+ webpPath)) ;;
         ret (Outcome.mk "fulfilled" url (name device) None))
        (fun error =>
           record (console_error
             (logPrefix url device +:+ " Error capturing screenshot:")
             (first_line (message error))) ;;
           ret (Outcome.mk "rejected" url (name device) (Some (message error)))))
     (ctx <- lift get ;;
      match context ctx with
      | Some _ => await context_close (close_r env)
      | None => ret tt
      end))%aw.

(** The oracle of a run: the answers of the calls, and the height of the
    document of task [i] at tick [j] of its scroll script. *)
Record Oracle := mkOracle {
  answers : Env;
  page_height : nat -> nat -> Z
}.

Definition screenshotTasks (ticks : nat) (env : Oracle) (urlList : list string)
    (deviceSizes : list Device) (dateTimeDir : string)
    : list (P TaskState Outcome.t) :=
  imap (fun i '(url, device) =>
          takeSingleScreenshot ticks (task_env (answers env) i) (page_height env i)
            url device dateTimeDir)
       (cross_product urlList deviceSizes).

(** One promise, settling or not: the trace of a pending task holds the
    calls it has made. *)
Definition settle (task : P TaskState Outcome.t) : P World PromiseSettledResult :=
  fun w =>
    match task (mkTaskState (files w) [] None) with
    | (s, r) =>
        let w' := mkWorld (fs s) (calls w) (task_traces w ++ [trace s]) in
        match r with
        | Settled (Normal value) => (w', Settled (Normal (fulfilled value)))
        | Settled (Throw reason) => (w', Settled (Normal (rejected reason)))
        | Settled (ProcessExit c) => (w', Settled (ProcessExit c))
        | Pending => (w', Pending)
        end
    end.

(** [await Promise.allSettled(tasks)]: the promise resolves once every task
    has settled; while one is pending the others go on, and the join stays
    pending. *)
Fixpoint allSettled (tasks : list (P TaskState Outcome.t))
    : P World (list PromiseSettledResult) :=
  match tasks with
  | [] => ret []
  | task :: tasks' =>
      fun w =>
        match settle task w with
        | (w', Pending) => (fst (allSettled tasks' w'), Pending)
        | (w', Settled (Normal result)) =>
            (results <- allSettled tasks' ;; ret (result :: results))%aw w'
        | (w', Settled (Throw e)) => (w', Settled (Throw e))
        | (w', Settled (ProcessExit c)) => (w', Settled (ProcessExit c))
        end
  end.

(** main.js, lines 156-267 *)
Definition main (ticks : nat) (dirname : string) (file : ConfigFile) (now : Date)
    (env : Oracle) : P World unit :=
  (let configPath := path_join dirname "config.json" in
   call (fs_readFile configPath) ;;
   match file with
   | Unreadable readError =>
       call (console_error ("Error reading config.json: " +:+ message readError) "") ;;
       process_exit 1
   | Malformed jsonError =>
       call (console_error "Error parsing config.json:" (message jsonError)) ;;
       call (console_error "Please check the JSON syntax in your config file." "") ;;
       process_exit 1
   | Parsed config =>
       if urlList_rejected (urlList config) then
         call (console_error
           ("Error: config.json should contain a non-empty " +:+ dq +:+ "urlList"
              +:+ dq +:+ " array") "") ;;
         process_exit 1
       else if deviceSizes_rejected (deviceSizes config) then
         call (console_error
           ("Error: config.json should contain a valid " +:+ dq +:+ "deviceSizes"
              +:+ dq +:+ " array with name, width, and height properties") "") ;;
         process_exit 1
       else
         let urls := items_of (urlList config) in
         let devices := items_of (deviceSizes config) in
         let totalTasks := (length urls * length devices)%nat in
         call (console_log
           ("Found " +:+ String_of_nat (length urls) +:+ " URLs and "
              +:+ String_of_nat (length devices) +:+ " device sizes. Starting "
              +:+ String_of_nat totalTasks +:+ " screenshot tasks...")) ;;
         let dateTimeDir := path_join (outputDir dirname) (currentDateTime now) in
         ensure_dir dateTimeDir ;;
         call chromium_launch ;;
         answer (launch_r (answers env)) ;;
         try_finally
           (try_catch
              (let tasks := screenshotTasks ticks env urls devices dateTimeDir in
               call (console_log
                 ("Executing " +:+ String_of_nat (length tasks)
                    +:+ " tasks in parallel...")) ;;
               results <- allSettled tasks ;;
               let '(successCount, failureCount) := tally results in
               call (console_log "--------------------") ;;
               call (console_log "Screenshot process completed.") ;;
               call (console_log ("Total tasks: " +:+ String_of_nat totalTasks)) ;;
               call (console_log ("Successful:  " +:+ String_of_nat successCount)) ;;
               call (console_log ("Failed:      " +:+ String_of_nat failureCount)) ;;
               call (console_log "--------------------"))
              (fun error =>
                 call (console_error
                   "An unexpected error occurred during the process:" (message error))))
           (call browser_close ;;
            answer (browser_close_r (answers env)) ;;
            call (console_log "Browser closed."))
   end)%aw.

(** The whole script, lines 12, 39-42 and 270-274. *)
Definition script (ticks : nat) (dirname : string) (file : ConfigFile) (now : Date)
    (env : Oracle) : P World unit :=
  (ensure_dir (outputDir dirname) ;;
   try_catch
     (main ticks dirname file now env)
     (fun error =>
        call (console_error "Unhandled error executing main function:" (message error)) ;;
        process_exit 1))%aw.

(** A run of the script on the files [files0], followed for [ticks] ticks of
    the scroll timers. *)
Definition run (ticks : nat) (dirname : string) (file : ConfigFile) (now : Date)
    (env : Oracle) (files0 : gset string) : World * Settlement unit :=
  script ticks dirname file now env (mkWorld files0 [] []).

End Awaiting.

(** ** The tasks of a run, one after the other *)

(** The task gets as far as awaiting the scroll script, and playwright
    does not reject the call: the context, the page and the navigation
    succeed and the consent button is clicked. *)
Definition scroll_script_awaited (env : TaskEnv) : bool :=
  match first_rejection [newContext_r env; newPage_r env; goto_r env], autoScroll_r env with
  | None, Resolves => consent_clicked env
  | _, _ => false
  end.

(** The files the tasks of the pairs [pairs] leave, started on [files] in
    the order of dispatch, and the traces they leave. *)
Fixpoint files_after (tenv : nat -> TaskEnv) (dateTimeDir : string)
    (pairs : list (string * Device)) (files : gset string) : gset string :=
  match pairs with
  | [] => files
  | (url, device) :: pairs' =>
      files_after (fun i => tenv (S i)) dateTimeDir pairs'
        (fs (fst (run_task (tenv O) url device dateTimeDir files)))
  end.

Definition traces_of (tenv : nat -> TaskEnv) (dateTimeDir : string)
    (pairs : list (string * Device)) : list (list Call) :=
  imap (fun i '(url, device) => trace (fst (run_task (tenv i) url device dateTimeDir ∅)))
       pairs.

(** ** The timestamp read back *)

Definition digit_value (c : ascii) : Z := Z.of_nat (nat_of_ascii c) - 48.

Fixpoint decimal_value_from (acc : Z) (s : string) : Z :=
  match s with
  | EmptyString => acc
  | String c s' => decimal_value_from (10 * acc + digit_value c) s'
  end.

(** The number a string of decimal digits writes. *)
Definition decimal_value (s : string) : Z := decimal_value_from 0 s.

(** The year, the month (from 1), the day, the hours and the minutes a name
    of the form [YYYY-MM-DD_HHMM] writes. *)
Definition read_timestamp (s : string) : option (Z * Z * Z * Z * Z) :=
  if follows_pattern "YYYY-MM-DD_HHMM" s then
    Some (decimal_value (substring 0 4 s),
          decimal_value (substring 5 2 s),
          decimal_value (substring 8 2 s),
          decimal_value (substring 11 2 s),
          decimal_value (substring 13 2 s))
  else None.

(** ** Sample inputs *)

(** The oracle under which every call succeeds. *)
Definition all_ok : TaskEnv :=
  mkTaskEnv Resolves Resolves Resolves Resolves Resolves Resolves
            Resolves Resolves Resolves Resolves Resolves Resolves.

Definition desktop_device : Device :=
  mkDevice (Some "desktop") (Some 1280) (Some 800) JsUndefined.

Definition timeout_error : Error :=
  mkError ("page.goto: Timeout 60000ms exceeded." +:+ String newline "Call log:"
             +:+ String newline "  - navigating to https://a.test, waiting until networkidle")
          "TimeoutError: page.goto: Timeout 60000ms exceeded. at takeSingleScreenshot".

(** The oracle of a task whose navigation throws. *)
Definition goto_fails : TaskEnv :=
  mkTaskEnv Resolves Resolves (Rejects timeout_error) Resolves Resolves Resolves
            Resolves Resolves Resolves Resolves Resolves Resolves.

(** The oracle of a task on a page without a consent button: the wait for
    the selector times out. *)
Definition no_consent : TaskEnv :=
  mkTaskEnv Resolves Resolves Resolves
            (Rejects (mkError "page.waitForSelector: Timeout 5000ms exceeded." "stack"))
            Resolves Resolves Resolves Resolves Resolves Resolves Resolves Resolves.

(** The oracle of a run in which the browser starts and stops, and every
    task meets the answers [tenv]. *)
Definition uniform_env (tenv : TaskEnv) : Env := mkEnv Resolves (fun _ => tenv) Resolves.

(** The config of the two end-to-end scenarios. *)
Definition sample_config : ConfigFile :=
  Parsed (mkConfig (Array ["https://a.test"]) (Array [desktop_device])).

Definition sample_date : Date := mkDate 2024 0 5 9 30.

(** A page that loads more content whenever it is scrolled: its height
    stays one pixel ahead of the distance scrolled. *)
Definition growing_page : nat -> Z := fun j => 300 * (Z.of_nat j + 1) + 1.

(** A page of 1000 pixels. *)
Definition fixed_page : nat -> Z := fun _ => 1000.

Definition phone_device : Device :=
  mkDevice (Some "phone") (Some 390) (Some 844) JsUndefined.

(** * Properties *)

(** ** Strings and regular expressions *)

Lemma not_alnum_matches (c : ascii) :
  atom_matches re_not_alnum c = negb (is_alphanumeric c).
Proof.
  unfold atom_matches, re_not_alnum, is_alphanumeric, in_range.
  cbn [existsb fst snd].
  change (nat_of_ascii "a") with 97%nat. change (nat_of_ascii "z") with 122%nat.
  change (nat_of_ascii "A") with 65%nat. change (nat_of_ascii "Z") with 90%nat.
  change (nat_of_ascii "0") with 48%nat. change (nat_of_ascii "9") with 57%nat.
  rewrite orb_false_r, orb_assoc. reflexivity.
Qed.

Lemma replace_all_not_alnum (s : string) :
  replace_all re_not_alnum "_" s
  = map_chars (fun c => if is_alphanumeric c then c else "_"%char) s.
Proof.
  induction s as [|c s IH]; [reflexivity|].
  cbn [replace_all map_chars]. rewrite not_alnum_matches, IH.
  destruct (is_alphanumeric c); reflexivity.
Qed.

Lemma match_here_lits (p : string) (pat : list Item) (at_end : bool) (s : string) :
  match_here (lits p ++ pat)%list at_end s
  = match strip_prefix p s with
    | Some rest => match_here pat at_end rest
    | None => None
    end.
Proof.
  revert s. induction p as [|a p IH]; intros s; [reflexivity|].
  change (lits (String a p) ++ pat)%list with (One (Lit a) :: (lits p ++ pat))%list.
  cbn [match_here strip_prefix atom_matches].
  destruct s as [|c s]; [reflexivity|].
  destruct (Ascii.eqb c a); [apply IH | reflexivity].
Qed.

Lemma string_app_cons (x : ascii) (a b : string) :
  String x a +:+ b = String x (a +:+ b).
Proof. reflexivity. Qed.

Lemma string_app_assoc (a b c : string) : (a +:+ b) +:+ c = a +:+ (b +:+ c).
Proof.
  induction a as [|x a IH]; [reflexivity|].
  rewrite !string_app_cons, IH. reflexivity.
Qed.

Lemma string_app_length (a b : string) :
  String.length (a +:+ b) = (String.length a + String.length b)%nat.
Proof.
  induction a as [|x a IH]; [reflexivity|].
  rewrite string_app_cons. cbn [String.length]. now rewrite IH.
Qed.

Lemma strip_prefix_length (p s rest : string) :
  strip_prefix p s = Some rest ->
  String.length s = (String.length p + String.length rest)%nat.
Proof.
  revert s. induction p as [|a p IH]; intros s H.
  - injection H as ->. reflexivity.
  - destruct s as [|c s]; [discriminate|]. cbn [strip_prefix] in H.
    destruct (Ascii.eqb c a); [|discriminate].
    cbn [String.length]. now rewrite (IH _ H).
Qed.

Lemma match_here_lits_at_end (p s : string) :
  match_here (lits p) true s
  = match strip_prefix p s with
    | Some rest => if string_nonempty rest then None else Some rest
    | None => None
    end.
Proof. rewrite <- (app_nil_r (lits p)), match_here_lits. reflexivity. Qed.

(** [path.replace(/\.png$/, ".webp")] on a path that ends in [.png]. *)
Lemma replace_png_extension (base : string) :
  replace_first re_png true ".webp" (base +:+ ".png") = base +:+ ".webp".
Proof.
  unfold re_png. induction base as [|c base IH]; [reflexivity|].
  change (String c base +:+ ".png") with (String c (base +:+ ".png")).
  cbn [replace_first]. rewrite match_here_lits_at_end.
  destruct (strip_prefix ".png" (String c (base +:+ ".png"))) as [rest|] eqn:Hp.
  - apply strip_prefix_length in Hp.
    cbn [String.length] in Hp. rewrite string_app_length in Hp.
    destruct rest as [|r rest]; [cbn [String.length] in Hp; lia|].
    cbn [string_nonempty]. rewrite IH. reflexivity.
  - rewrite IH. reflexivity.
Qed.

Lemma strip_prefix_app (p q s : string) :
  strip_prefix (p +:+ q) s
  = match strip_prefix p s with
    | Some rest => strip_prefix q rest
    | None => None
    end.
Proof.
  revert s. induction p as [|a p IH]; intros s; [reflexivity|].
  simpl.
  destruct s as [|c s]; [reflexivity|].
  destruct (Ascii.eqb c a); [apply IH | reflexivity].
Qed.

Lemma match_here_lits_only (p s : string) :
  match_here (lits p) false s = strip_prefix p s.
Proof.
  rewrite <- (app_nil_r (lits p)), match_here_lits.
  destruct (strip_prefix p s); reflexivity.
Qed.

Lemma replace_scheme (url : string) :
  replace_at_start re_scheme "" url = strip_scheme url.
Proof.
  unfold replace_at_start, re_scheme, strip_scheme.
  rewrite match_here_lits.
  change "https://" with ("http" +:+ "s://").
  change "http://" with ("http" +:+ "://").
  rewrite !strip_prefix_app.
  destruct (strip_prefix "http" url) as [rest|]; [|reflexivity].
  change ([Opt (Lit "s")] ++ lits "://")%list with (Opt (Lit "s") :: lits "://").
  cbn [match_here atom_matches].
  destruct rest as [|c rest]; [reflexivity|].
  rewrite !match_here_lits_only.
  change "s://" with ("s" +:+ "://"). rewrite strip_prefix_app.
  assert (Hs : forall r, strip_prefix "://" (String "s" r) = None) by reflexivity.
  remember (strip_prefix "://") as after_scheme eqn:Hafter.
  cbn [strip_prefix].
  destruct (Ascii.eqb_spec c "s") as [->|Hc].
  - rewrite Hs. destruct (after_scheme rest); reflexivity.
  - destruct (after_scheme (String c rest)); reflexivity.
Qed.

(** ** The user-agent resolver *)

Lemma getDefaultUserAgent_nonempty (w : option Z) :
  string_nonempty (getDefaultUserAgent w) = true.
Proof.
  unfold getDefaultUserAgent.
  destruct (js_le w 600); [reflexivity|].
  destruct (js_le w 1024); reflexivity.
Qed.

(** C3, as amended: a truthy [userAgent] is returned unchanged whatever the
    width; when [userAgent] is falsy (missing, or set to the empty string)
    the width decides: the mobile string up to 600, the tablet string above
    600 and up to 1024, the desktop string above 1024. *)
Theorem userAgentToUse_tiers (device : Device) :
  (truthy (userAgent device) = true ->
   userAgentToUse device = userAgent device) /\
  (truthy (userAgent device) = false ->
   forall w : Z, width device = Some w ->
     (w <= 600 -> userAgentToUse device = JsString USER_AGENTS.mobile) /\
     (600 < w <= 1024 -> userAgentToUse device = JsString USER_AGENTS.tablet) /\
     (1024 < w -> userAgentToUse device = JsString USER_AGENTS.desktop)).
Proof.
  unfold userAgentToUse, js_or. split.
  - intros ->. reflexivity.
  - intros -> w ->. unfold getDefaultUserAgent, js_le.
    repeat split; intros Hw.
    + destruct (Z.leb_spec w 600); [reflexivity | lia].
    + destruct (Z.leb_spec w 600); [lia|].
      destruct (Z.leb_spec w 1024); [reflexivity | lia].
    + destruct (Z.leb_spec w 600); [lia|].
      destruct (Z.leb_spec w 1024); [lia | reflexivity].
Qed.

Lemma userAgentToUse_tiers_witness :
  userAgentToUse (mkDevice (Some "any") (Some 400) (Some 800) (JsString "X"))
    = JsString "X"
  /\ userAgentToUse (mkDevice (Some "phone") (Some 600) (Some 800) JsUndefined)
    = JsString USER_AGENTS.mobile
  /\ userAgentToUse (mkDevice (Some "tablet") (Some 1024) (Some 768) (JsString ""))
    = JsString USER_AGENTS.tablet
  /\ userAgentToUse (mkDevice (Some "desktop") (Some 1025) (Some 800) JsUndefined)
    = JsString USER_AGENTS.desktop.
Proof.
  split; [|split; [|split]].
  - apply (proj1 (userAgentToUse_tiers
      (mkDevice (Some "any") (Some 400) (Some 800) (JsString "X")))).
    reflexivity.
  - apply (proj2 (userAgentToUse_tiers
      (mkDevice (Some "phone") (Some 600) (Some 800) JsUndefined))
      eq_refl 600 eq_refl). lia.
  - apply (proj2 (userAgentToUse_tiers
      (mkDevice (Some "tablet") (Some 1024) (Some 768) (JsString "")))
      eq_refl 1024 eq_refl). lia.
  - apply (proj2 (userAgentToUse_tiers
      (mkDevice (Some "desktop") (Some 1025) (Some 800) JsUndefined))
      eq_refl 1025 eq_refl). lia.
Defined.

(** C3 as stated fails: a [userAgent] that is set, to the empty string, is
    not what the resolver returns. *)
Lemma userAgent_set_but_empty_not_returned :
  let device := mkDevice (Some "phone") (Some 400) (Some 800) (JsString "") in
  userAgent device <> JsUndefined /\
  userAgentToUse device <> userAgent device /\
  userAgentToUse device = JsString USER_AGENTS.mobile.
Proof. cbv zeta. repeat split; discriminate. Qed.

(** C10: a [userAgent] that is present but falsy (the empty string, [null],
    [false], [0]) is not returned: [||] falls back to the default for the
    width. *)
Theorem falsy_userAgent_falls_back (device : Device) :
  userAgent device <> JsUndefined ->
  truthy (userAgent device) = false ->
  userAgentToUse device = JsString (getDefaultUserAgent (width device)) /\
  userAgentToUse device <> userAgent device.
Proof.
  intros Hset Hfalsy. unfold userAgentToUse, js_or. rewrite Hfalsy.
  split; [reflexivity|].
  intros Heq. rewrite <- Heq in Hfalsy. cbn in Hfalsy.
  rewrite getDefaultUserAgent_nonempty in Hfalsy. discriminate.
Qed.

Lemma falsy_userAgent_falls_back_witness :
  let device := mkDevice (Some "phone") (Some 400) (Some 800) (JsString "") in
  userAgentToUse device = JsString USER_AGENTS.mobile /\
  userAgentToUse device <> userAgent device.
Proof.
  apply (falsy_userAgent_falls_back
           (mkDevice (Some "phone") (Some 400) (Some 800) (JsString ""))).
  - discriminate.
  - reflexivity.
Defined.

(** ** The file name *)

(** C7: the file-name part derived from a URL is the URL without a leading
    [http://] or [https://], with every character that is not a letter or
    a digit replaced by an underscore. *)
Theorem urlFilename_is_slug (url : string) :
  urlFilename url = spec_slug url /\
  urlFilename "https://example.com/a?b=1" = "example_com_a_b_1".
Proof.
  split; [|reflexivity].
  unfold urlFilename, spec_slug.
  rewrite replace_scheme. apply replace_all_not_alnum.
Qed.

(** ** The single-capture task *)

(** Case analysis on the oracle of a task, one awaited call after the
    other. *)
Ltac oracle_cases env :=
  destruct env as [a1 a2 a3 a4 a5 a6 a7 a8 a9 a10 a11 a12];
  cbn [newContext_r newPage_r goto_r waitForSelector_r click_r autoScroll_r
       scrollToTop_r waitForLoadState_r screenshot_r sharp_r unlink_r close_r] in *;
  destruct a1, a2, a3, a4, a5, a6, a7, a8, a9, a10, a11, a12.

(** Case analysis on the oracle of a task that stops along each path as
    soon as [fin] closes the goal: the answers are taken in the order of the
    calls, the one of [context.close()] right after the one of
    [browser.newContext()]. *)
Ltac oracle_prune env fin :=
  destruct env as [a1 a2 a3 a4 a5 a6 a7 a8 a9 a10 a11 a12];
  cbn [newContext_r newPage_r goto_r waitForSelector_r click_r autoScroll_r
       scrollToTop_r waitForLoadState_r screenshot_r sharp_r unlink_r close_r] in *;
  try solve [fin]; destruct a1;
  try solve [fin]; destruct a12;
  try solve [fin]; destruct a2;
  try solve [fin]; destruct a3;
  try solve [fin]; destruct a4;
  try solve [fin]; destruct a5;
  try solve [fin]; destruct a6;
  try solve [fin]; destruct a7;
  try solve [fin]; destruct a8;
  try solve [fin]; destruct a9;
  try solve [fin]; destruct a10;
  try solve [fin]; destruct a11;
  solve [fin].

Lemma run_task_completion (env : TaskEnv) (url : string) (device : Device)
    (dateTimeDir : string) (files : gset string) :
  snd (run_task env url device dateTimeDir files)
  = match cleanup_answer env with
    | Rejects e => Throw e
    | Resolves => Normal (expected_outcome env url device)
    end.
Proof.
  oracle_cases env; reflexivity.
Qed.

(** C4, as amended: whatever the guarded calls answer, the task returns an
    outcome, provided closing the context does not throw: the success
    outcome when no guarded call throws, else the failure outcome made from
    the exception. *)
Theorem task_returns_outcome (env : TaskEnv) (url : string) (device : Device)
    (dateTimeDir : string) (files : gset string) :
  (newContext_r env = Resolves -> close_r env = Resolves) ->
  snd (run_task env url device dateTimeDir files)
  = Normal
      match thrown_in_try env with
      | None => Outcome.mk "fulfilled" url (name device) None
      | Some e => Outcome.mk "rejected" url (name device) (Some (message e))
      end.
Proof.
  intros Hclose. rewrite run_task_completion. unfold cleanup_answer.
  destruct (newContext_r env); [rewrite Hclose by reflexivity|]; reflexivity.
Qed.

Lemma task_returns_outcome_witness :
  snd (run_task goto_fails "https://a.test" desktop_device "/out" ∅)
  = Normal (Outcome.mk "rejected" "https://a.test" (Some "desktop")
              (Some (message timeout_error))).
Proof.
  apply (task_returns_outcome goto_fails "https://a.test" desktop_device "/out" ∅).
  reflexivity.
Defined.

(** C4 as stated fails: when the navigation throws and closing the context
    throws as well, the task raises. *)
Lemma task_raises_when_close_throws :
  let env := mkTaskEnv Resolves Resolves (Rejects timeout_error) Resolves Resolves
               Resolves Resolves Resolves Resolves Resolves Resolves
               (Rejects (mkError "context.close: Target closed" "")) in
  snd (run_task env "https://a.test" desktop_device "/out" ∅)
  = Throw (mkError "context.close: Target closed" "").
Proof. reflexivity. Qed.

Lemma run_task_error_details (env : TaskEnv) (url : string) (device : Device)
    (dateTimeDir : string) (files : gset string) (e : Error) :
  thrown_in_try env = Some e ->
  error_details (trace (fst (run_task env url device dateTimeDir files)))
  = [first_line (message e)].
Proof.
  oracle_cases env; intros H; cbn in H; try discriminate H;
    injection H as <-; reflexivity.
Qed.

(** C5, as amended: for the exception caught at the task boundary, the
    returned failure outcome carries the url, the device name and the whole
    [message] of the exception (not its stack); the first line alone is what
    the task prints with [console.error]. *)
Theorem failure_outcome_carries_message (env : TaskEnv) (url : string)
    (device : Device) (dateTimeDir : string) (files : gset string)
    (e : Error) (o : Outcome.t) :
  thrown_in_try env = Some e ->
  snd (run_task env url device dateTimeDir files) = Normal o ->
  o = Outcome.mk "rejected" url (name device) (Some (message e)) /\
  error_details (trace (fst (run_task env url device dateTimeDir files)))
  = [first_line (message e)].
Proof.
  intros Hthrown Hrun. split.
  - rewrite run_task_completion in Hrun. unfold expected_outcome in Hrun.
    rewrite Hthrown in Hrun.
    destruct (cleanup_answer env); [|discriminate].
    injection Hrun as <-. reflexivity.
  - apply run_task_error_details, Hthrown.
Qed.

Lemma failure_outcome_carries_message_witness :
  Outcome.mk "rejected" "https://a.test" (Some "desktop") (Some (message timeout_error))
  = Outcome.mk "rejected" "https://a.test" (name desktop_device)
      (Some (message timeout_error)) /\
  error_details
    (trace (fst (run_task goto_fails "https://a.test" desktop_device "/out" ∅)))
  = [first_line (message timeout_error)].
Proof.
  apply (failure_outcome_carries_message goto_fails "https://a.test" desktop_device
           "/out" ∅ timeout_error).
  - reflexivity.
  - reflexivity.
Defined.

(** C5 as stated fails: the outcome of a task whose navigation threw an
    exception with a message of three lines carries the three lines, not
    the first one alone. *)
Lemma failure_outcome_keeps_every_line :
  exists o,
    snd (run_task goto_fails "https://a.test" desktop_device "/out" ∅) = Normal o /\
    Outcome.error o = Some (message timeout_error) /\
    Outcome.error o <> Some (first_line (message timeout_error)) /\
    first_line (message timeout_error) = "page.goto: Timeout 60000ms exceeded.".
Proof.
  eexists. split; [reflexivity|]. split; [reflexivity|]. split; [discriminate|reflexivity].
Qed.

(** C6: on a page the navigation has reached, the scroll scripts run if and
    only if the consent button was found and clicked.  When the wait for the
    button throws, nothing scrolls, the task goes on to the wait for the
    network and, the later calls succeeding, returns the success outcome.
    When the button is found and clicked, the scroll to the bottom is
    invoked once, and once it returns the jump to the top is invoked once,
    right after it.  The wait for the button is bounded by 5000 ms. *)
Theorem scroll_iff_consent_clicked (env : TaskEnv) (url : string) (device : Device)
    (dateTimeDir : string) (files : gset string) :
  newContext_r env = Resolves -> newPage_r env = Resolves -> goto_r env = Resolves ->
  let t := trace (fst (run_task env url device dateTimeDir files)) in
  selector_timeouts t = [5000] /\
  (forall e, waitForSelector_r env = Rejects e ->
     count_calls is_scroll t = 0%nat /\
     count_calls is_waitForLoadState t = 1%nat /\
     (waitForLoadState_r env = Resolves -> screenshot_r env = Resolves ->
      sharp_r env = Resolves -> unlink_r env = Resolves -> close_r env = Resolves ->
      snd (run_task env url device dateTimeDir files)
      = Normal (Outcome.mk "fulfilled" url (name device) None))) /\
  (waitForSelector_r env = Resolves -> click_r env = Resolves ->
     count_calls is_autoScroll t = 1%nat /\
     (autoScroll_r env = Resolves ->
      count_calls is_scrollToTop t = 1%nat /\ down_then_up t = true)) /\
  (consent_clicked env = false -> count_calls is_scroll t = 0%nat).
Proof.
  intros H1 H2 H3 t. subst t.
  destruct env as [a1 a2 a3 a4 a5 a6 a7 a8 a9 a10 a11 a12].
  cbn [newContext_r newPage_r goto_r waitForSelector_r click_r autoScroll_r
       scrollToTop_r waitForLoadState_r screenshot_r sharp_r unlink_r close_r
       consent_clicked] in *.
  subst a1 a2 a3. split; [|split; [|split]].
  - destruct a4, a5, a6, a7, a8, a9, a10, a11, a12; reflexivity.
  - intros e ->. split; [|split].
    + destruct a5, a6, a7, a8, a9, a10, a11, a12; reflexivity.
    + destruct a5, a6, a7, a8, a9, a10, a11, a12; reflexivity.
    + intros -> -> -> -> ->. destruct a5, a6, a7; reflexivity.
  - intros -> ->. split.
    + destruct a6, a7, a8, a9, a10, a11, a12; reflexivity.
    + intros ->. split; destruct a7, a8, a9, a10, a11, a12; reflexivity.
  - intros Hno. destruct a4, a5; try discriminate Hno;
      destruct a6, a7, a8, a9, a10, a11, a12; reflexivity.
Qed.

Lemma scroll_iff_consent_clicked_witness :
  let t := trace (fst (run_task all_ok "https://a.test" desktop_device "/out" ∅)) in
  let u := trace (fst (run_task no_consent "https://a.test" desktop_device "/out" ∅)) in
  (count_calls is_autoScroll t = 1%nat /\ count_calls is_scrollToTop t = 1%nat /\
   down_then_up t = true) /\
  count_calls is_scroll u = 0%nat.
Proof.
  split.
  - destruct (scroll_iff_consent_clicked all_ok "https://a.test" desktop_device
                "/out" ∅ eq_refl eq_refl eq_refl) as (_ & _ & Hclicked & _).
    destruct (Hclicked eq_refl eq_refl) as [Hdown Hup].
    destruct (Hup eq_refl) as [Htop Hseq].
    split; [exact Hdown | split; [exact Htop | exact Hseq]].
  - destruct (scroll_iff_consent_clicked no_consent "https://a.test" desktop_device
                "/out" ∅ eq_refl eq_refl eq_refl) as (_ & Habsent & _ & _).
    exact (proj1 (Habsent _ eq_refl)).
Defined.

Lemma run_task_files (env : TaskEnv) (url : string) (device : Device)
    (dateTimeDir : string) (files : gset string) :
  thrown_in_try env = None ->
  let png := path_join dateTimeDir (png_name url device) in
  let webp := replace_first re_png true ".webp" png in
  fs (fst (run_task env url device dateTimeDir files))
  = (files ∪ {[ png ]} ∪ {[ webp ]}) ∖ {[ png ]} /\
  file_calls (trace (fst (run_task env url device dateTimeDir files)))
  = [page_screenshot png true "png" 60000; sharp_webp_toFile png 70 webp; fs_unlink png].
Proof.
  oracle_cases env; intros H; cbn in H; try discriminate H; split; reflexivity.
Qed.

Lemma run_task_fulfilled (env : TaskEnv) (url : string) (device : Device)
    (dateTimeDir : string) (files : gset string) (o : Outcome.t) :
  snd (run_task env url device dateTimeDir files) = Normal o ->
  Outcome.status o = "fulfilled" ->
  thrown_in_try env = None.
Proof.
  rewrite run_task_completion. intros Hrun Hstatus.
  destruct (cleanup_answer env); [|discriminate].
  injection Hrun as <-. unfold expected_outcome in Hstatus.
  destruct (thrown_in_try env); [discriminate Hstatus | reflexivity].
Qed.

(** ** The run directory and the artifact *)

Lemma follows_pattern_app (p1 p2 s1 s2 : string) :
  follows_pattern p1 s1 = true -> follows_pattern p2 s2 = true ->
  follows_pattern (p1 +:+ p2) (s1 +:+ s2) = true.
Proof.
  revert s1. induction p1 as [|p p1 IH]; intros [|c s1] H1 H2; try discriminate H1.
  - exact H2.
  - rewrite !string_app_cons. cbn [follows_pattern] in *.
    apply andb_true_iff in H1 as [Hc H1]. rewrite Hc. cbn [andb]. now apply IH.
Qed.

(** A check made on every number of a range holds of each of them. *)
Lemma checked_on_range (check : Z -> bool) (lo hi : Z) :
  List.forallb (fun k => check (lo + Z.of_nat k))
               (List.seq 0 (Z.to_nat (hi - lo + 1))) = true ->
  forall n : Z, lo <= n <= hi -> check n = true.
Proof.
  intros Hall n Hn. rewrite List.forallb_forall in Hall.
  replace n with (lo + Z.of_nat (Z.to_nat (n - lo))) by lia.
  apply Hall, List.in_seq. lia.
Qed.

Lemma padStart_two_digits (n : Z) :
  0 <= n <= 99 -> follows_pattern "DD" (padStart (String_of_Z n) 2 "0") = true.
Proof.
  intros Hn.
  apply (checked_on_range
           (fun n => follows_pattern "DD" (padStart (String_of_Z n) 2 "0")) 0 99);
    [vm_compute; reflexivity | lia].
Qed.

Lemma year_four_digits (n : Z) :
  1000 <= n <= 9999 -> follows_pattern "YYYY" (String_of_Z n) = true.
Proof.
  intros Hn.
  apply (checked_on_range (fun n => follows_pattern "YYYY" (String_of_Z n)) 1000 9999);
    [vm_compute; reflexivity | lia].
Qed.

Lemma currentDateTime_pattern (now : Date) :
  valid_date now -> follows_pattern "YYYY-MM-DD_HHMM" (currentDateTime now) = true.
Proof.
  intros (Hy & Hm & Hd & Hh & Hmin). unfold currentDateTime. cbv zeta.
  change "YYYY-MM-DD_HHMM"
    with ("YYYY" +:+ "-" +:+ "MM" +:+ "-" +:+ "DD" +:+ "_" +:+ "HH" +:+ "MM").
  repeat first
    [ apply padStart_two_digits; lia
    | apply year_four_digits; lia
    | apply follows_pattern_app; [try reflexivity|] ].
Qed.

Lemma png_path_of_base (dirname url n : string) (w : Z) (h : option Z) (ua : JsValue)
    (now : Date) :
  path_join (path_join (outputDir dirname) (currentDateTime now))
            (png_name url (mkDevice (Some n) (Some w) h ua))
  = artifact_base (outputDir dirname) (currentDateTime now) url n w +:+ ".png".
Proof.
  unfold path_join, png_name, artifact_base. cbn [name width interp_string interp_number].
  unfold urlFilename. rewrite replace_scheme, replace_all_not_alnum.
  fold (spec_slug url). rewrite !string_app_assoc. reflexivity.
Qed.

Lemma webp_is_not_png (base : string) : base +:+ ".webp" <> base +:+ ".png".
Proof. intros H. apply (inj (String.app base)) in H. discriminate H. Qed.

(** The timestamp writes the date it is made from. *)
Lemma two_digits_read (n : Z) :
  0 <= n <= 99 ->
  String.length (padStart (String_of_Z n) 2 "0") = 2%nat /\
  decimal_value (padStart (String_of_Z n) 2 "0") = n.
Proof.
  intros Hn.
  pose proof (checked_on_range
    (fun n => (String.length (padStart (String_of_Z n) 2 "0") =? 2)%nat
              && (decimal_value (padStart (String_of_Z n) 2 "0") =? n)) 0 99
    ltac:(vm_compute; reflexivity) n Hn) as H.
  apply andb_true_iff in H as [Hlen Hval].
  split; [now apply Nat.eqb_eq | now apply Z.eqb_eq].
Qed.

Lemma year_read (n : Z) :
  1000 <= n <= 9999 ->
  String.length (String_of_Z n) = 4%nat /\ decimal_value (String_of_Z n) = n.
Proof.
  intros Hn.
  pose proof (checked_on_range
    (fun n => (String.length (String_of_Z n) =? 4)%nat
              && (decimal_value (String_of_Z n) =? n)) 1000 9999
    ltac:(vm_compute; reflexivity) n Hn) as H.
  apply andb_true_iff in H as [Hlen Hval].
  split; [now apply Nat.eqb_eq | now apply Z.eqb_eq].
Qed.

Lemma currentDateTime_read (now : Date) :
  valid_date now ->
  read_timestamp (currentDateTime now)
  = Some (getFullYear now, getMonth now + 1, getDate now, getHours now, getMinutes now).
Proof.
  intros Hdate. unfold read_timestamp.
  rewrite (currentDateTime_pattern now Hdate).
  destruct Hdate as (Hy & Hm & Hd & Hh & Hmin).
  unfold currentDateTime. cbv zeta.
  destruct (year_read (getFullYear now) Hy) as [Hlen1 Hval1].
  destruct (two_digits_read (getMonth now + 1) ltac:(lia)) as [Hlen2 Hval2].
  destruct (two_digits_read (getDate now) ltac:(lia)) as [Hlen3 Hval3].
  destruct (two_digits_read (getHours now) ltac:(lia)) as [Hlen4 Hval4].
  destruct (two_digits_read (getMinutes now) ltac:(lia)) as [Hlen5 Hval5].
  revert Hlen1 Hval1 Hlen2 Hval2 Hlen3 Hval3 Hlen4 Hval4 Hlen5 Hval5.
  generalize (String_of_Z (getFullYear now)) as year.
  generalize (padStart (String_of_Z (getMonth now + 1)) 2 "0") as month.
  generalize (padStart (String_of_Z (getDate now)) 2 "0") as day.
  generalize (padStart (String_of_Z (getHours now)) 2 "0") as hours.
  generalize (padStart (String_of_Z (getMinutes now)) 2 "0") as minutes.
  intros minutes hours day month year.
  destruct year as [|y1 [|y2 [|y3 [|y4 [|]]]]]; try discriminate.
  destruct month as [|m1 [|m2 [|]]]; try discriminate.
  destruct day as [|d1 [|d2 [|]]]; try discriminate.
  destruct hours as [|h1 [|h2 [|]]]; try discriminate.
  destruct minutes as [|n1 [|n2 [|]]]; try discriminate.
  intros _ Hval1 _ Hval2 _ Hval3 _ Hval4 _ Hval5.
  change (Some (decimal_value (String y1 (String y2 (String y3 (String y4 "")))),
                decimal_value (String m1 (String m2 "")),
                decimal_value (String d1 (String d2 "")),
                decimal_value (String h1 (String h2 "")),
                decimal_value (String n1 (String n2 "")))
          = Some (getFullYear now, getMonth now + 1, getDate now, getHours now,
                  getMinutes now)).
  now rewrite Hval1, Hval2, Hval3, Hval4, Hval5.
Qed.

(** ** The files of a run *)

Lemma run_task_fs_cases (env : TaskEnv) (url : string) (device : Device)
    (dateTimeDir : string) (files : gset string) :
  let png := path_join dateTimeDir (png_name url device) in
  let webp := replace_first re_png true ".webp" png in
  let after := fs (fst (run_task env url device dateTimeDir files)) in
  after = files \/ after = files ∪ {[ png ]} \/ after = files ∪ {[ png ]} ∪ {[ webp ]}
  \/ after = (files ∪ {[ png ]} ∪ {[ webp ]}) ∖ {[ png ]}.
Proof.
  cbv zeta.
  oracle_prune env ltac:(
    first [ left; reflexivity
          | right; left; reflexivity
          | right; right; left; reflexivity
          | right; right; right; reflexivity ]).
Qed.

(** A task removes no file but its own [.png]. *)
Lemma run_task_keeps (env : TaskEnv) (url : string) (device : Device)
    (dateTimeDir : string) (files : gset string) (p : string) :
  p ∈ files -> p <> path_join dateTimeDir (png_name url device) ->
  p ∈ fs (fst (run_task env url device dateTimeDir files)).
Proof.
  intros Hin Hne.
  destruct (run_task_fs_cases env url device dateTimeDir files) as [H|[H|[H|H]]];
    rewrite H; rewrite ?elem_of_difference, ?elem_of_union, ?elem_of_singleton; tauto.
Qed.

Lemma png_path_form (dateTimeDir url : string) (device : Device) :
  exists base, path_join dateTimeDir (png_name url device) = base +:+ ".png".
Proof.
  exists (dateTimeDir +:+ "/" +:+ urlFilename url +:+ "_" +:+ interp_string (name device)
            +:+ "_" +:+ interp_number (width device)).
  unfold path_join, png_name. rewrite !string_app_assoc. reflexivity.
Qed.

Lemma webp_is_no_png (a b : string) : a +:+ ".webp" <> b +:+ ".png".
Proof.
  revert b. induction a as [|x a IH]; intros b H.
  - apply (f_equal String.length) in H as Hlen.
    rewrite !string_app_length in Hlen.
    destruct b as [|y [|z b]]; cbn [String.length] in Hlen; try lia.
    discriminate H.
  - destruct b as [|y b].
    + apply (f_equal String.length) in H.
      rewrite string_app_cons in H. cbn [String.length] in H.
      rewrite !string_app_length in H. cbn [String.length] in H. lia.
    + rewrite !string_app_cons in H. injection H as _ H. exact (IH b H).
Qed.

Lemma files_after_keeps_webp (dateTimeDir : string) (pairs : list (string * Device)) :
  forall (tenv : nat -> TaskEnv) (files : gset string) (x : string),
  (x +:+ ".webp") ∈ files -> (x +:+ ".webp") ∈ files_after tenv dateTimeDir pairs files.
Proof.
  induction pairs as [|[url device] pairs IH]; intros tenv files x Hin; [exact Hin|].
  cbn [files_after]. apply IH. apply run_task_keeps; [exact Hin|].
  destruct (png_path_form dateTimeDir url device) as [base ->]. apply webp_is_no_png.
Qed.

(** The artifact of a task that succeeds is there when the join resolves. *)
Lemma files_after_success (dateTimeDir : string) (pairs : list (string * Device)) :
  forall (i : nat) (tenv : nat -> TaskEnv) (files : gset string) (url : string)
         (device : Device),
  pairs !! i = Some (url, device) ->
  thrown_in_try (tenv i) = None ->
  replace_first re_png true ".webp" (path_join dateTimeDir (png_name url device))
    ∈ files_after tenv dateTimeDir pairs files.
Proof.
  induction pairs as [|[url0 device0] pairs IH]; intros [|i] tenv files url device Hi Hnone;
    try discriminate Hi.
  - injection Hi as -> ->. cbn [files_after].
    destruct (run_task_files (tenv O) url device dateTimeDir files Hnone) as [Hfs _].
    rewrite Hfs. clear Hfs.
    destruct (png_path_form dateTimeDir url device) as [base ->].
    rewrite replace_png_extension. apply files_after_keeps_webp.
    pose proof (webp_is_no_png base base).
    rewrite elem_of_difference, !elem_of_union, !elem_of_singleton. tauto.
  - cbn [files_after]. exact (IH i (fun i => tenv (S i)) _ url device Hi Hnone).
Qed.

Lemma successful_task_files (env : TaskEnv) (dirname url n : string) (w : Z)
    (h : option Z) (ua : JsValue) (now : Date) (files : gset string) :
  let device := mkDevice (Some n) (Some w) h ua in
  let dateTimeDir := path_join (outputDir dirname) (currentDateTime now) in
  let base := artifact_base (outputDir dirname) (currentDateTime now) url n w in
  let final := fst (run_task env url device dateTimeDir files) in
  thrown_in_try env = None ->
  fs final = (files ∪ {[ base +:+ ".webp" ]}) ∖ {[ base +:+ ".png" ]} /\
  file_calls (trace final)
  = [page_screenshot (base +:+ ".png") true "png" 60000;
     sharp_webp_toFile (base +:+ ".png") 70 (base +:+ ".webp");
     fs_unlink (base +:+ ".png")].
Proof.
  intros device dateTimeDir base final Hnone.
  destruct (run_task_files env url device dateTimeDir files Hnone) as [Hfs Hcalls].
  fold final in Hfs, Hcalls.
  unfold device, dateTimeDir in Hfs, Hcalls.
  rewrite png_path_of_base in Hfs, Hcalls. fold base in Hfs, Hcalls.
  rewrite replace_png_extension in Hfs, Hcalls.
  pose proof (webp_is_not_png base) as Hne.
  split; [|exact Hcalls].
  rewrite Hfs. apply set_eq. intros x.
  rewrite !elem_of_difference, !elem_of_union, !elem_of_singleton. tauto.
Qed.

(** ** The orchestrator *)

Section Join.

(** The directory of the run, which every task of the run is given. *)
Variable dateTimeDir : string.

Lemma settle_task (tenv : TaskEnv) (url : string) (device : Device) (w : World) :
  settle (takeSingleScreenshot tenv url device dateTimeDir) w
  = (let s := fst (run_task tenv url device dateTimeDir (files w)) in
     mkWorld (fs s) (calls w) (task_traces w ++ [trace s]),
     Normal (expected_result tenv url device)).
Proof.
  unfold settle.
  change (takeSingleScreenshot tenv url device dateTimeDir
            (mkTaskState (files w) [] None))
    with (run_task tenv url device dateTimeDir (files w)).
  pose proof (run_task_completion tenv url device dateTimeDir (files w)) as Hc.
  destruct (run_task tenv url device dateTimeDir (files w)) as [s r].
  cbn [fst snd] in *. subst r. unfold expected_result.
  destruct (cleanup_answer tenv); reflexivity.
Qed.

(** The join: every task settles, in the order of dispatch, and the
    orchestrator makes no call of its own meanwhile. *)
Lemma allSettled_tasks (pairs : list (string * Device)) :
  forall (tenv : nat -> TaskEnv) (w : World),
  exists w',
    allSettled
      (imap (fun i '(url, device) => takeSingleScreenshot (tenv i) url device dateTimeDir)
            pairs) w
    = (w', Normal (expected_results tenv pairs)) /\
    calls w' = calls w /\
    length (task_traces w') = (length (task_traces w) + length pairs)%nat.
Proof.
  induction pairs as [|[url device] pairs IH]; intros tenv w.
  - exists w. cbn. repeat split. lia.
  - rewrite imap_cons. cbn [allSettled]. unfold bind at 1.
    rewrite settle_task. cbv zeta.
    set (w1 := mkWorld _ _ _).
    destruct (IH (tenv ∘ S) w1) as (w' & Hw' & Hcalls & Hlen).
    exists w'. unfold bind at 1.
    change (imap ((fun i '(url0, device0) =>
                     takeSingleScreenshot (tenv i) url0 device0 dateTimeDir) ∘ S) pairs)
      with (imap (fun i '(url0, device0) =>
                     takeSingleScreenshot ((tenv ∘ S) i) url0 device0 dateTimeDir) pairs).
    rewrite Hw'. split; [reflexivity|].
    split; [exact Hcalls|].
    rewrite Hlen. unfold w1. cbn [task_traces]. rewrite length_app. cbn [length]. lia.
Qed.

End Join.

Lemma tally_counts (results : list PromiseSettledResult) :
  tally results
  = (length (List.filter is_fulfilled results),
     length (List.filter (fun r => negb (is_fulfilled r)) results)).
Proof.
  unfold tally.
  enough (H : forall a b,
    fold_left
      (fun '(successCount, failureCount) result =>
         if String.eqb (settled_status result) "fulfilled"
         then (S successCount, failureCount)
         else (successCount, S failureCount))
      results (a, b)
    = ((a + length (List.filter is_fulfilled results))%nat,
       (b + length (List.filter (fun r => negb (is_fulfilled r)) results))%nat))
    by apply (H O O).
  induction results as [|[v|e] results IH]; intros a b.
  - cbn. f_equal; lia.
  - cbn [fold_left List.filter is_fulfilled negb settled_status length].
    change (String.eqb "fulfilled" "fulfilled") with true. cbv iota.
    rewrite IH. f_equal; lia.
  - cbn [fold_left List.filter is_fulfilled negb settled_status length].
    change (String.eqb "rejected" "fulfilled") with false. cbv iota.
    rewrite IH. f_equal; lia.
Qed.

Lemma tally_total (results : list PromiseSettledResult) :
  (fst (tally results) + snd (tally results))%nat = length results.
Proof.
  rewrite tally_counts. cbn [fst snd].
  induction results as [|r results IH]; [reflexivity|].
  cbn [List.filter length]. destruct (is_fulfilled r); cbn [negb length]; lia.
Qed.

Lemma cross_product_length (urls : list string) (devices : list Device) :
  length (cross_product urls devices) = (length urls * length devices)%nat.
Proof.
  unfold cross_product. induction urls as [|url urls IH]; [reflexivity|].
  cbn [flat_map length]. rewrite length_app, List.length_map, IH. lia.
Qed.

Lemma run_valid (dirname : string) (urls : list string) (devices : list Device)
    (now : Date) (env : Env) (files0 : gset string) :
  urlList_rejected (Array urls) = false ->
  deviceSizes_rejected (Array devices) = false ->
  launch_r env = Resolves ->
  let total := (length urls * length devices)%nat in
  let results := expected_results (task_env env) (cross_product urls devices) in
  let w := fst (run dirname (Parsed (mkConfig (Array urls) (Array devices))) now env files0) in
  console_lines (calls w)
  = (["Found " +:+ String_of_nat (length urls) +:+ " URLs and "
        +:+ String_of_nat (length devices) +:+ " device sizes. Starting "
        +:+ String_of_nat total +:+ " screenshot tasks...";
      "Executing " +:+ String_of_nat total +:+ " tasks in parallel..."]
     ++ summary_lines total (fst (tally results)) (snd (tally results))
     ++ match browser_close_r env with
        | Resolves => ["Browser closed."]
        | Rejects _ => []
        end)%list /\
  browser_calls (calls w) = [chromium_launch; browser_close] /\
  length (task_traces w) = total /\
  snd (run dirname (Parsed (mkConfig (Array urls) (Array devices))) now env files0)
  = match browser_close_r env with
    | Resolves => Normal tt
    | Rejects _ => ProcessExit 1
    end.
Proof.
  intros Hu Hd Hl total results w. subst w.
  unfold run, script, main. cbn [urlList deviceSizes items_of]. rewrite Hu, Hd, Hl.
  unfold screenshotTasks.
  rewrite length_imap, cross_product_length. fold total.
  unfold bind, try_catch, try_finally, ensure_dir, call, modify, get, ret, answer,
    bind, process_exit, throw.
  cbn [files calls task_traces].
  destruct (decide (outputDir dirname ∈ files0));
    cbn beta iota zeta delta [files calls task_traces ret];
  (match goal with
   | |- context [decide ?P] => destruct (decide P)
   end); cbn beta iota zeta delta [files calls task_traces ret];
  (match goal with
   | |- context [allSettled ?ts ?W] =>
       destruct (allSettled_tasks
                   (path_join (outputDir dirname) (currentDateTime now))
                   (cross_product urls devices) (task_env env) W)
         as (w' & Heq & Hcalls & Hlen);
       rewrite Heq
   end); fold results;
  destruct (tally results) as [successCount failureCount];
  destruct (browser_close_r env);
  cbn beta iota zeta delta [files calls task_traces ret fst snd] in *;
  rewrite Hcalls, Hlen, cross_product_length;
  cbn [app console_lines browser_calls summary_lines length Nat.add];
  repeat split; reflexivity.
Qed.

Lemma valid_lists_accepted (urls : list string) (devices : list Device) :
  urls <> [] -> devices <> [] -> forallb device_complete devices = true ->
  urlList_rejected (Array urls) = false /\ deviceSizes_rejected (Array devices) = false.
Proof.
  intros Hu Hd Hall. unfold urlList_rejected, deviceSizes_rejected.
  cbn [field_truthy isArray items_of negb orb]. rewrite Hall.
  destruct urls; [contradiction|]. destruct devices; [contradiction|]. split; reflexivity.
Qed.

Lemma expected_results_lookup (tenv : nat -> TaskEnv) (pairs : list (string * Device))
    (dateTimeDir : string) (files : gset string) (i : nat) (url : string) (device : Device) :
  pairs !! i = Some (url, device) ->
  expected_results tenv pairs !! i
  = settled_of (snd (run_task (tenv i) url device dateTimeDir files)).
Proof.
  intros Hi. unfold expected_results.
  rewrite list_lookup_imap, Hi, run_task_completion. unfold expected_result.
  destruct (cleanup_answer (tenv i)); reflexivity.
Qed.

(** The tasks of a run, one after the other: what the join leaves. *)

Lemma run_task_trace_files (env : TaskEnv) (url : string) (device : Device)
    (dateTimeDir : string) (files : gset string) :
  trace (fst (run_task env url device dateTimeDir files))
  = trace (fst (run_task env url device dateTimeDir ∅)).
Proof.
  oracle_prune env ltac:(reflexivity).
Qed.

Lemma allSettled_world (dateTimeDir : string) (pairs : list (string * Device)) :
  forall (tenv : nat -> TaskEnv) (w : World),
  allSettled
    (imap (fun i '(url, device) => takeSingleScreenshot (tenv i) url device dateTimeDir)
          pairs) w
  = (mkWorld (files_after tenv dateTimeDir pairs (files w)) (calls w)
             (task_traces w ++ traces_of tenv dateTimeDir pairs),
     Normal (expected_results tenv pairs)).
Proof.
  induction pairs as [|[url device] pairs IH]; intros tenv w.
  - cbn. rewrite app_nil_r. destruct w; reflexivity.
  - rewrite imap_cons. cbn [allSettled]. unfold bind at 1.
    rewrite settle_task. cbv zeta. unfold bind at 1.
    change (imap ((fun i '(url0, device0) =>
                     takeSingleScreenshot (tenv i) url0 device0 dateTimeDir) ∘ S) pairs)
      with (imap (fun i '(url0, device0) =>
                     takeSingleScreenshot ((tenv ∘ S) i) url0 device0 dateTimeDir) pairs).
    rewrite IH. cbn [files calls task_traces files_after].
    unfold traces_of, expected_results. rewrite !imap_cons.
    rewrite (run_task_trace_files (tenv O) url device dateTimeDir (files w)).
    rewrite <- app_assoc. reflexivity.
Qed.

Lemma run_tasks (dirname : string) (urls : list string) (devices : list Device)
    (now : Date) (env : Env) (files0 : gset string) :
  urlList_rejected (Array urls) = false ->
  deviceSizes_rejected (Array devices) = false ->
  launch_r env = Resolves ->
  let dateTimeDir := path_join (outputDir dirname) (currentDateTime now) in
  let pairs := cross_product urls devices in
  let w := fst (run dirname (Parsed (mkConfig (Array urls) (Array devices))) now env files0) in
  task_traces w = traces_of (task_env env) dateTimeDir pairs /\
  exists before, files w = files_after (task_env env) dateTimeDir pairs before.
Proof.
  intros Hu Hd Hl dateTimeDir pairs w. subst w.
  unfold run, script, main. cbn [urlList deviceSizes items_of]. rewrite Hu, Hd, Hl.
  unfold screenshotTasks. fold dateTimeDir pairs.
  unfold bind, try_catch, try_finally, ensure_dir, call, modify, get, ret, answer,
    bind, process_exit, throw.
  cbn [files calls task_traces].
  destruct (decide (outputDir dirname ∈ files0));
    cbn beta iota zeta delta [files calls task_traces ret];
  (match goal with
   | |- context [decide ?P] => destruct (decide P)
   end); cbn beta iota zeta delta [files calls task_traces ret];
  rewrite allSettled_world;
  destruct (tally (expected_results (task_env env) pairs)) as [successCount failureCount];
  destruct (browser_close_r env);
  cbn beta iota zeta delta [files calls task_traces ret fst snd app];
  (split; [reflexivity | eexists; reflexivity]).
Qed.

Lemma lookup_map {A B} (f : A -> B) (l : list A) (i : nat) :
  List.map f l !! i = f <$> l !! i.
Proof.
  revert i. induction l as [|x l IH]; intros [|i]; try reflexivity. apply IH.
Qed.

Lemma cross_product_lookup (urls : list string) (devices : list Device) (u d : nat)
    (url : string) (device : Device) :
  urls !! u = Some url -> devices !! d = Some device ->
  cross_product urls devices !! (u * length devices + d)%nat = Some (url, device).
Proof.
  intros Hu Hd. unfold cross_product.
  revert u Hu. induction urls as [|url0 urls IH]; intros [|u] Hu; try discriminate Hu.
  - injection Hu as ->. cbn [flat_map Nat.mul Nat.add].
    rewrite lookup_app_l by (rewrite List.length_map; eapply lookup_lt_Some; exact Hd).
    rewrite lookup_map, Hd. reflexivity.
  - cbn [flat_map]. rewrite lookup_app_r by (rewrite List.length_map; lia).
    rewrite List.length_map.
    replace (S u * length devices + d - length devices)%nat
      with (u * length devices + d)%nat by lia.
    apply IH. exact Hu.
Qed.

Lemma traces_of_lookup (tenv : nat -> TaskEnv) (dateTimeDir : string)
    (pairs : list (string * Device)) (i : nat) (url : string) (device : Device) :
  pairs !! i = Some (url, device) ->
  traces_of tenv dateTimeDir pairs !! i
  = Some (trace (fst (run_task (tenv i) url device dateTimeDir ∅))).
Proof.
  intros Hi. unfold traces_of. rewrite list_lookup_imap, Hi. reflexivity.
Qed.

(** C8: in a run, a task that returns the success outcome has written its
    artifact at [<root>/<YYYY-MM-DD_HHMM>/<urlSlug>_<deviceName>_<width>.webp],
    where [<root>] is the [_emp-screenshots] directory next to the script and
    the timestamp writes the year, the month, the day, the hours and the
    minutes of the start of the run; the task has written nothing else
    new: the [.png] of the same name, written first by the screenshot and
    read by the re-encoding, is removed last and does not exist when the
    task is over, and the artifact is there when the run ends.  The device
    name is taken to be one path segment, so that [path.join] does nothing
    but put the slash. *)
Theorem successful_task_artifact_of_run (dirname : string) (urls : list string)
    (devices : list Device) (now : Date) (env : Env) (files0 start : gset string)
    (u d : nat) (url n : string) (wd : Z) (h : option Z) (ua : JsValue) (o : Outcome.t) :
  let device := mkDevice (Some n) (Some wd) h ua in
  let i := (u * length devices + d)%nat in
  let dateTimeDir := path_join (outputDir dirname) (currentDateTime now) in
  let base := artifact_base (outputDir dirname) (currentDateTime now) url n wd in
  let w := fst (run dirname (Parsed (mkConfig (Array urls) (Array devices))) now env files0) in
  let final := fst (run_task (task_env env i) url device dateTimeDir start) in
  forallb device_complete devices = true ->
  launch_r env = Resolves ->
  valid_date now ->
  urls !! u = Some url -> devices !! d = Some device ->
  no_separator n = true ->
  snd (run_task (task_env env i) url device dateTimeDir start) = Normal o ->
  Outcome.status o = "fulfilled" ->
  follows_pattern "YYYY-MM-DD_HHMM" (currentDateTime now) = true /\
  read_timestamp (currentDateTime now)
  = Some (getFullYear now, getMonth now + 1, getDate now, getHours now, getMinutes now) /\
  task_traces w !! i = Some (trace final) /\
  file_calls (trace final)
  = [page_screenshot (base +:+ ".png") true "png" 60000;
     sharp_webp_toFile (base +:+ ".png") 70 (base +:+ ".webp");
     fs_unlink (base +:+ ".png")] /\
  fs final = (start ∪ {[ base +:+ ".webp" ]}) ∖ {[ base +:+ ".png" ]} /\
  ((base +:+ ".webp") ∈ fs final) /\
  ((base +:+ ".png") ∉ fs final) /\
  ((base +:+ ".webp") ∈ files w).
Proof.
  intros device i dateTimeDir base w final Hall Hlaunch Hdate Hurl Hdevice _ Hrun Hstatus.
  pose proof (run_task_fulfilled _ _ _ _ _ _ Hrun Hstatus) as Hnone.
  assert (Hu : urls <> []) by (intros ->; discriminate Hurl).
  assert (Hd : devices <> []) by (intros ->; discriminate Hdevice).
  destruct (valid_lists_accepted urls devices Hu Hd Hall) as [Hurls Hdevices].
  destruct (run_tasks dirname urls devices now env files0 Hurls Hdevices Hlaunch)
    as (Htraces & before & Hfiles).
  fold dateTimeDir w in Htraces, Hfiles.
  pose proof (cross_product_lookup urls devices u d url device Hurl Hdevice) as Hpair.
  fold i in Hpair.
  destruct (successful_task_files (task_env env i) dirname url n wd h ua now start Hnone)
    as [Hfs Hcalls].
  fold device dateTimeDir base final in Hfs, Hcalls.
  pose proof (webp_is_not_png base) as Hne.
  split; [exact (currentDateTime_pattern now Hdate)|].
  split; [exact (currentDateTime_read now Hdate)|].
  split.
  { rewrite Htraces, (traces_of_lookup _ _ _ _ _ _ Hpair). unfold final.
    now rewrite (run_task_trace_files _ _ _ _ start). }
  split; [exact Hcalls|]. split; [exact Hfs|].
  rewrite Hfs, Hfiles.
  rewrite !elem_of_difference, !elem_of_union, !elem_of_singleton.
  split; [tauto|]. split; [tauto|].
  pose proof (files_after_success dateTimeDir (cross_product urls devices) i
                (task_env env) before url device Hpair Hnone) as Hthere.
  unfold device, dateTimeDir in Hthere.
  rewrite png_path_of_base, replace_png_extension in Hthere. exact Hthere.
Qed.

Lemma successful_task_artifact_of_run_witness :
  let w := fst (run "/app"
                  (Parsed (mkConfig (Array ["https://a.test"; "https://b.test"])
                             (Array [desktop_device; phone_device])))
                  sample_date
                  (mkEnv Resolves (fun i => match i with O => goto_fails | _ => all_ok end)
                     Resolves) ∅) in
  read_timestamp "2024-01-05_0930" = Some (2024, 1, 5, 9, 30) /\
  (exists t,
     task_traces w !! 3%nat = Some t /\
     file_calls t
     = [page_screenshot "/app/_emp-screenshots/2024-01-05_0930/b_test_phone_390.png"
          true "png" 60000;
        sharp_webp_toFile "/app/_emp-screenshots/2024-01-05_0930/b_test_phone_390.png" 70
          "/app/_emp-screenshots/2024-01-05_0930/b_test_phone_390.webp";
        fs_unlink "/app/_emp-screenshots/2024-01-05_0930/b_test_phone_390.png"]) /\
  ("/app/_emp-screenshots/2024-01-05_0930/b_test_phone_390.webp" ∈ files w).
Proof.
  destruct (successful_task_artifact_of_run "/app" ["https://a.test"; "https://b.test"]
              [desktop_device; phone_device] sample_date
              (mkEnv Resolves (fun i => match i with O => goto_fails | _ => all_ok end)
                 Resolves) ∅ ∅ 1 1 "https://b.test" "phone" 390 (Some 844) JsUndefined
              (Outcome.mk "fulfilled" "https://b.test" (Some "phone") None))
    as (_ & Hstamp & Htrace & Hcalls & _ & _ & _ & Hthere).
  - reflexivity.
  - reflexivity.
  - unfold valid_date, sample_date. cbn. lia.
  - reflexivity.
  - reflexivity.
  - reflexivity.
  - reflexivity.
  - reflexivity.
  - split; [exact Hstamp|]. split; [|exact Hthere].
    eexists. split; [exact Htrace | exact Hcalls].
Defined.

(** The tally looks at how the promise settled, not at the [status] of the
    outcome it carries: as long as no cleanup throws, every task counts as a
    success. *)
Lemma expected_results_fulfilled (pairs : list (string * Device)) :
  forall tenv : nat -> TaskEnv,
  (forall i, cleanup_answer (tenv i) = Resolves) ->
  List.filter is_fulfilled (expected_results tenv pairs) = expected_results tenv pairs /\
  List.filter (fun r => negb (is_fulfilled r)) (expected_results tenv pairs) = [].
Proof.
  unfold expected_results.
  induction pairs as [|[url device] pairs IH]; intros tenv Hclean; [split; reflexivity|].
  rewrite imap_cons.
  assert (Hhead : expected_result (tenv O) url device
                  = fulfilled (expected_outcome (tenv O) url device))
    by (unfold expected_result; now rewrite (Hclean O)).
  rewrite Hhead. cbn [List.filter is_fulfilled negb].
  destruct (IH (tenv ∘ S) (fun i => Hclean (S i))) as [IH1 IH2].
  split; [f_equal; exact IH1 | exact IH2].
Qed.

Lemma tally_without_cleanup_failure (tenv : nat -> TaskEnv)
    (pairs : list (string * Device)) :
  (forall i, cleanup_answer (tenv i) = Resolves) ->
  tally (expected_results tenv pairs) = (length pairs, O).
Proof.
  intros Hclean. rewrite tally_counts.
  destruct (expected_results_fulfilled pairs tenv Hclean) as [-> ->].
  unfold expected_results. rewrite length_imap. reflexivity.
Qed.

(** C1, on the code: the config of one url and one device, the navigation of
    the only task throwing.  The task returns its failure outcome, the
    promise is fulfilled with it, and the summary counts one success and no
    failure; the process ends with code 0. *)
Theorem goto_failure_is_tallied_as_success :
  let r := run "/app" sample_config sample_date (uniform_env goto_fails) ∅ in
  expected_results (task_env (uniform_env goto_fails))
    (cross_product ["https://a.test"] [desktop_device])
  = [fulfilled (Outcome.mk "rejected" "https://a.test" (Some "desktop")
                  (Some (message timeout_error)))] /\
  console_lines (calls (fst r))
  = ["Found 1 URLs and 1 device sizes. Starting 1 screenshot tasks...";
     "Executing 1 tasks in parallel...";
     "--------------------";
     "Screenshot process completed.";
     "Total tasks: 1";
     "Successful:  1";
     "Failed:      0";
     "--------------------";
     "Browser closed."] /\
  map error_details (task_traces (fst r)) = [["page.goto: Timeout 60000ms exceeded."]] /\
  exit_code (snd r) = 0.
Proof. vm_compute. repeat split; reflexivity. Qed.

(** ** Validation *)

Lemma missing_or_empty_rejected {A} (f : ArrayField A) :
  missing_or_empty f <->
  (negb (field_truthy f) || negb (isArray f) || (length (items_of f) =? 0)%nat)%bool = true.
Proof.
  unfold missing_or_empty. split.
  - intros [-> | [-> | ->]]; reflexivity.
  - destruct f as [| |[|x l]]; cbn; intros H; try discriminate H; auto.
Qed.

Lemma incomplete_device_found (devices : list Device) :
  forallb device_complete devices = false <->
  exists d, In d devices /\ lacks_field d.
Proof.
  unfold lacks_field. induction devices as [|d devices IH]; cbn [forallb In].
  - split; [discriminate | intros (d & [] & _)].
  - rewrite andb_false_iff, IH. unfold device_complete at 1.
    rewrite !andb_false_iff. split.
    + intros [[[H|H]|H] | (d' & Hin & H)]; eauto 6.
    + intros (d' & [<- | Hin] & H); [left; tauto | right; eauto].
Qed.

(** The two conditions of main.js, lines 180 and 186-191, reject exactly
    what the specification calls invalid. *)
Lemma validation_fails_rejected (config : Config) :
  validation_fails config <->
  (urlList_rejected (urlList config) || deviceSizes_rejected (deviceSizes config))%bool = true.
Proof.
  unfold validation_fails, urlList_rejected, deviceSizes_rejected. split.
  - intros [H | [H | H]].
    + apply missing_or_empty_rejected in H. rewrite H. reflexivity.
    + apply missing_or_empty_rejected in H. rewrite H. apply orb_true_r.
    + apply incomplete_device_found in H. rewrite H. cbn [negb].
      rewrite !orb_true_r. reflexivity.
  - intros H. apply orb_true_iff in H as [H | H].
    + left. now apply missing_or_empty_rejected.
    + apply orb_true_iff in H as [H | H].
      * right. left. now apply missing_or_empty_rejected.
      * right. right. now apply incomplete_device_found, negb_true_iff.
Qed.

(** C9, as amended: when validation fails the run ends with exit code 1
    before the browser is started, before any task and before the directory
    of the run is made; the one effect on the files is the root output
    directory, made when the module is loaded, before the config is read. *)
Theorem validation_failure_aborts (dirname : string) (config : Config) (now : Date)
    (env : Env) (files0 : gset string) :
  validation_fails config ->
  let r := run dirname (Parsed config) now env files0 in
  exit_code (snd r) = 1 /\
  browser_calls (calls (fst r)) = [] /\
  task_traces (fst r) = [] /\
  files (fst r) = files0 ∪ {[ outputDir dirname ]} /\
  directories_made (calls (fst r))
  = (if decide (outputDir dirname ∈ files0) then [] else [outputDir dirname]).
Proof.
  intros Hfails r. subst r.
  apply validation_fails_rejected, orb_true_iff in Hfails.
  assert (Hfiles : outputDir dirname ∈ files0 ->
                   files0 = files0 ∪ {[ outputDir dirname ]}).
  { intros Hin. apply set_eq. intros x.
    rewrite elem_of_union, elem_of_singleton. split; [tauto | now intros [Hx | ->]]. }
  unfold run, script, main, ensure_dir, bind, try_catch, call, modify, get, ret,
    process_exit.
  cbn [files calls task_traces].
  destruct (decide (outputDir dirname ∈ files0)) as [Hin|Hout];
    cbn beta iota zeta delta [files calls task_traces];
    destruct (urlList_rejected (urlList config));
    [ | destruct Hfails as [Hu|Hd]; [discriminate Hu | rewrite Hd]
      | | destruct Hfails as [Hu|Hd]; [discriminate Hu | rewrite Hd] ];
    cbn beta iota zeta delta [files calls task_traces fst snd exit_code app
                              browser_calls directories_made];
    repeat (split; [reflexivity|]); try reflexivity;
    (split; [exact (Hfiles Hin) | reflexivity]).
Qed.

Lemma validation_failure_aborts_witness :
  let r := run "/app" (Parsed (mkConfig (Array ["https://a.test"])
                         (Array [mkDevice (Some "desktop") None (Some 800) JsUndefined])))
             sample_date (uniform_env all_ok) ∅ in
  exit_code (snd r) = 1 /\ browser_calls (calls (fst r)) = [] /\ task_traces (fst r) = [].
Proof.
  destruct (validation_failure_aborts "/app"
              (mkConfig (Array ["https://a.test"])
                 (Array [mkDevice (Some "desktop") None (Some 800) JsUndefined]))
              sample_date (uniform_env all_ok) ∅)
    as (Hexit & Hbrowser & Htasks & _).
  - right. right. eexists. split; [left; reflexivity|]. right. left. reflexivity.
  - split; [exact Hexit | split; [exact Hbrowser | exact Htasks]].
Defined.

(** C9 as stated fails: with an empty [urlList] and no output directory on
    the disk, the run ends with code 1 and has made the output directory. *)
Lemma output_directory_made_before_validation :
  let r := run "/app" (Parsed (mkConfig (Array []) (Array [desktop_device])))
             sample_date (uniform_env all_ok) ∅ in
  exit_code (snd r) = 1 /\
  calls (fst r)
  = [fs_existsSync "/app/_emp-screenshots";
     fs_mkdirSync "/app/_emp-screenshots";
     fs_readFile "/app/config.json";
     console_error ("Error: config.json should contain a non-empty " +:+ dq
                      +:+ "urlList" +:+ dq +:+ " array") ""] /\
  elements (files (fst r)) = ["/app/_emp-screenshots"].
Proof. vm_compute. repeat split; reflexivity. Qed.

(** ** Awaited calls that never settle *)

(** A computation all of whose awaited calls settle is followed as
    before. *)
Section Lifting.

Context {S : Type}.

Lemma lift_bind {A B} (m' : Awaiting.P S A) (k' : A -> Awaiting.P S B)
    (m : M S A) (k : A -> M S B) :
  (forall s, m' s = Awaiting.lift m s) ->
  (forall a s, k' a s = Awaiting.lift (k a) s) ->
  forall s, Awaiting.bind m' k' s = Awaiting.lift (bind m k) s.
Proof.
  intros Hm Hk s. unfold Awaiting.bind, bind. rewrite Hm. unfold Awaiting.lift.
  destruct (m s) as [s' [a|e|c]]; [rewrite Hk|..]; reflexivity.
Qed.

Lemma lift_try_catch {A} (body' : Awaiting.P S A) (handler' : Error -> Awaiting.P S A)
    (body : M S A) (handler : Error -> M S A) :
  (forall s, body' s = Awaiting.lift body s) ->
  (forall e s, handler' e s = Awaiting.lift (handler e) s) ->
  forall s, Awaiting.try_catch body' handler' s = Awaiting.lift (try_catch body handler) s.
Proof.
  intros Hb Hh s. unfold Awaiting.try_catch, try_catch. rewrite Hb.
  unfold Awaiting.lift.
  destruct (body s) as [s' [a|e|c]]; [|rewrite Hh|]; reflexivity.
Qed.

Lemma lift_try_finally {A} (body' : Awaiting.P S A) (cleanup' : Awaiting.P S unit)
    (body : M S A) (cleanup : M S unit) :
  (forall s, body' s = Awaiting.lift body s) ->
  (forall s, cleanup' s = Awaiting.lift cleanup s) ->
  forall s, Awaiting.try_finally body' cleanup' s
            = Awaiting.lift (try_finally body cleanup) s.
Proof.
  intros Hb Hc s. unfold Awaiting.try_finally, try_finally. rewrite Hb.
  unfold Awaiting.lift.
  destruct (body s) as [s' [a|e|c]]; try reflexivity;
    rewrite Hc; unfold Awaiting.lift; destruct (cleanup s') as [s'' [[]|e'|c']];
    reflexivity.
Qed.

End Lifting.

Lemma evaluate_autoScroll_settles (ticks : nat) (scrollHeight : nat -> Z) (a : Answer) :
  autoScroll ticks scrollHeight <> None ->
  forall s, Awaiting.evaluate_autoScroll ticks scrollHeight a s
            = Awaiting.lift (await (page_evaluate (AutoScroll 300 100)) a) s.
Proof.
  intros Hstops s. unfold Awaiting.evaluate_autoScroll.
  destruct (autoScroll ticks scrollHeight); [|contradiction].
  destruct a; reflexivity.
Qed.

Ltac lifting :=
  repeat first
    [ reflexivity
    | apply evaluate_autoScroll_settles; assumption
    | apply lift_bind
    | apply lift_try_catch
    | apply lift_try_finally
    | match goal with
      | |- (if ?b then _ else _) _ = _ => destruct b
      | |- match context ?ctx with _ => _ end _ = _ => destruct (context ctx)
      end
    | intro ].

Lemma awaiting_task_lifts (ticks : nat) (env : TaskEnv) (scrollHeight : nat -> Z)
    (url : string) (device : Device) (dateTimeDir : string) :
  autoScroll ticks scrollHeight <> None ->
  forall s,
  Awaiting.takeSingleScreenshot ticks env scrollHeight url device dateTimeDir s
  = Awaiting.lift (takeSingleScreenshot env url device dateTimeDir) s.
Proof.
  intros Hstops.
  unfold Awaiting.takeSingleScreenshot, takeSingleScreenshot.
  cbv zeta.
  unfold Awaiting.record, Awaiting.set_context, Awaiting.await, Awaiting.await_fs,
    Awaiting.ret.
  lifting.
Qed.

(** Tasks that settle and tasks that do not. *)

Lemma autoScroll_one_tick : autoScroll 1 (fun _ => 0) <> None.
Proof. discriminate. Qed.

Lemma awaiting_task_without_script (ticks ticks' : nat) (env : TaskEnv)
    (scrollHeight scrollHeight' : nat -> Z) (url : string) (device : Device)
    (dateTimeDir : string) (files : gset string) :
  scroll_script_awaited env = false ->
  Awaiting.takeSingleScreenshot ticks env scrollHeight url device dateTimeDir
    (mkTaskState files [] None)
  = Awaiting.takeSingleScreenshot ticks' env scrollHeight' url device dateTimeDir
      (mkTaskState files [] None).
Proof.
  intros Hnot.
  destruct env as [a1 a2 a3 a4 a5 a6 a7 a8 a9 a10 a11 a12].
  unfold scroll_script_awaited, consent_clicked in Hnot. cbn in Hnot.
  destruct a1; [|reflexivity].
  destruct a2; [|reflexivity].
  destruct a3; [|reflexivity].
  destruct a4; [|reflexivity].
  destruct a5; [|reflexivity].
  destruct a6; [discriminate Hnot | reflexivity].
Qed.

Lemma awaiting_task_settles (ticks : nat) (env : TaskEnv) (scrollHeight : nat -> Z)
    (url : string) (device : Device) (dateTimeDir : string) (files : gset string) :
  (scroll_script_awaited env = true -> autoScroll ticks scrollHeight <> None) ->
  Awaiting.takeSingleScreenshot ticks env scrollHeight url device dateTimeDir
    (mkTaskState files [] None)
  = Awaiting.lift (takeSingleScreenshot env url device dateTimeDir)
      (mkTaskState files [] None).
Proof.
  intros Hstops. destruct (scroll_script_awaited env) eqn:Hawaited.
  - apply awaiting_task_lifts. now apply Hstops.
  - rewrite (awaiting_task_without_script ticks 1 env scrollHeight (fun _ => 0)
               url device dateTimeDir files Hawaited).
    apply awaiting_task_lifts. exact autoScroll_one_tick.
Qed.

Lemma awaiting_task_pending (ticks : nat) (env : TaskEnv) (scrollHeight : nat -> Z)
    (url : string) (device : Device) (dateTimeDir : string) (files : gset string) :
  scroll_script_awaited env = true ->
  autoScroll ticks scrollHeight = None ->
  Awaiting.takeSingleScreenshot ticks env scrollHeight url device dateTimeDir
    (mkTaskState files [] None)
  = (mkTaskState files
       [console_log
          (logPrefix url device +:+ " Starting capture ("
             +:+ interp_number (width device) +:+ "x" +:+ interp_number (height device)
             +:+ ") - UA: "
             +:+ (if truthy (userAgent device) then "Custom" else "Default"));
        browser_newContext
          (mkContextOptions (width device) (height device) (userAgentToUse device));
        context_newPage;
        page_goto url "networkidle" 60000;
        page_waitForSelector acceptButtonSelector 5000;
        page_click acceptButtonSelector;
        page_evaluate (AutoScroll 300 100)]
       (Some (mkContextOptions (width device) (height device) (userAgentToUse device))),
     Awaiting.Pending).
Proof.
  intros Hawaited Hscript.
  unfold Awaiting.takeSingleScreenshot, Awaiting.evaluate_autoScroll.
  rewrite Hscript.
  destruct env as [a1 a2 a3 a4 a5 a6 a7 a8 a9 a10 a11 a12].
  unfold scroll_script_awaited, consent_clicked in Hawaited. cbn in Hawaited.
  destruct a1; [|discriminate Hawaited].
  destruct a2; [|discriminate Hawaited].
  destruct a3; [|discriminate Hawaited].
  destruct a6; [|discriminate Hawaited].
  destruct a4; [|discriminate Hawaited].
  destruct a5; [|discriminate Hawaited].
  reflexivity.
Qed.

Lemma awaiting_settle_settles (ticks : nat) (env : TaskEnv) (scrollHeight : nat -> Z)
    (url : string) (device : Device) (dateTimeDir : string) (w : World) :
  (scroll_script_awaited env = true -> autoScroll ticks scrollHeight <> None) ->
  Awaiting.settle
    (Awaiting.takeSingleScreenshot ticks env scrollHeight url device dateTimeDir) w
  = Awaiting.lift (settle (takeSingleScreenshot env url device dateTimeDir)) w.
Proof.
  intros Hstops. unfold Awaiting.settle, settle.
  rewrite (awaiting_task_settles ticks env scrollHeight url device dateTimeDir (files w)
             Hstops).
  unfold Awaiting.lift.
  destruct (takeSingleScreenshot env url device dateTimeDir _) as [s [v|e|c]];
    reflexivity.
Qed.

Section AwaitingJoin.

Variable ticks : nat.
Variable dateTimeDir : string.

(** The tasks of the pairs [pairs], under the oracle [tenv] and on the
    pages [heights]. *)
Let tasks (tenv : nat -> TaskEnv) (heights : nat -> nat -> Z)
    (pairs : list (string * Device)) : list (Awaiting.P TaskState Outcome.t) :=
  imap (fun i '(url, device) =>
          Awaiting.takeSingleScreenshot ticks (tenv i) (heights i) url device dateTimeDir)
       pairs.

Lemma awaiting_allSettled_settles (pairs : list (string * Device)) :
  forall (tenv : nat -> TaskEnv) (heights : nat -> nat -> Z),
  (forall i, (i < length pairs)%nat -> scroll_script_awaited (tenv i) = true ->
     autoScroll ticks (heights i) <> None) ->
  forall w,
  Awaiting.allSettled (tasks tenv heights pairs) w
  = Awaiting.lift
      (allSettled
         (imap (fun i '(url, device) => takeSingleScreenshot (tenv i) url device dateTimeDir)
               pairs)) w.
Proof.
  unfold tasks.
  induction pairs as [|[url device] pairs IH]; intros tenv heights Hstops w;
    [reflexivity|].
  rewrite !imap_cons. cbn [Awaiting.allSettled allSettled].
  rewrite (awaiting_settle_settles ticks (tenv O) (heights O) url device dateTimeDir)
    by (apply Hstops; cbn [length]; lia).
  change (imap ((fun i '(url0, device0) =>
                   Awaiting.takeSingleScreenshot ticks (tenv i) (heights i) url0 device0
                     dateTimeDir) ∘ S) pairs)
    with (imap (fun i '(url0, device0) =>
                  Awaiting.takeSingleScreenshot ticks ((tenv ∘ S) i) ((heights ∘ S) i)
                    url0 device0 dateTimeDir) pairs).
  change (imap ((fun i '(url0, device0) =>
                   takeSingleScreenshot (tenv i) url0 device0 dateTimeDir) ∘ S) pairs)
    with (imap (fun i '(url0, device0) =>
                  takeSingleScreenshot ((tenv ∘ S) i) url0 device0 dateTimeDir) pairs).
  unfold Awaiting.lift, Awaiting.bind, bind, Awaiting.ret, ret.
  destruct (settle (takeSingleScreenshot (tenv O) url device dateTimeDir) w)
    as [w' [result|e|c]]; try reflexivity.
  rewrite (IH (tenv ∘ S) (heights ∘ S))
    by (intros i Hi; apply Hstops; cbn [length]; lia).
  unfold Awaiting.lift.
  destruct (allSettled _ w') as [w'' [results|e|c]]; reflexivity.
Qed.

(** The join makes no call of the orchestrator, whether it resolves or
    not. *)
Lemma awaiting_allSettled_calls (ts : list (Awaiting.P TaskState Outcome.t)) :
  forall w, calls (fst (Awaiting.allSettled ts w)) = calls w.
Proof.
  induction ts as [|task ts IH]; intros w; [reflexivity|].
  cbn [Awaiting.allSettled]. unfold Awaiting.settle.
  destruct (task _) as [s [[value|reason|c]|]]; cbv zeta;
    try reflexivity; unfold Awaiting.bind;
    match goal with
    | |- context [Awaiting.allSettled ts ?W] =>
        specialize (IH W); destruct (Awaiting.allSettled ts W) as [w' [[results|e|c]|]]
    end; exact IH.
Qed.

(** A task that is pending keeps the join pending, whatever the others
    do. *)
Lemma awaiting_allSettled_pending (pairs : list (string * Device)) :
  forall (i : nat) (tenv : nat -> TaskEnv) (heights : nat -> nat -> Z) (w : World),
  (i < length pairs)%nat ->
  scroll_script_awaited (tenv i) = true ->
  autoScroll ticks (heights i) = None ->
  snd (Awaiting.allSettled (tasks tenv heights pairs) w) = Awaiting.Pending.
Proof.
  unfold tasks.
  induction pairs as [|[url device] pairs IH]; intros i tenv heights w Hi Hawaited Hscript;
    [cbn [length] in Hi; lia|].
  rewrite imap_cons. cbn [Awaiting.allSettled].
  change (imap ((fun i '(url0, device0) =>
                   Awaiting.takeSingleScreenshot ticks (tenv i) (heights i) url0 device0
                     dateTimeDir) ∘ S) pairs)
    with (imap (fun i '(url0, device0) =>
                  Awaiting.takeSingleScreenshot ticks ((tenv ∘ S) i) ((heights ∘ S) i)
                    url0 device0 dateTimeDir) pairs).
  destruct (scroll_script_awaited (tenv O)) eqn:Hawaited0;
    [destruct (autoScroll ticks (heights O)) as [n|] eqn:Hscript0|].
  1, 3: rewrite awaiting_settle_settles
          by (intros H; congruence);
        unfold Awaiting.lift; rewrite settle_task; cbv zeta.
  3: unfold Awaiting.settle;
     rewrite (awaiting_task_pending ticks (tenv O) (heights O) url device dateTimeDir
                (files w) Hawaited0 Hscript0); reflexivity.
  all: destruct i as [|i];
    [congruence|];
    unfold Awaiting.bind;
    match goal with
    | |- context [Awaiting.allSettled ?ts ?W] =>
        pose proof (IH i (tenv ∘ S) (heights ∘ S) W
                      ltac:(cbn [length] in Hi; lia) Hawaited Hscript) as Hrest;
        destruct (Awaiting.allSettled ts W) as [w' r]
    end; cbn [snd] in Hrest; subst r; reflexivity.
Qed.

End AwaitingJoin.
Lemma awaiting_script_lifts (ticks : nat) (dirname : string) (urls : list string)
    (devices : list Device) (now : Date) (env : Awaiting.Oracle) :
  (forall i, (i < length urls * length devices)%nat ->
     scroll_script_awaited (task_env (Awaiting.answers env) i) = true ->
     autoScroll ticks (Awaiting.page_height env i) <> None) ->
  forall w,
  Awaiting.script ticks dirname (Parsed (mkConfig (Array urls) (Array devices))) now env w
  = Awaiting.lift
      (script dirname (Parsed (mkConfig (Array urls) (Array devices))) now
         (Awaiting.answers env)) w.
Proof.
  intros Hstops.
  assert (Hjoin : forall w,
    Awaiting.allSettled
      (Awaiting.screenshotTasks ticks env urls devices
         (path_join (outputDir dirname) (currentDateTime now))) w
    = Awaiting.lift
        (allSettled
           (screenshotTasks (Awaiting.answers env) urls devices
              (path_join (outputDir dirname) (currentDateTime now)))) w).
  { intros w. unfold Awaiting.screenshotTasks, screenshotTasks.
    apply (awaiting_allSettled_settles ticks _ (cross_product urls devices)
             (task_env (Awaiting.answers env)) (Awaiting.page_height env)).
    rewrite cross_product_length. exact Hstops. }
  assert (Hlen :
    length (Awaiting.screenshotTasks ticks env urls devices
              (path_join (outputDir dirname) (currentDateTime now)))
    = length (screenshotTasks (Awaiting.answers env) urls devices
                (path_join (outputDir dirname) (currentDateTime now)))).
  { unfold Awaiting.screenshotTasks, screenshotTasks. now rewrite !length_imap. }
  unfold Awaiting.script, script, Awaiting.main, main.
  cbn [urlList deviceSizes items_of]. cbv zeta. rewrite Hlen.
  unfold Awaiting.call, Awaiting.ensure_dir, Awaiting.answer, Awaiting.process_exit.
  repeat first
    [ reflexivity
    | apply Hjoin
    | apply lift_bind
    | apply lift_try_catch
    | apply lift_try_finally
    | match goal with
      | |- (if ?b then _ else _) _ = _ => destruct b
      | |- (let (_, _) := ?p in _) _ = _ => destruct p
      end
    | intro ].
Qed.

Lemma awaiting_run_settles (ticks : nat) (dirname : string) (urls : list string)
    (devices : list Device) (now : Date) (env : Awaiting.Oracle) (files0 : gset string) :
  (forall i, (i < length urls * length devices)%nat ->
     scroll_script_awaited (task_env (Awaiting.answers env) i) = true ->
     autoScroll ticks (Awaiting.page_height env i) <> None) ->
  Awaiting.run ticks dirname (Parsed (mkConfig (Array urls) (Array devices))) now env files0
  = (fst (run dirname (Parsed (mkConfig (Array urls) (Array devices))) now
            (Awaiting.answers env) files0),
     Awaiting.Settled
       (snd (run dirname (Parsed (mkConfig (Array urls) (Array devices))) now
               (Awaiting.answers env) files0))).
Proof.
  intros Hstops. unfold Awaiting.run, run.
  rewrite (awaiting_script_lifts ticks dirname urls devices now env Hstops).
  unfold Awaiting.lift. destruct (script _ _ _ _ _); reflexivity.
Qed.

Lemma awaiting_run_pending (ticks : nat) (dirname : string) (urls : list string)
    (devices : list Device) (now : Date) (env : Awaiting.Oracle) (files0 : gset string)
    (i : nat) :
  urlList_rejected (Array urls) = false ->
  deviceSizes_rejected (Array devices) = false ->
  launch_r (Awaiting.answers env) = Resolves ->
  (i < length urls * length devices)%nat ->
  scroll_script_awaited (task_env (Awaiting.answers env) i) = true ->
  autoScroll ticks (Awaiting.page_height env i) = None ->
  let total := (length urls * length devices)%nat in
  let r := Awaiting.run ticks dirname (Parsed (mkConfig (Array urls) (Array devices)))
             now env files0 in
  snd r = Awaiting.Pending /\
  console_lines (calls (fst r))
  = ["Found " +:+ String_of_nat (length urls) +:+ " URLs and "
       +:+ String_of_nat (length devices) +:+ " device sizes. Starting "
       +:+ String_of_nat total +:+ " screenshot tasks...";
     "Executing " +:+ String_of_nat total +:+ " tasks in parallel..."] /\
  browser_calls (calls (fst r)) = [chromium_launch].
Proof.
  intros Hu Hd Hl Hi Hawaited Hscript total r. subst r.
  unfold Awaiting.run, Awaiting.script, Awaiting.main.
  cbn [urlList deviceSizes items_of]. rewrite Hu, Hd, Hl.
  unfold Awaiting.screenshotTasks.
  rewrite length_imap, cross_product_length. fold total.
  unfold Awaiting.bind, Awaiting.try_catch, Awaiting.try_finally, Awaiting.ensure_dir,
    Awaiting.call, Awaiting.answer, Awaiting.process_exit, Awaiting.lift,
    ensure_dir, call, modify, get, ret, answer, bind, process_exit, throw.
  cbn [files calls task_traces].
  destruct (decide (outputDir dirname ∈ files0));
    cbn beta iota zeta delta [files calls task_traces ret];
  (match goal with
   | |- context [decide ?P] => destruct (decide P)
   end); cbn beta iota zeta delta [files calls task_traces ret];
  (match goal with
   | |- context [Awaiting.allSettled ?ts ?W] =>
       pose proof (awaiting_allSettled_pending ticks
                     (path_join (outputDir dirname) (currentDateTime now))
                     (cross_product urls devices) i
                     (task_env (Awaiting.answers env)) (Awaiting.page_height env) W
                     ltac:(rewrite cross_product_length; exact Hi) Hawaited Hscript)
         as Hpending;
       pose proof (awaiting_allSettled_calls ts W) as Hcalls;
       destruct (Awaiting.allSettled ts W) as [w' r']
   end);
  cbn beta iota zeta delta [files calls task_traces ret fst snd] in *;
  subst r'; cbn beta iota zeta delta [files calls task_traces ret fst snd];
  rewrite Hcalls; repeat split; reflexivity.
Qed.

(** C2, as amended: in a run on valid non-empty lists of [U] urls and [D]
    devices whose browser starts, [U * D] tasks are dispatched, one for each
    pair of a url and a device of the config, and, provided the scroll
    script stops on the page of every task that awaits it, every task
    settles, the join resolves to [U * D] results, the one at position
    [u * D + d] being the settled completion of the task of url [u] and
    device [d], the run ends, and the two counts of the summary it prints add
    up to [U * D], whatever the calls of the tasks answer. *)
Theorem settling_tasks_are_collected (ticks : nat) (dirname : string)
    (urls : list string) (devices : list Device) (now : Date) (env : Awaiting.Oracle)
    (files0 : gset string) :
  urls <> [] -> devices <> [] -> forallb device_complete devices = true ->
  launch_r (Awaiting.answers env) = Resolves ->
  (forall i, (i < length urls * length devices)%nat ->
     scroll_script_awaited (task_env (Awaiting.answers env) i) = true ->
     autoScroll ticks (Awaiting.page_height env i) <> None) ->
  let total := (length urls * length devices)%nat in
  let dateTimeDir := path_join (outputDir dirname) (currentDateTime now) in
  let tenv := task_env (Awaiting.answers env) in
  let results := expected_results tenv (cross_product urls devices) in
  let r := Awaiting.run ticks dirname (Parsed (mkConfig (Array urls) (Array devices)))
             now env files0 in
  length (Awaiting.screenshotTasks ticks env urls devices dateTimeDir) = total /\
  (forall w,
     snd (Awaiting.allSettled
            (Awaiting.screenshotTasks ticks env urls devices dateTimeDir) w)
     = Awaiting.Settled (Normal results)) /\
  length results = total /\
  (forall u d url device, urls !! u = Some url -> devices !! d = Some device ->
     let i := (u * length devices + d)%nat in
     (forall files,
        snd (Awaiting.takeSingleScreenshot ticks (tenv i) (Awaiting.page_height env i)
               url device dateTimeDir (mkTaskState files [] None))
        = Awaiting.Settled (snd (run_task (tenv i) url device dateTimeDir files))) /\
     task_traces (fst r) !! i
     = Some (trace (fst (run_task (tenv i) url device dateTimeDir ∅))) /\
     results !! i = settled_of (snd (run_task (tenv i) url device dateTimeDir ∅))) /\
  snd r = Awaiting.Settled
            match browser_close_r (Awaiting.answers env) with
            | Resolves => Normal tt
            | Rejects _ => ProcessExit 1
            end /\
  length (task_traces (fst r)) = total /\
  (fst (tally results) + snd (tally results))%nat = total /\
  console_lines (calls (fst r))
  = (["Found " +:+ String_of_nat (length urls) +:+ " URLs and "
        +:+ String_of_nat (length devices) +:+ " device sizes. Starting "
        +:+ String_of_nat total +:+ " screenshot tasks...";
      "Executing " +:+ String_of_nat total +:+ " tasks in parallel..."]
     ++ summary_lines total (fst (tally results)) (snd (tally results))
     ++ match browser_close_r (Awaiting.answers env) with
        | Resolves => ["Browser closed."]
        | Rejects _ => []
        end)%list.
Proof.
  intros Hu Hd Hall Hlaunch Hstops total dateTimeDir tenv results r.
  destruct (valid_lists_accepted urls devices Hu Hd Hall) as [Hurls Hdevices].
  destruct (run_valid dirname urls devices now (Awaiting.answers env) files0
              Hurls Hdevices Hlaunch) as (Hlines & _ & Htraces & Hend).
  destruct (run_tasks dirname urls devices now (Awaiting.answers env) files0
              Hurls Hdevices Hlaunch) as (Htasks & _).
  assert (Hr : r = (fst (run dirname (Parsed (mkConfig (Array urls) (Array devices))) now
                           (Awaiting.answers env) files0),
                    Awaiting.Settled
                      (snd (run dirname (Parsed (mkConfig (Array urls) (Array devices)))
                              now (Awaiting.answers env) files0))))
    by exact (awaiting_run_settles ticks dirname urls devices now env files0 Hstops).
  assert (Hlen : length results = total).
  { unfold results, expected_results. rewrite length_imap. apply cross_product_length. }
  split.
  { unfold Awaiting.screenshotTasks. rewrite length_imap. apply cross_product_length. }
  split.
  { intros w. unfold Awaiting.screenshotTasks.
    rewrite (awaiting_allSettled_settles ticks dateTimeDir (cross_product urls devices)
               tenv (Awaiting.page_height env))
      by (rewrite cross_product_length; exact Hstops).
    unfold Awaiting.lift. rewrite allSettled_world. reflexivity. }
  split; [exact Hlen|].
  split.
  { intros u d url device Hurl Hdevice i.
    pose proof (cross_product_lookup urls devices u d url device Hurl Hdevice) as Hpair.
    fold i in Hpair.
    assert (Hi : (i < total)%nat).
    { unfold total. rewrite <- cross_product_length. eapply lookup_lt_Some. exact Hpair. }
    split; [|split].
    - intros files.
      rewrite (awaiting_task_settles ticks (tenv i) (Awaiting.page_height env i) url device
                 dateTimeDir files (Hstops i Hi)).
      unfold Awaiting.lift, run_task.
      destruct (takeSingleScreenshot _ _ _ _ _); reflexivity.
    - rewrite Hr. cbn [fst]. rewrite Htasks. now apply traces_of_lookup.
    - now apply expected_results_lookup. }
  rewrite Hr. cbn [fst snd]. rewrite Hend.
  split; [reflexivity|]. split; [exact Htraces|].
  split; [rewrite tally_total; exact Hlen | exact Hlines].
Qed.

Lemma settling_tasks_are_collected_witness :
  let urls := ["https://a.test"; "https://b.test"] in
  let devices := [desktop_device; phone_device] in
  let env :=
    Awaiting.mkOracle
      (mkEnv Resolves (fun i => match i with O => goto_fails | _ => all_ok end) Resolves)
      (fun i => match i with O => growing_page | _ => fixed_page end) in
  let results := expected_results (task_env (Awaiting.answers env))
                   (cross_product urls devices) in
  let r := Awaiting.run 10 "/app" (Parsed (mkConfig (Array urls) (Array devices)))
             sample_date env ∅ in
  snd r = Awaiting.Settled (Normal tt) /\
  length (task_traces (fst r)) = 4%nat /\
  (fst (tally results) + snd (tally results))%nat = 4%nat.
Proof.
  destruct (settling_tasks_are_collected 10 "/app" ["https://a.test"; "https://b.test"]
              [desktop_device; phone_device] sample_date
              (Awaiting.mkOracle
                 (mkEnv Resolves (fun i => match i with O => goto_fails | _ => all_ok end)
                    Resolves)
                 (fun i => match i with O => growing_page | _ => fixed_page end)) ∅)
    as (_ & _ & _ & _ & Hend & Htraces & Hsum & _).
  - discriminate.
  - discriminate.
  - reflexivity.
  - reflexivity.
  - intros [|i] _ Hawaited; [discriminate Hawaited | vm_compute; discriminate].
  - split; [exact Hend | split; [exact Htraces | exact Hsum]].
Defined.

(** C2 as it stands fails: the scroll script of a task has no bound, so on
    a page that grows as it is scrolled the task never reaches an outcome;
    the join then never resolves, although the other task of the run has
    settled: no result is collected, no count is printed and the browser is
    not closed, however long the run is followed. *)
Lemma growing_page_is_never_collected :
  let file := Parsed (mkConfig (Array ["https://a.test"])
                        (Array [desktop_device; phone_device])) in
  let env :=
    Awaiting.mkOracle (uniform_env all_ok)
      (fun i => match i with O => growing_page | _ => fixed_page end) in
  (forall ticks,
     snd (Awaiting.takeSingleScreenshot ticks all_ok growing_page "https://a.test"
            desktop_device "/app/_emp-screenshots/2024-01-05_0930"
            (mkTaskState ∅ [] None))
     = Awaiting.Pending) /\
  (forall ticks, snd (Awaiting.run ticks "/app" file sample_date env ∅) = Awaiting.Pending) /\
  (forall ticks,
     console_lines (calls (fst (Awaiting.run ticks "/app" file sample_date env ∅)))
     = ["Found 1 URLs and 2 device sizes. Starting 2 screenshot tasks...";
        "Executing 2 tasks in parallel..."]) /\
  (forall ticks,
     browser_calls (calls (fst (Awaiting.run ticks "/app" file sample_date env ∅)))
     = [chromium_launch]).
Proof.
  cbv zeta.
  assert (Hgrows : forall ticks, autoScroll ticks growing_page = None).
  { intros ticks. unfold autoScroll. change 0 with (300 * Z.of_nat O).
    generalize O as tick. induction ticks as [|ticks IH]; intros tick; [reflexivity|].
    cbn [autoScroll_from]. cbv zeta.
    replace (300 * Z.of_nat tick + 300) with (300 * Z.of_nat (S tick)) by lia.
    destruct (Z.geb_spec (300 * Z.of_nat (S tick)) (growing_page tick)) as [Hstop|_];
      [unfold growing_page in Hstop; lia | apply IH]. }
  split.
  { intros ticks.
    now rewrite (awaiting_task_pending ticks all_ok growing_page _ _ _ ∅ eq_refl
                   (Hgrows ticks)). }
  assert (Hrun : forall ticks,
    let r := Awaiting.run ticks "/app"
               (Parsed (mkConfig (Array ["https://a.test"])
                          (Array [desktop_device; phone_device])))
               sample_date
               (Awaiting.mkOracle (uniform_env all_ok)
                  (fun i => match i with O => growing_page | _ => fixed_page end)) ∅ in
    snd r = Awaiting.Pending /\
    console_lines (calls (fst r))
    = ["Found 1 URLs and 2 device sizes. Starting 2 screenshot tasks...";
       "Executing 2 tasks in parallel..."] /\
    browser_calls (calls (fst r)) = [chromium_launch]).
  { intros ticks.
    exact (awaiting_run_pending ticks "/app" ["https://a.test"]
             [desktop_device; phone_device] sample_date
             (Awaiting.mkOracle (uniform_env all_ok)
                (fun i => match i with O => growing_page | _ => fixed_page end)) ∅ O
             eq_refl eq_refl eq_refl ltac:(cbn; lia) eq_refl (Hgrows ticks)). }
  split; [|split]; intros ticks; apply (Hrun ticks).
Qed.

(** * Further properties of the code *)

(** ** The file name (main.js, lines 48-50) *)

Lemma map_slug_charset (s : string) :
  string_forall (fun c => is_alphanumeric c || Ascii.eqb c "_")
    (map_chars (fun c => if is_alphanumeric c then c else "_"%char) s) = true.
Proof.
  induction s as [|c s IH]; [reflexivity|].
  cbn [map_chars string_forall]. rewrite IH, andb_true_r.
  destruct (is_alphanumeric c) eqn:Hc; [now rewrite Hc | apply orb_true_r].
Qed.

Lemma urlFilename_chars (url : string) :
  string_forall (fun c => is_alphanumeric c || Ascii.eqb c "_") (urlFilename url) = true.
Proof.
  unfold urlFilename. rewrite replace_scheme, replace_all_not_alnum.
  apply map_slug_charset.
Qed.

(** X1: whatever the URL, its file-name part holds letters, digits and
    underscores only (no separator, no dot), and it is as long as the URL
    without its scheme. *)
Theorem urlFilename_charset (url : string) :
  string_forall (fun c => is_alphanumeric c || Ascii.eqb c "_") (urlFilename url) = true /\
  String.length (urlFilename url) = String.length (strip_scheme url).
Proof.
  split; [apply urlFilename_chars|].
  unfold urlFilename. rewrite replace_scheme, replace_all_not_alnum.
  induction (strip_scheme url) as [|c s IH]; [reflexivity|].
  cbn [map_chars String.length]. now rewrite IH.
Qed.

Lemma strip_prefix_self (p s : string) : strip_prefix p (p +:+ s) = Some s.
Proof.
  induction p as [|a p IH]; [reflexivity|].
  rewrite string_app_cons. cbn [strip_prefix]. now rewrite Ascii.eqb_refl.
Qed.

(** X2: the scheme does not take part in the file name: the [http] and the
    [https] address of the same page get the same file name, which is that
    of the address without scheme (one leading scheme is removed, not
    more). *)
Theorem urlFilename_forgets_scheme (rest : string) :
  urlFilename ("https://" +:+ rest)
  = replace_all re_not_alnum "_" rest /\
  urlFilename ("http://" +:+ rest) = urlFilename ("https://" +:+ rest).
Proof.
  unfold urlFilename. rewrite !replace_scheme.
  assert (Hs : strip_scheme ("https://" +:+ rest) = rest).
  { unfold strip_scheme. now rewrite strip_prefix_self. }
  assert (Hp : strip_scheme ("http://" +:+ rest) = rest).
  { unfold strip_scheme.
    destruct (strip_prefix "https://" ("http://" +:+ rest)) eqn:H; [discriminate H|].
    now rewrite strip_prefix_self. }
  rewrite Hs, Hp. split; reflexivity.
Qed.

Lemma strip_prefix_forall (P : ascii -> bool) (p s rest : string) :
  strip_prefix p s = Some rest -> string_forall P s = true -> string_forall P p = true.
Proof.
  revert s. induction p as [|a p IH]; intros s Hp Hs; [reflexivity|].
  destruct s as [|c s]; [discriminate Hp|]. cbn [strip_prefix] in Hp.
  destruct (Ascii.eqb_spec c a) as [->|]; [|discriminate Hp].
  cbn [string_forall] in *. apply andb_true_iff in Hs as [Ha Hs].
  rewrite Ha. exact (IH _ Hp Hs).
Qed.

Lemma strip_scheme_without_colon (s : string) :
  string_forall (fun c => is_alphanumeric c || Ascii.eqb c "_") s = true ->
  strip_scheme s = s.
Proof.
  intros H. unfold strip_scheme.
  destruct (strip_prefix "https://" s) as [rest|] eqn:Hs.
  - pose proof (strip_prefix_forall _ _ _ _ Hs H) as Hbad. discriminate Hbad.
  - destruct (strip_prefix "http://" s) as [rest|] eqn:Hp; [|reflexivity].
    pose proof (strip_prefix_forall _ _ _ _ Hp H) as Hbad. discriminate Hbad.
Qed.

Lemma map_slug_fixed (s : string) :
  string_forall (fun c => is_alphanumeric c || Ascii.eqb c "_") s = true ->
  map_chars (fun c => if is_alphanumeric c then c else "_"%char) s = s.
Proof.
  induction s as [|c s IH]; [reflexivity|]. cbn [string_forall map_chars].
  intros H. apply andb_true_iff in H as [Hc Hs]. rewrite (IH Hs).
  destruct (is_alphanumeric c); [reflexivity|].
  cbn [orb] in Hc. apply Ascii.eqb_eq in Hc. now subst c.
Qed.

(** X3: deriving the file name is idempotent: a file name derived from a
    URL is its own file name. *)
Theorem urlFilename_idempotent (url : string) :
  urlFilename (urlFilename url) = urlFilename url.
Proof.
  pose proof (urlFilename_chars url) as H.
  unfold urlFilename at 1.
  rewrite replace_scheme, replace_all_not_alnum.
  rewrite (strip_scheme_without_colon _ H). now apply map_slug_fixed.
Qed.

(** ** The user agent (main.js, lines 25-36 and 47) *)

(** X4: the user agent given to the browsing context is never missing nor
    empty: it is truthy for every device, and it is the device's own
    [userAgent] or one of the three default strings. *)
Theorem userAgentToUse_truthy (device : Device) :
  truthy (userAgentToUse device) = true /\
  (userAgentToUse device = userAgent device \/
   userAgentToUse device = JsString USER_AGENTS.mobile \/
   userAgentToUse device = JsString USER_AGENTS.tablet \/
   userAgentToUse device = JsString USER_AGENTS.desktop).
Proof.
  unfold userAgentToUse, js_or.
  destruct (truthy (userAgent device)) eqn:Hua; [split; [exact Hua | now left]|].
  split; [apply getDefaultUserAgent_nonempty|]. right.
  unfold getDefaultUserAgent.
  destruct (js_le (width device) 600); [now left|].
  destruct (js_le (width device) 1024); [right; now left | right; now right].
Qed.

(** X5: the desktop string is the default exactly for the widths above 1024
    and for a missing width ([undefined <= 600] and [undefined <= 1024] are
    both false). *)
Theorem default_is_desktop_iff (w : option Z) :
  getDefaultUserAgent w = USER_AGENTS.desktop <->
  w = None \/ exists z, w = Some z /\ 1024 < z.
Proof.
  unfold getDefaultUserAgent, js_le. destruct w as [z|].
  - destruct (Z.leb_spec z 600); [|destruct (Z.leb_spec z 1024)]; split.
    + discriminate.
    + intros [H1 | (z' & H1 & H2)]; [discriminate H1 | injection H1 as <-; lia].
    + discriminate.
    + intros [H1 | (z' & H1 & H2)]; [discriminate H1 | injection H1 as <-; lia].
    + intros _. right. exists z. split; [reflexivity | lia].
    + reflexivity.
  - split; [now left | reflexivity].
Qed.

(** ** The diagnostic of a failed task (main.js, lines 138-145) *)

Lemma first_line_no_newline (s : string) :
  string_forall (fun c => negb (Ascii.eqb c newline)) (first_line s) = true.
Proof.
  induction s as [|c s IH]; [reflexivity|]. cbn [first_line].
  destruct (Ascii.eqb c newline) eqn:Hc; [reflexivity|].
  cbn [string_forall]. now rewrite Hc, IH.
Qed.

Lemma run_task_no_error_detail (env : TaskEnv) (url : string) (device : Device)
    (dateTimeDir : string) (files : gset string) :
  thrown_in_try env = None ->
  error_details (trace (fst (run_task env url device dateTimeDir files))) = [].
Proof.
  intros H.
  oracle_prune env ltac:(cbn in H; first [discriminate H | reflexivity]).
Qed.

(** X6: a task prints with [console.error] once when its guarded block
    throws and never otherwise, and what it prints of the error holds no
    line break. *)
Theorem task_error_log_single_line (env : TaskEnv) (url : string) (device : Device)
    (dateTimeDir : string) (files : gset string) :
  let details := error_details (trace (fst (run_task env url device dateTimeDir files))) in
  length details = match thrown_in_try env with Some _ => 1 | None => 0 end%nat /\
  Forall (fun d => string_forall (fun c => negb (Ascii.eqb c newline)) d = true) details.
Proof.
  cbv zeta. destruct (thrown_in_try env) as [e|] eqn:Hthrown.
  - rewrite (run_task_error_details _ _ _ _ _ _ Hthrown). split; [reflexivity|].
    constructor; [apply first_line_no_newline | constructor].
  - rewrite (run_task_no_error_detail _ _ _ _ _ Hthrown). split; [reflexivity | constructor].
Qed.

(** ** The scroll script (main.js, lines 93-107) *)

Lemma autoScroll_from_stops (scrollHeight : nat -> Z) (n : nat) :
  forall (fuel tick : nat),
  autoScroll_from fuel 300 scrollHeight tick (300 * Z.of_nat tick) = Some (S n) <->
  (tick <= n < tick + fuel)%nat /\
  (forall j, (tick <= j < n)%nat -> 300 * (Z.of_nat j + 1) < scrollHeight j) /\
  scrollHeight n <= 300 * (Z.of_nat n + 1).
Proof.
  induction fuel as [|fuel IH]; intros tick.
  - cbn [autoScroll_from]. split; [discriminate | intros [H _]; lia].
  - cbn [autoScroll_from]. cbv zeta.
    replace (300 * Z.of_nat tick + 300) with (300 * Z.of_nat (S tick)) by lia.
    destruct (Z.geb_spec (300 * Z.of_nat (S tick)) (scrollHeight tick)) as [Hstop|Hgo].
    + split.
      * intros H. injection H as <-.
        split; [lia | split; [intros j Hj; lia | lia]].
      * intros (Hn & Hbefore & _). f_equal. f_equal.
        destruct (Nat.eq_dec tick n) as [|Hne]; [assumption|].
        specialize (Hbefore tick ltac:(lia)). lia.
    + rewrite IH. split.
      * intros (Hn & Hbefore & Hlast).
        split; [lia | split; [|exact Hlast]].
        intros j Hj. destruct (Nat.eq_dec j tick) as [->|]; [lia | apply Hbefore; lia].
      * intros (Hn & Hbefore & Hlast).
        assert (tick <> n) by (intros ->; lia).
        split; [lia | split; [|exact Hlast]].
        intros j Hj. apply Hbefore. lia.
Qed.

(** X7: the scroll script stops after tick [n] (counted from 0) exactly when
    [n] is the first tick at which the distance scrolled, [300 * (n + 1)],
    has reached the height of the document read at that tick; the height
    is read anew at every tick, so a page that grows while it is scrolled
    is followed down. *)
Theorem autoScroll_stops_iff (scrollHeight : nat -> Z) (fuel n : nat) :
  autoScroll fuel scrollHeight = Some (S n) <->
  (n < fuel)%nat /\
  (forall j, (j < n)%nat -> 300 * (Z.of_nat j + 1) < scrollHeight j) /\
  scrollHeight n <= 300 * (Z.of_nat n + 1).
Proof.
  unfold autoScroll. change 0 with (300 * Z.of_nat O).
  rewrite autoScroll_from_stops. split.
  - intros (Hn & Hbefore & Hlast).
    split; [lia | split; [|exact Hlast]]. intros j Hj. apply Hbefore. lia.
  - intros (Hn & Hbefore & Hlast).
    split; [lia | split; [|exact Hlast]]. intros j Hj. apply Hbefore. lia.
Qed.

(** X8: on a page of fixed height [h] the script scrolls once for a page of
    at most 300 pixels (an empty page included) and [ceil (h / 300)] times
    otherwise, given that many ticks. *)
Theorem autoScroll_fixed_height (h : Z) (fuel : nat) :
  0 <= h ->
  (Z.to_nat (Z.max 1 ((h + 299) / 300)) <= fuel)%nat ->
  autoScroll fuel (fun _ => h) = Some (Z.to_nat (Z.max 1 ((h + 299) / 300))).
Proof.
  intros Hh Hfuel.
  set (n := Z.to_nat (Z.max 1 ((h + 299) / 300))) in *.
  assert (Hdiv : 300 * ((h + 299) / 300) <= h + 299 < 300 * ((h + 299) / 300) + 300).
  { pose proof (Z.div_mod (h + 299) 300 ltac:(lia)) as Hdm.
    pose proof (Z.mod_pos_bound (h + 299) 300 ltac:(lia)). lia. }
  assert (Hn : (1 <= n)%nat) by (unfold n; lia).
  destruct n as [|m] eqn:En; [lia|].
  apply autoScroll_stops_iff.
  split; [lia | split; [intros j Hj|]]; lia.
Qed.

Lemma autoScroll_fixed_height_witness :
  autoScroll 10 (fun _ => 1000) = Some 4%nat.
Proof.
  apply (autoScroll_fixed_height 1000 10); [lia | vm_compute; lia].
Defined.

(** X9: the script has no bound of its own: on a page whose height stays
    ahead of the distance scrolled at every tick (content loaded without
    end) it never resolves, however many ticks it is given. *)
Theorem autoScroll_never_stops (scrollHeight : nat -> Z) :
  (forall j, 300 * (Z.of_nat j + 1) < scrollHeight j) ->
  forall fuel, autoScroll fuel scrollHeight = None.
Proof.
  intros Hahead fuel.
  destruct (autoScroll fuel scrollHeight) as [[|n]|] eqn:H; [| |reflexivity].
  - exfalso. unfold autoScroll in H. destruct fuel; cbn in H; [discriminate H|].
    destruct (_ >=? _); [discriminate H|].
    clear -H. revert H. generalize 1%nat at 1 as tick. generalize (0 + 300) as total.
    induction fuel as [|fuel IH]; intros total tick H; cbn in H; [discriminate H|].
    destruct (_ >=? _); [discriminate H | exact (IH _ _ H)].
  - apply autoScroll_stops_iff in H as (_ & _ & Hlast).
    specialize (Hahead n). lia.
Qed.

Lemma autoScroll_never_stops_witness :
  autoScroll 50 (fun j => 300 * (Z.of_nat j + 1) + 1) = None.
Proof.
  apply (autoScroll_never_stops (fun j => 300 * (Z.of_nat j + 1) + 1)).
  intros j. lia.
Defined.

(** ** The resources of a task (main.js, lines 59-73 and 117-151) *)

(** X10: every task asks for exactly one browsing context, with the width
    and height of the device as viewport and the resolved user agent; when
    the context is obtained it is closed exactly once, as the last call of
    the task, whether the capture succeeded or threw; when it is not
    obtained nothing is closed. *)
Theorem context_closed_once_iff_created (env : TaskEnv) (url : string)
    (device : Device) (dateTimeDir : string) (files : gset string) :
  let t := trace (fst (run_task env url device dateTimeDir files)) in
  context_options t
  = [mkContextOptions (width device) (height device) (userAgentToUse device)] /\
  count_calls is_context_close t
  = match newContext_r env with Resolves => 1 | Rejects _ => 0 end%nat /\
  (newContext_r env = Resolves -> last t = Some context_close).
Proof.
  cbv zeta.
  oracle_prune env ltac:(
    split; [reflexivity | split; [reflexivity|]];
    intros H; first [discriminate H | reflexivity]).
Qed.

Lemma context_closed_once_iff_created_witness :
  last (trace (fst (run_task goto_fails "https://a.test" desktop_device "/out" ∅)))
  = Some context_close.
Proof.
  apply (context_closed_once_iff_created goto_fails "https://a.test" desktop_device
           "/out" ∅).
  reflexivity.
Defined.

(** X11: the intermediate [.png] is removed on the success path only.  Once
    the screenshot is on the disk, a re-encoding that throws leaves the
    [.png] behind (and no [.webp]); a removal that throws leaves both
    files.  In both cases [fs.unlink] is not retried. *)
Theorem intermediate_png_left_behind (env : TaskEnv) (url : string) (device : Device)
    (dateTimeDir : string) (files : gset string) :
  screenshot_taken env = true ->
  let final := fst (run_task env url device dateTimeDir files) in
  let png := path_join dateTimeDir (png_name url device) in
  let webp := replace_first re_png true ".webp" png in
  (forall e, sharp_r env = Rejects e ->
     fs final = files ∪ {[ png ]} /\
     file_calls (trace final) = [page_screenshot png true "png" 60000;
                                 sharp_webp_toFile png 70 webp]) /\
  (forall e, sharp_r env = Resolves -> unlink_r env = Rejects e ->
     fs final = files ∪ {[ png ]} ∪ {[ webp ]} /\
     file_calls (trace final) = [page_screenshot png true "png" 60000;
                                 sharp_webp_toFile png 70 webp; fs_unlink png]).
Proof.
  intros Htaken. cbv zeta. split.
  - intros e He.
    oracle_prune env ltac:(
      cbn in Htaken;
      first [discriminate Htaken | discriminate He | split; reflexivity]).
  - intros e Hs He.
    oracle_prune env ltac:(
      cbn in Htaken;
      first [discriminate Htaken | discriminate Hs | discriminate He
            | split; reflexivity]).
Qed.

Lemma intermediate_png_left_behind_witness :
  let env := mkTaskEnv Resolves Resolves Resolves Resolves Resolves Resolves Resolves
               Resolves Resolves (Rejects (mkError "Input file is missing" "")) Resolves
               Resolves in
  fs (fst (run_task env "https://a.test" desktop_device "/out" ∅))
  = ∅ ∪ {[ path_join "/out" (png_name "https://a.test" desktop_device) ]}.
Proof.
  cbv zeta.
  apply (proj1 (intermediate_png_left_behind
    (mkTaskEnv Resolves Resolves Resolves Resolves Resolves Resolves Resolves
       Resolves Resolves (Rejects (mkError "Input file is missing" "")) Resolves
       Resolves)
    "https://a.test" desktop_device "/out" ∅ eq_refl)
    (mkError "Input file is missing" "") eq_refl).
Defined.

(** X12: a task that throws before its screenshot is on the disk leaves the
    files as they were: of the three file calls it has made none, or the
    screenshot alone, which threw. *)
Theorem early_failure_leaves_files (env : TaskEnv) (url : string) (device : Device)
    (dateTimeDir : string) (files : gset string) :
  screenshot_taken env = false ->
  let final := fst (run_task env url device dateTimeDir files) in
  fs final = files /\
  (file_calls (trace final) = [] \/
   file_calls (trace final)
   = [page_screenshot (path_join dateTimeDir (png_name url device)) true "png" 60000]).
Proof.
  intros H. cbv zeta.
  oracle_prune env ltac:(
    cbn in H;
    first [ discriminate H
          | split; [reflexivity | first [left; reflexivity | right; reflexivity]] ]).
Qed.

Lemma early_failure_leaves_files_witness :
  fs (fst (run_task goto_fails "https://a.test" desktop_device "/out" ∅)) = ∅.
Proof.
  apply (proj1 (early_failure_leaves_files goto_fails "https://a.test" desktop_device
                  "/out" ∅ eq_refl)).
Defined.

(** ** The run as a whole (main.js, lines 39-42, 156-274) *)

Lemma path_join_other (dir file : string) : path_join dir file <> dir.
Proof.
  unfold path_join. intros H. apply (f_equal String.length) in H.
  rewrite !string_app_length in H. cbn [String.length] in H. lia.
Qed.

(** Every call of the orchestrator, in a run on valid lists whose browser
    starts. *)
Lemma run_calls (dirname : string) (urls : list string) (devices : list Device)
    (now : Date) (env : Env) (files0 : gset string) :
  urlList_rejected (Array urls) = false ->
  deviceSizes_rejected (Array devices) = false ->
  launch_r env = Resolves ->
  let total := (length urls * length devices)%nat in
  let results := expected_results (task_env env) (cross_product urls devices) in
  let out := outputDir dirname in
  let dateTimeDir := path_join out (currentDateTime now) in
  calls (fst (run dirname (Parsed (mkConfig (Array urls) (Array devices))) now env files0))
  = ([fs_existsSync out]
     ++ (if decide (out ∈ files0) then [] else [fs_mkdirSync out])
     ++ [fs_readFile (path_join dirname "config.json");
         console_log ("Found " +:+ String_of_nat (length urls) +:+ " URLs and "
                        +:+ String_of_nat (length devices) +:+ " device sizes. Starting "
                        +:+ String_of_nat total +:+ " screenshot tasks...");
         fs_existsSync dateTimeDir]
     ++ (if decide (dateTimeDir ∈ files0) then [] else [fs_mkdirSync dateTimeDir])
     ++ [chromium_launch;
         console_log ("Executing " +:+ String_of_nat total +:+ " tasks in parallel...")]
     ++ map console_log (summary_lines total (fst (tally results)) (snd (tally results)))
     ++ [browser_close]
     ++ match browser_close_r env with
        | Resolves => [console_log "Browser closed."]
        | Rejects e =>
            [console_error "Unhandled error executing main function:" (message e)]
        end)%list.
Proof.
  intros Hu Hd Hl total results out dateTimeDir.
  pose proof (path_join_other out (currentDateTime now)) as Hne. fold dateTimeDir in Hne.
  unfold run, script, main. cbn [urlList deviceSizes items_of]. rewrite Hu, Hd, Hl.
  unfold screenshotTasks.
  rewrite length_imap, cross_product_length. fold total out dateTimeDir.
  unfold bind, try_catch, try_finally, ensure_dir, call, modify, get, ret, answer,
    bind, process_exit, throw.
  cbn [files calls task_traces].
  destruct (decide (out ∈ files0)) as [Hout|Hout];
    cbn beta iota zeta delta [files calls task_traces ret];
  (match goal with
   | |- context [decide (dateTimeDir ∈ ?F)] =>
       destruct (decide (dateTimeDir ∈ F)) as [Hdir|Hdir]
   end);
  destruct (decide (dateTimeDir ∈ files0)) as [Hdir0|Hdir0];
  try (exfalso; revert Hdir Hdir0; clear - Hne;
       rewrite ?elem_of_union, ?elem_of_singleton; tauto);
  cbn beta iota zeta delta [files calls task_traces ret];
  (match goal with
   | |- context [allSettled ?ts ?W] =>
       destruct (allSettled_tasks dateTimeDir (cross_product urls devices)
                   (task_env env) W) as (w' & Heq & Hcalls & Hlen);
       rewrite Heq
   end); fold results;
  destruct (tally results) as [successCount failureCount];
  destruct (browser_close_r env);
  cbn beta iota zeta delta [files calls task_traces ret fst snd] in *;
  rewrite Hcalls;
  cbn [app summary_lines map List.map];
  reflexivity.
Qed.

Lemma directories_made_app (t u : list Call) :
  directories_made (t ++ u) = (directories_made t ++ directories_made u)%list.
Proof.
  induction t as [|c t IH]; [reflexivity|].
  destruct c; cbn [app directories_made]; rewrite IH; reflexivity.
Qed.

Lemma error_details_app (t u : list Call) :
  error_details (t ++ u) = (error_details t ++ error_details u)%list.
Proof.
  induction t as [|c t IH]; [reflexivity|].
  destruct c; cbn [app error_details]; rewrite IH; reflexivity.
Qed.

(** X13: a run on valid lists makes the root output directory and the
    directory of the minute, in this order, each only when it does not exist
    yet, and no other directory: a second run within the same minute makes
    none. *)
Theorem run_directories (dirname : string) (urls : list string) (devices : list Device)
    (now : Date) (env : Env) (files0 : gset string) :
  urls <> [] -> devices <> [] -> forallb device_complete devices = true ->
  launch_r env = Resolves ->
  let out := outputDir dirname in
  let dateTimeDir := path_join out (currentDateTime now) in
  directories_made
    (calls (fst (run dirname (Parsed (mkConfig (Array urls) (Array devices))) now env files0)))
  = ((if decide (out ∈ files0) then [] else [out])
     ++ (if decide (dateTimeDir ∈ files0) then [] else [dateTimeDir]))%list.
Proof.
  intros Hu Hd Hall Hlaunch out dateTimeDir.
  destruct (valid_lists_accepted urls devices Hu Hd Hall) as [Hurls Hdevices].
  rewrite (run_calls dirname urls devices now env files0 Hurls Hdevices Hlaunch).
  cbv zeta. fold out dateTimeDir. rewrite !directories_made_app.
  destruct (decide (out ∈ files0)), (decide (dateTimeDir ∈ files0)),
    (browser_close_r env); reflexivity.
Qed.

Lemma run_directories_witness :
  directories_made
    (calls (fst (run "/app" sample_config sample_date (uniform_env all_ok)
                   {[ "/app/_emp-screenshots";
                      "/app/_emp-screenshots/2024-01-05_0930" ]})))
  = [].
Proof.
  rewrite (run_directories "/app" ["https://a.test"] [desktop_device] sample_date
             (uniform_env all_ok)
             {[ "/app/_emp-screenshots"; "/app/_emp-screenshots/2024-01-05_0930" ]});
    [reflexivity | discriminate | discriminate | reflexivity | reflexivity].
Defined.

(** X14: when [browser.close()] throws at the end of a run on valid lists,
    the tasks have all settled and the summary is printed in full, but the
    exception leaves [main], is printed as unhandled, and the process ends
    with code 1. *)
Theorem browser_close_failure_exits_1 (dirname : string) (urls : list string)
    (devices : list Device) (now : Date) (env : Env) (files0 : gset string) (e : Error) :
  urls <> [] -> devices <> [] -> forallb device_complete devices = true ->
  launch_r env = Resolves ->
  browser_close_r env = Rejects e ->
  let total := (length urls * length devices)%nat in
  let results := expected_results (task_env env) (cross_product urls devices) in
  let r := run dirname (Parsed (mkConfig (Array urls) (Array devices))) now env files0 in
  exit_code (snd r) = 1 /\
  length (task_traces (fst r)) = total /\
  console_lines (calls (fst r))
  = (["Found " +:+ String_of_nat (length urls) +:+ " URLs and "
        +:+ String_of_nat (length devices) +:+ " device sizes. Starting "
        +:+ String_of_nat total +:+ " screenshot tasks...";
      "Executing " +:+ String_of_nat total +:+ " tasks in parallel..."]
     ++ summary_lines total (fst (tally results)) (snd (tally results)))%list /\
  error_details (calls (fst r)) = [message e].
Proof.
  intros Hu Hd Hall Hlaunch Hclose total results r. subst r.
  destruct (valid_lists_accepted urls devices Hu Hd Hall) as [Hurls Hdevices].
  destruct (run_valid dirname urls devices now env files0 Hurls Hdevices Hlaunch)
    as (Hlines & _ & Htraces & Hexit).
  rewrite Hclose in Hlines, Hexit. rewrite Hexit.
  split; [reflexivity|]. split; [exact Htraces|].
  split; [rewrite Hlines; fold total; fold results;
          now rewrite !app_nil_r|].
  rewrite (run_calls dirname urls devices now env files0 Hurls Hdevices Hlaunch).
  cbv zeta. rewrite Hclose, !error_details_app.
  destruct (decide (outputDir dirname ∈ files0)),
    (decide (path_join (outputDir dirname) (currentDateTime now) ∈ files0)); reflexivity.
Qed.

Lemma browser_close_failure_exits_1_witness :
  exit_code
    (snd (run "/app" sample_config sample_date
            (mkEnv Resolves (fun _ => all_ok) (Rejects (mkError "Target closed" ""))) ∅))
  = 1.
Proof.
  apply (browser_close_failure_exits_1 "/app" ["https://a.test"] [desktop_device]
           sample_date
           (mkEnv Resolves (fun _ => all_ok) (Rejects (mkError "Target closed" ""))) ∅
           (mkError "Target closed" ""));
    [discriminate | discriminate | reflexivity | reflexivity | reflexivity].
Defined.

(** X15: the summary counts as failed the tasks whose promise rejected, and
    a task rejects only when closing its context throws: in a run on valid
    lists where no [context.close()] throws, the summary reports every task
    as successful and none as failed, whatever happened in the captures. *)
Theorem summary_counts_no_failure (dirname : string) (urls : list string)
    (devices : list Device) (now : Date) (env : Env) (files0 : gset string) :
  urls <> [] -> devices <> [] -> forallb device_complete devices = true ->
  launch_r env = Resolves ->
  (forall i, cleanup_answer (task_env env i) = Resolves) ->
  let total := (length urls * length devices)%nat in
  exists before after,
    console_lines
      (calls (fst (run dirname (Parsed (mkConfig (Array urls) (Array devices)))
                     now env files0)))
    = (before ++ summary_lines total total O ++ after)%list.
Proof.
  intros Hu Hd Hall Hlaunch Hclean total.
  destruct (valid_lists_accepted urls devices Hu Hd Hall) as [Hurls Hdevices].
  destruct (run_valid dirname urls devices now env files0 Hurls Hdevices Hlaunch)
    as (Hlines & _).
  rewrite (tally_without_cleanup_failure _ _ Hclean), cross_product_length in Hlines.
  cbn [fst snd] in Hlines. fold total in Hlines.
  eexists _, _. exact Hlines.
Qed.

Lemma summary_counts_no_failure_witness :
  exists before after,
    console_lines
      (calls (fst (run "/app" sample_config sample_date (uniform_env goto_fails) ∅)))
    = (before ++ summary_lines 1 1 0 ++ after)%list.
Proof.
  apply (summary_counts_no_failure "/app" ["https://a.test"] [desktop_device]
           sample_date (uniform_env goto_fails) ∅);
    [discriminate | discriminate | reflexivity | reflexivity | intros i; reflexivity].
Defined.

Lemma union_singleton_present (x : string) (X : gset string) : x ∈ X -> X = X ∪ {[ x ]}.
Proof.
  intros Hin. apply set_eq. intros y.
  rewrite elem_of_union, elem_of_singleton. split; [tauto | now intros [Hy | ->]].
Qed.

(** X16: a config file that cannot be read, or whose content is not JSON,
    ends the run with code 1 after the matching message, before anything is
    validated, without starting the browser or any task; the root output
    directory has been made all the same. *)
Theorem unusable_config_file_aborts (dirname : string) (file : ConfigFile) (now : Date)
    (env : Env) (files0 : gset string) :
  (forall config, file <> Parsed config) ->
  let r := run dirname file now env files0 in
  exit_code (snd r) = 1 /\
  browser_calls (calls (fst r)) = [] /\
  task_traces (fst r) = [] /\
  files (fst r) = files0 ∪ {[ outputDir dirname ]} /\
  error_lines (calls (fst r))
  = match file with
    | Unreadable readError => ["Error reading config.json: " +:+ message readError]
    | Malformed _ => ["Error parsing config.json:";
                      "Please check the JSON syntax in your config file."]
    | Parsed _ => []
    end.
Proof.
  intros Hfile r. subst r.
  unfold run, script, main, ensure_dir, bind, try_catch, call, modify, get, ret,
    process_exit.
  cbn [files calls task_traces].
  destruct file as [readError|jsonError|config]; [| |now destruct (Hfile config)];
    destruct (decide (outputDir dirname ∈ files0)) as [Hin|Hout];
    cbn beta iota zeta delta [files calls task_traces fst snd exit_code app
                              browser_calls error_lines];
    repeat (split; [reflexivity|]);
    first [ split; [exact (union_singleton_present _ _ Hin) | reflexivity]
          | reflexivity ].
Qed.

Lemma unusable_config_file_aborts_witness :
  exit_code
    (snd (run "/app" (Malformed (mkError "Unexpected token } in JSON" ""))
            sample_date (uniform_env all_ok) ∅))
  = 1.
Proof.
  apply (unusable_config_file_aborts "/app"
           (Malformed (mkError "Unexpected token } in JSON" ""))
           sample_date (uniform_env all_ok) ∅).
  discriminate.
Defined.

(** X17: when the browser does not start, a run on valid lists ends with
    code 1 and the exception printed as unhandled; no task is started and
    nothing is closed, but both directories have been made by then. *)
Theorem launch_failure_aborts (dirname : string) (urls : list string)
    (devices : list Device) (now : Date) (env : Env) (files0 : gset string) (e : Error) :
  urls <> [] -> devices <> [] -> forallb device_complete devices = true ->
  launch_r env = Rejects e ->
  let r := run dirname (Parsed (mkConfig (Array urls) (Array devices))) now env files0 in
  let out := outputDir dirname in
  exit_code (snd r) = 1 /\
  task_traces (fst r) = [] /\
  browser_calls (calls (fst r)) = [chromium_launch] /\
  files (fst r) = files0 ∪ {[ out ]} ∪ {[ path_join out (currentDateTime now) ]} /\
  error_lines (calls (fst r)) = ["Unhandled error executing main function:"] /\
  error_details (calls (fst r)) = [message e].
Proof.
  intros Hu Hd Hall Hlaunch r out. subst r.
  destruct (valid_lists_accepted urls devices Hu Hd Hall) as [Hurls Hdevices].
  unfold run, script, main. cbn [urlList deviceSizes items_of].
  rewrite Hurls, Hdevices, Hlaunch. fold out.
  unfold ensure_dir, bind, try_catch, try_finally, call, modify, get, ret, answer,
    process_exit, throw.
  cbn [files calls task_traces].
  destruct (decide (out ∈ files0)) as [Hout|Hout];
    cbn beta iota zeta delta [files calls task_traces];
    (match goal with
     | |- context [decide (?d ∈ ?F)] => destruct (decide (d ∈ F)) as [Hdir|Hdir]
     end);
    cbn beta iota zeta delta [files calls task_traces fst snd exit_code app
                              browser_calls error_lines error_details];
    (split; [reflexivity | split; [reflexivity | split; [reflexivity |
       split; [|split; reflexivity]]]]).
  - rewrite <- (union_singleton_present _ _ Hout).
    exact (union_singleton_present _ _ Hdir).
  - now rewrite <- (union_singleton_present _ _ Hout).
  - exact (union_singleton_present _ _ Hdir).
  - reflexivity.
Qed.

Lemma launch_failure_aborts_witness :
  let r := run "/app" sample_config sample_date
             (mkEnv (Rejects (mkError "browserType.launch: Executable missing" ""))
                    (fun _ => all_ok) Resolves) ∅ in
  exit_code (snd r) = 1 /\ task_traces (fst r) = [] /\
  browser_calls (calls (fst r)) = [chromium_launch].
Proof.
  destruct (launch_failure_aborts "/app" ["https://a.test"] [desktop_device] sample_date
              (mkEnv (Rejects (mkError "browserType.launch: Executable missing" ""))
                     (fun _ => all_ok) Resolves) ∅
              (mkError "browserType.launch: Executable missing" ""))
    as (Hexit & Htasks & Hbrowser & _);
    [discriminate | discriminate | reflexivity | reflexivity |].
  split; [exact Hexit | split; [exact Htasks | exact Hbrowser]].
Defined.

(** ** The sequential script (main.js, lines 275-466) *)

Lemma seq_count_app (p : Sequential.SeqCall -> bool) (t u : list Sequential.SeqCall) :
  Sequential.count p (t ++ u) = (Sequential.count p t + Sequential.count p u)%nat.
Proof.
  induction t as [|c t IH]; [reflexivity|].
  cbn [app Sequential.count]. rewrite IH. lia.
Qed.

Lemma seq_error_details_app (t u : list Sequential.SeqCall) :
  Sequential.error_details (t ++ u)
  = (Sequential.error_details t ++ Sequential.error_details u)%list.
Proof.
  induction t as [|c t IH]; [reflexivity|].
  destruct c as [[]| |]; cbn [app Sequential.error_details]; rewrite IH; reflexivity.
Qed.

(** How a capture completes: the capture steps are guarded, obtaining the
    context and the page and closing the context are not. *)
Lemma capture_completion (env : TaskEnv) (url urlFilename : string) (device : Device)
    (dateTimeDir : string) (w : Sequential.SeqWorld) :
  snd (Sequential.capture env url urlFilename device dateTimeDir w)
  = match newContext_r env, newPage_r env, close_r env with
    | Rejects e, _, _ => Throw e
    | Resolves, Rejects e, _ => Throw e
    | Resolves, Resolves, Rejects e => Throw e
    | Resolves, Resolves, Resolves => Normal tt
    end.
Proof. oracle_prune env ltac:(reflexivity). Qed.

(** A capture adds its calls after those made before. *)
Lemma capture_frame (env : TaskEnv) (url urlFilename : string) (device : Device)
    (dateTimeDir : string) (w : Sequential.SeqWorld) :
  Sequential.calls (fst (Sequential.capture env url urlFilename device dateTimeDir w))
  = (Sequential.calls w
     ++ Sequential.calls
          (fst (Sequential.capture env url urlFilename device dateTimeDir
                  (Sequential.mkSeqWorld (Sequential.files w) []))))%list.
Proof.
  oracle_prune env ltac:(
    unfold Sequential.capture, Sequential.await_fs, Sequential.await, Sequential.call,
      bind, try_finally, try_catch, modify, answer, ret, throw;
    cbn beta iota zeta delta
      [fst snd Sequential.calls Sequential.files
       newContext_r newPage_r goto_r waitForSelector_r click_r autoScroll_r
       scrollToTop_r waitForLoadState_r screenshot_r sharp_r unlink_r close_r];
    rewrite <- ?app_assoc; reflexivity).
Qed.

(** The calls of one capture on the browser and on its context. *)
Lemma capture_counts (env : TaskEnv) (url urlFilename : string) (device : Device)
    (dateTimeDir : string) (files0 : gset string) :
  let t := Sequential.calls
             (fst (Sequential.capture env url urlFilename device dateTimeDir
                     (Sequential.mkSeqWorld files0 []))) in
  Sequential.count Sequential.is_newContext t = 1%nat /\
  Sequential.count Sequential.is_context_close t
  = match newContext_r env, newPage_r env with
    | Resolves, Resolves => 1
    | _, _ => 0
    end%nat /\
  Sequential.count Sequential.is_browser_close t = O.
Proof.
  cbv zeta. oracle_prune env ltac:(split; [|split]; reflexivity).
Qed.

Lemma bounded_cases (P : nat -> bool) (n : nat) :
  forall i0 : nat,
  (forall i, (i0 <= i < i0 + n)%nat -> P i = true) \/
  (exists i, (i0 <= i < i0 + n)%nat /\ P i = false).
Proof.
  induction n as [|n IH]; intros i0.
  - left. intros i Hi. lia.
  - destruct (P i0) eqn:H0.
    + destruct (IH (S i0)) as [Hall | (i & Hi & Hfalse)].
      * left. intros i Hi. destruct (Nat.eq_dec i i0) as [->|]; [exact H0 | apply Hall; lia].
      * right. exists i. split; [lia | exact Hfalse].
    + right. exists i0. split; [lia | exact H0].
Qed.

Section SequentialLoops.

Variables (url urlFilename dateTimeDir : string).

(** The inner loop from position [d0] on, under the oracles [cenv]. *)
Let inner (cenv : nat -> TaskEnv) (devices : list Device) (d0 : nat)
    : M Sequential.SeqWorld unit :=
  for_of devices d0
    (fun d device => Sequential.capture (cenv d) url urlFilename device dateTimeDir).

Lemma capture_step (env : TaskEnv) (device : Device) (w : Sequential.SeqWorld) :
  let r := Sequential.capture env url urlFilename device dateTimeDir w in
  Sequential.count Sequential.is_browser_close (Sequential.calls (fst r))
  = Sequential.count Sequential.is_browser_close (Sequential.calls w) /\
  Sequential.count Sequential.is_newContext (Sequential.calls (fst r))
  = S (Sequential.count Sequential.is_newContext (Sequential.calls w)) /\
  (Sequential.setup_ok env = true ->
   snd r = Normal tt /\
   Sequential.count Sequential.is_context_close (Sequential.calls (fst r))
   = S (Sequential.count Sequential.is_context_close (Sequential.calls w))) /\
  (Sequential.setup_ok env = false -> exists e, snd r = Throw e).
Proof.
  cbv zeta. rewrite capture_frame, !seq_count_app, capture_completion.
  destruct (capture_counts env url urlFilename device dateTimeDir (Sequential.files w))
    as (Hnew & Hclose & Hbrowser).
  rewrite Hnew, Hclose, Hbrowser. unfold Sequential.setup_ok.
  split; [lia|]. split; [lia|]. split.
  - destruct (newContext_r env), (newPage_r env), (close_r env);
      intros H; try discriminate H. split; [reflexivity | lia].
  - destruct (newContext_r env), (newPage_r env), (close_r env);
      intros H; try discriminate H; eexists; reflexivity.
Qed.

Lemma inner_loop (cenv : nat -> TaskEnv) (devices : list Device) :
  forall (d0 : nat) (w : Sequential.SeqWorld),
  let r := inner cenv devices d0 w in
  Sequential.count Sequential.is_browser_close (Sequential.calls (fst r))
  = Sequential.count Sequential.is_browser_close (Sequential.calls w) /\
  ((forall d, (d0 <= d < d0 + length devices)%nat -> Sequential.setup_ok (cenv d) = true) ->
   snd r = Normal tt /\
   Sequential.count Sequential.is_newContext (Sequential.calls (fst r))
   = (Sequential.count Sequential.is_newContext (Sequential.calls w) + length devices)%nat /\
   Sequential.count Sequential.is_context_close (Sequential.calls (fst r))
   = (Sequential.count Sequential.is_context_close (Sequential.calls w)
      + length devices)%nat) /\
  ((exists d, (d0 <= d < d0 + length devices)%nat /\ Sequential.setup_ok (cenv d) = false) ->
   exists e, snd r = Throw e).
Proof.
  unfold inner. induction devices as [|device devices IH]; intros d0 w; cbv zeta.
  - cbn [for_of length]. unfold ret. cbn [fst snd]. split; [reflexivity|]. split.
    + intros _. split; [reflexivity | split; lia].
    + intros (d & Hd & _). lia.
  - cbn [for_of length]. unfold bind.
    destruct (capture_step (cenv d0) device w) as (Hb & Hn & Hok & Hfail).
    destruct (Sequential.capture (cenv d0) url urlFilename device dateTimeDir w)
      as [w1 c] eqn:Hcap.
    cbn [fst snd] in Hb, Hn, Hok, Hfail.
    destruct (Sequential.setup_ok (cenv d0)) eqn:Hsetup.
    + destruct (Hok eq_refl) as [-> Hc].
      destruct (IH (S d0) w1) as (IHb & IHok & IHfail).
      split; [rewrite IHb; exact Hb|]. split.
      * intros Hall. destruct IHok as (Hr & Hnew & Hclose).
        { intros d Hd. apply Hall. lia. }
        split; [exact Hr | split; lia].
      * intros (d & Hd & Hfalse). apply IHfail. exists d. split; [|exact Hfalse].
        destruct (Nat.eq_dec d d0) as [->|]; [congruence | lia].
    + destruct (Hfail eq_refl) as [e ->]. cbn [fst snd].
      split; [exact Hb|]. split.
      * intros Hall. rewrite Hall in Hsetup by lia. discriminate Hsetup.
      * intros _. exists e. reflexivity.
Qed.

End SequentialLoops.

Lemma outer_loop (dateTimeDir : string) (cenv : nat -> nat -> TaskEnv)
    (devices : list Device) (urls : list string) :
  forall (u0 : nat) (w : Sequential.SeqWorld),
  let r := for_of urls u0
             (fun u url =>
                for_of devices O
                  (fun d device =>
                     Sequential.capture (cenv u d) url (urlFilename url) device
                       dateTimeDir)) w in
  Sequential.count Sequential.is_browser_close (Sequential.calls (fst r))
  = Sequential.count Sequential.is_browser_close (Sequential.calls w) /\
  ((forall u d, (u0 <= u < u0 + length urls)%nat -> (d < length devices)%nat ->
      Sequential.setup_ok (cenv u d) = true) ->
   snd r = Normal tt /\
   Sequential.count Sequential.is_newContext (Sequential.calls (fst r))
   = (Sequential.count Sequential.is_newContext (Sequential.calls w)
      + length urls * length devices)%nat /\
   Sequential.count Sequential.is_context_close (Sequential.calls (fst r))
   = (Sequential.count Sequential.is_context_close (Sequential.calls w)
      + length urls * length devices)%nat) /\
  ((exists u d, (u0 <= u < u0 + length urls)%nat /\ (d < length devices)%nat /\
      Sequential.setup_ok (cenv u d) = false) ->
   exists e, snd r = Throw e).
Proof.
  induction urls as [|url urls IH]; intros u0 w; cbv zeta.
  - cbn [for_of length]. unfold ret. cbn [fst snd]. split; [reflexivity|]. split.
    + intros _. split; [reflexivity | split; lia].
    + intros (u & d & Hu & _). lia.
  - cbn [for_of length]. unfold bind.
    destruct (inner_loop url (urlFilename url) dateTimeDir (cenv u0) devices O w)
      as (Hb & Hok & Hfail).
    destruct (for_of devices O
                (fun d device =>
                   Sequential.capture (cenv u0 d) url (urlFilename url) device dateTimeDir)
                w) as [w1 c] eqn:Hrow.
    cbn [fst snd] in Hb, Hok, Hfail.
    destruct (bounded_cases (fun d => Sequential.setup_ok (cenv u0 d)) (length devices) O)
      as [Hrow_ok | Hrow_fail].
    + destruct (Hok Hrow_ok) as (-> & Hn & Hc).
      destruct (IH (S u0) w1) as (IHb & IHok & IHfail).
      split; [rewrite IHb; exact Hb|]. split.
      * intros Hall. destruct IHok as (Hr & Hnew & Hclose).
        { intros u d Hu Hd. apply Hall; lia. }
        split; [exact Hr | split; lia].
      * intros (u & d & Hu & Hd & Hfalse). apply IHfail. exists u, d.
        split; [|split; [exact Hd | exact Hfalse]].
        destruct (Nat.eq_dec u u0) as [->|]; [|lia].
        rewrite Hrow_ok in Hfalse by lia. discriminate Hfalse.
    + destruct (Hfail Hrow_fail) as [e ->]. cbn [fst snd].
      split; [exact Hb|]. split.
      * intros Hall. destruct Hrow_fail as (d & Hd & Hfalse).
        rewrite Hall in Hfalse by lia. discriminate Hfalse.
      * intros _. exists e. reflexivity.
Qed.

Lemma sequential_run_cases (dirname : string) (urls : list string)
    (devices : list Device) (now : Date) (env : Sequential.SeqEnv) (files0 : gset string) :
  urlList_rejected (Array urls) = false ->
  deviceSizes_rejected (Array devices) = false ->
  Sequential.launch_r env = Resolves ->
  let r := Sequential.run dirname (Parsed (mkConfig (Array urls) (Array devices)))
             now env files0 in
  let t := Sequential.calls (fst r) in
  ((forall u d, (u < length urls)%nat -> (d < length devices)%nat ->
      Sequential.setup_ok (Sequential.capture_env env u d) = true) ->
   Sequential.count Sequential.is_newContext t = (length urls * length devices)%nat /\
   Sequential.count Sequential.is_context_close t = (length urls * length devices)%nat /\
   Sequential.count Sequential.is_browser_close t = 1%nat /\
   exit_code (snd r)
   = match Sequential.browser_close_r env with Resolves => 0 | Rejects _ => 1 end) /\
  ((exists u d, (u < length urls)%nat /\ (d < length devices)%nat /\
      Sequential.setup_ok (Sequential.capture_env env u d) = false) ->
   Sequential.count Sequential.is_browser_close t = O /\ exit_code (snd r) = 1).
Proof.
  intros Hurls Hdevices Hlaunch r t. subst t r.
  unfold Sequential.run, Sequential.script, Sequential.takeScreenshots.
  cbn [urlList deviceSizes items_of]. rewrite Hurls, Hdevices, Hlaunch.
  unfold Sequential.ensure_dir, bind, try_catch, Sequential.call, modify, get, answer,
    ret, process_exit, throw.
  cbn beta iota zeta delta [Sequential.files Sequential.calls].
  destruct (decide (outputDir dirname ∈ files0)) as [Hout|Hout];
    cbn beta iota zeta delta [Sequential.files Sequential.calls];
    (match goal with
     | |- context [decide (?d ∈ ?F)] => destruct (decide (d ∈ F)) as [Hdir|Hdir]
     end);
    cbn beta iota zeta delta [Sequential.files Sequential.calls];
    (match goal with
     | |- context [for_of urls O ?f ?W] =>
         destruct (outer_loop (path_join (outputDir dirname) (currentDateTime now))
                     (Sequential.capture_env env) devices urls O W)
           as (Hb & Hok & Hfail);
         destruct (for_of urls O f W) as [w1 c] eqn:Hloop
     end);
    cbn [fst snd Sequential.calls app Sequential.count Sequential.is_newContext
         Sequential.is_context_close Sequential.is_browser_close Nat.add] in Hb, Hok, Hfail;
    (split;
     [ intros Hall;
       destruct Hok as (-> & Hn & Hc); [intros u d Hu Hd; apply Hall; lia|];
       destruct (Sequential.browser_close_r env);
       cbn beta iota zeta delta [fst snd Sequential.files Sequential.calls exit_code];
       rewrite ?seq_count_app, Hn, Hc, Hb;
       cbn [Sequential.count Sequential.is_newContext Sequential.is_context_close
            Sequential.is_browser_close];
       (split; [lia | split; [lia | split; [lia | reflexivity]]])
     | intros (u & d & Hu & Hd & Hfalse);
       destruct Hfail as [e ->]; [exists u, d; split; [lia | split; assumption]|];
       cbn beta iota zeta delta [fst snd Sequential.files Sequential.calls exit_code];
       rewrite ?seq_count_app, Hb;
       cbn [Sequential.count Sequential.is_browser_close];
       (split; [lia | reflexivity]) ]).
Qed.



(** X19: in the sequential script the context and the page are obtained
    outside the [try], and nothing guards the loops: when for some capture
    the context or the page is not obtained, or the context does not close,
    the run ends with code 1 and the browser is never closed. *)
Theorem sequential_setup_failure_leaves_browser_open (dirname : string)
    (urls : list string) (devices : list Device) (now : Date)
    (env : Sequential.SeqEnv) (files0 : gset string) (u d : nat) :
  urls <> [] -> devices <> [] -> forallb device_complete devices = true ->
  Sequential.launch_r env = Resolves ->
  (u < length urls)%nat -> (d < length devices)%nat ->
  Sequential.setup_ok (Sequential.capture_env env u d) = false ->
  let r := Sequential.run dirname (Parsed (mkConfig (Array urls) (Array devices)))
             now env files0 in
  exit_code (snd r) = 1 /\
  Sequential.count Sequential.is_browser_close (Sequential.calls (fst r)) = O.
Proof.
  intros Hu Hd Hall Hlaunch Hurl Hdev Hsetup r.
  destruct (valid_lists_accepted urls devices Hu Hd Hall) as [Hurls Hdevices].
  destruct (sequential_run_cases dirname urls devices now env files0
              Hurls Hdevices Hlaunch) as [_ Hfail].
  destruct Hfail as [Hb Hexit]; [exists u, d; auto|].
  subst r. auto.
Qed.

Lemma sequential_setup_failure_leaves_browser_open_witness :
  let env := Sequential.mkSeqEnv Resolves
               (fun _ _ => mkTaskEnv Resolves (Rejects (mkError "Target closed" ""))
                             Resolves Resolves Resolves Resolves Resolves Resolves
                             Resolves Resolves Resolves Resolves)
               Resolves in
  let r := Sequential.run "/app" sample_config sample_date env ∅ in
  exit_code (snd r) = 1 /\
  Sequential.count Sequential.is_browser_close (Sequential.calls (fst r)) = O.
Proof.
  cbv zeta.
  apply (sequential_setup_failure_leaves_browser_open "/app" ["https://a.test"]
           [desktop_device] sample_date _ ∅ 0 0);
    [discriminate | discriminate | reflexivity | reflexivity
    | cbn; lia | cbn; lia | reflexivity].
Defined.

Lemma capture_error_details (env : TaskEnv) (url urlFilename : string) (device : Device)
    (dateTimeDir : string) (files0 : gset string) (e : Error) :
  newContext_r env = Resolves -> newPage_r env = Resolves ->
  thrown_in_try env = Some e ->
  Sequential.error_details
    (Sequential.calls
       (fst (Sequential.capture env url urlFilename device dateTimeDir
               (Sequential.mkSeqWorld files0 []))))
  = [message e].
Proof.
  intros H1 H2 H.
  oracle_prune env ltac:(
    cbn in H;
    first [discriminate H1 | discriminate H2 | discriminate H
          | injection H as <-; reflexivity]).
Qed.

(** X20: the two scripts report a failed capture differently: for the same
    exception the sequential script prints the whole [message], the
    parallel one its first line. *)
Theorem sequential_logs_whole_message (env : TaskEnv) (url : string) (device : Device)
    (dateTimeDir : string) (files0 : gset string) (e : Error) :
  newContext_r env = Resolves -> newPage_r env = Resolves ->
  thrown_in_try env = Some e ->
  Sequential.error_details
    (Sequential.calls
       (fst (Sequential.capture env url (urlFilename url) device dateTimeDir
               (Sequential.mkSeqWorld files0 []))))
  = [message e] /\
  error_details (trace (fst (run_task env url device dateTimeDir files0)))
  = [first_line (message e)].
Proof.
  intros H1 H2 H. split.
  - now apply capture_error_details.
  - now apply run_task_error_details.
Qed.

Lemma sequential_logs_whole_message_witness :
  Sequential.error_details
    (Sequential.calls
       (fst (Sequential.capture goto_fails "https://a.test" (urlFilename "https://a.test")
               desktop_device "/out" (Sequential.mkSeqWorld ∅ []))))
  = [message timeout_error] /\
  error_details (trace (fst (run_task goto_fails "https://a.test" desktop_device "/out" ∅)))
  = [first_line (message timeout_error)].
Proof.
  apply (sequential_logs_whole_message goto_fails "https://a.test" desktop_device
           "/out" ∅ timeout_error); reflexivity.
Defined.

(** X21: the two scripts leave the same files: under the same answers a
    capture of the sequential script and a task of the parallel script
    started on the same files end on the same files. *)
Theorem sequential_capture_same_files (env : TaskEnv) (url : string) (device : Device)
    (dateTimeDir : string) (files0 : gset string) (t0 : list Sequential.SeqCall) :
  Sequential.files
    (fst (Sequential.capture env url (urlFilename url) device dateTimeDir
            (Sequential.mkSeqWorld files0 t0)))
  = fs (fst (run_task env url device dateTimeDir files0)).
Proof. oracle_prune env ltac:(reflexivity). Qed.

(** X22: a page that cannot be opened leaks the context in the sequential
    script and not in the parallel one: when [context.newPage()] throws,
    the sequential capture throws without closing the context it obtained,
    while the parallel task closes it and, the close succeeding, returns
    its failure outcome. *)
Theorem page_failure_leaks_context_in_sequential (env : TaskEnv) (url : string)
    (device : Device) (dateTimeDir : string) (files0 : gset string) (e : Error) :
  newContext_r env = Resolves -> newPage_r env = Rejects e ->
  let seq := Sequential.capture env url (urlFilename url) device dateTimeDir
               (Sequential.mkSeqWorld files0 []) in
  let par := run_task env url device dateTimeDir files0 in
  snd seq = Throw e /\
  Sequential.count Sequential.is_context_close (Sequential.calls (fst seq)) = O /\
  count_calls is_context_close (trace (fst par)) = 1%nat /\
  (close_r env = Resolves ->
   snd par = Normal (Outcome.mk "rejected" url (name device) (Some (message e)))).
Proof.
  intros H1 H2. cbv zeta.
  oracle_prune env ltac:(
    first [ discriminate H1 | discriminate H2
          | injection H2 as <-;
            split; [reflexivity | split; [reflexivity | split; [reflexivity|]]];
            intros H; first [discriminate H | reflexivity] ]).
Qed.

Lemma page_failure_leaks_context_in_sequential_witness :
  let env := mkTaskEnv Resolves (Rejects (mkError "Target closed" "")) Resolves Resolves
               Resolves Resolves Resolves Resolves Resolves Resolves Resolves Resolves in
  Sequential.count Sequential.is_context_close
    (Sequential.calls
       (fst (Sequential.capture env "https://a.test" (urlFilename "https://a.test")
               desktop_device "/out" (Sequential.mkSeqWorld ∅ []))))
  = O.
Proof.
  cbv zeta.
  apply (page_failure_leaks_context_in_sequential
           (mkTaskEnv Resolves (Rejects (mkError "Target closed" "")) Resolves Resolves
              Resolves Resolves Resolves Resolves Resolves Resolves Resolves Resolves)
           "https://a.test" desktop_device "/out" ∅ (mkError "Target closed" ""));
    reflexivity.
Defined.

(** ** The first script (src/unnamed/part_000) *)

(** X23: a capture of the first script whose context and page are obtained
    and whose navigation and screenshot succeed leaves exactly one new
    file, [<urlDir>/<name>_<width>x<height>.png], and keeps it: the file
    name does not depend on the URL, which only chooses the directory. *)
Theorem basic_capture_keeps_png (env : TaskEnv) (url urlDir n : string) (w h : Z)
    (ua : JsValue) (files0 : gset string) :
  newContext_r env = Resolves -> newPage_r env = Resolves ->
  goto_r env = Resolves -> screenshot_r env = Resolves ->
  Basic.files
    (fst (Basic.capture env url urlDir (mkDevice (Some n) (Some w) (Some h) ua)
            (Basic.mkBasicWorld files0 [])))
  = files0 ∪ {[ urlDir +:+ "/" +:+ n +:+ "_" +:+ String_of_Z w +:+ "x"
                  +:+ String_of_Z h +:+ ".png" ]}.
Proof.
  intros H1 H2 H3 H4.
  destruct env as [a1 a2 a3 a4 a5 a6 a7 a8 a9 a10 a11 a12].
  cbn [newContext_r newPage_r goto_r screenshot_r] in *. subst a1 a2 a3 a9.
  destruct a12; reflexivity.
Qed.

Lemma basic_capture_keeps_png_witness :
  Basic.files
    (fst (Basic.capture all_ok "https://a.test" "/app/screenshots/a_test" desktop_device
            (Basic.mkBasicWorld ∅ [])))
  = ∅ ∪ {[ "/app/screenshots/a_test/desktop_1280x800.png" ]}.
Proof.
  apply (basic_capture_keeps_png all_ok "https://a.test" "/app/screenshots/a_test"
           "desktop" 1280 800 JsUndefined ∅); reflexivity.
Defined.

(** X24: in the first script neither reading nor parsing the config is
    guarded: an unreadable file and a file that is not JSON both end the
    run with code 1 through the handler of the last line, with the one
    message [Error taking screenshots:], before the browser is started. *)
Theorem basic_unusable_config_file (dirname : string) (file : ConfigFile)
    (env : Basic.BasicEnv) (files0 : gset string) :
  (forall config, file <> Parsed config) ->
  let r := Basic.run dirname file env files0 in
  exit_code (snd r) = 1 /\
  Basic.error_lines (Basic.calls (fst r)) = ["Error taking screenshots:"] /\
  Basic.launches (Basic.calls (fst r)) = O /\
  Basic.files (fst r) = files0 ∪ {[ Basic.outputDir dirname ]}.
Proof.
  intros Hfile r. subst r.
  unfold Basic.run, Basic.script, Basic.takeScreenshots, Basic.ensure_dir, bind,
    try_catch, Basic.call, modify, get, ret, process_exit, throw.
  cbn beta iota zeta delta [Basic.files Basic.calls].
  destruct file as [readError|jsonError|config]; [| |now destruct (Hfile config)];
    destruct (decide (Basic.outputDir dirname ∈ files0)) as [Hin|Hout];
    cbn beta iota zeta delta [Basic.files Basic.calls fst snd exit_code app
                              Basic.error_lines Basic.launches];
    (split; [reflexivity | split; [reflexivity | split; [reflexivity|]]]);
    first [exact (union_singleton_present _ _ Hin) | reflexivity].
Qed.

Lemma basic_unusable_config_file_witness :
  Basic.error_lines
    (Basic.calls
       (fst (Basic.run "/app" (Malformed (mkError "Unexpected end of JSON input" ""))
               (Basic.mkBasicEnv Resolves (fun _ _ => all_ok) Resolves) ∅)))
  = ["Error taking screenshots:"].
Proof.
  apply (basic_unusable_config_file "/app"
           (Malformed (mkError "Unexpected end of JSON input" ""))
           (Basic.mkBasicEnv Resolves (fun _ _ => all_ok) Resolves) ∅).
  discriminate.
Defined.
